(** * shop.py: inventory and sales ledger of a small shop

    A shallow embedding of [shop.py].  Python objects live in a store:
    a [Product] is an object reached through a reference, the inventory
    dictionary maps product ids to references and a [Sale] keeps the
    references of the products it sold, so an update made through the
    inventory is seen by every holder of the object.  The two CSV files
    are part of the state.  Methods are computations in a state monad
    whose state survives a raised exception, as a Python object keeps
    the mutations made before the exception.

    The [csv] module and the text mode of [open] are modelled character
    by character, with the excel dialect that the program uses: the
    writer's quoting, the translation of line breaks on reading, and
    the parser of the reader with its states.  The text of a float
    ([repr], [float]) is taken from the interpreter as two functions,
    [repr] within the 24 characters that it never exceeds.

    Characters are the code points below 256.  The two limits of the
    interpreter that the program can reach are modelled at their
    defaults, which the program never changes: the largest field of the
    CSV reader (131072 characters) and the largest number of digits of
    a conversion between [int] and [str] (4300). *)

From Stdlib Require Import ZArith List String Ascii Bool Lia Floats.
From Stdlib Require DecimalZ DecimalPos DecimalFacts.
Import ListNotations.

Open Scope string_scope.
Open Scope Z_scope.
Open Scope list_scope.

(** ** Python values *)

Inductive exn : Type :=
| KeyError | ValueError | TypeError | OverflowError | EOFError | CsvError.

Inductive result (A : Type) : Type :=
| Ok (a : A)
| Raise (e : exn).
Arguments Ok {A} a.
Arguments Raise {A} e.

(** What the program stores as an id or a name: a [str], or the [None]
    that [csv.DictReader] puts in a row shorter than the header. *)
Inductive pyval : Type :=
| PyNone
| PyStr (s : string).

Definition pyval_eqb (a b : pyval) : bool :=
  match a, b with
  | PyNone, PyNone => true
  | PyStr s, PyStr t => String.eqb s t
  | _, _ => false
  end.

(** ** Characters and text *)

Definition LF : ascii := "010"%char.
Definition CR : ascii := "013"%char.
Definition COMMA : ascii := ","%char.
Definition QUOTE : ascii := "034"%char.

Definition is_newline (c : ascii) : bool := Ascii.eqb c LF || Ascii.eqb c CR.

Definition str1 (c : ascii) : string := String c EmptyString.

(** [str.lower] on the letters A to Z; no other character below 256
    lowers to a letter of ["done"]. *)
Definition ascii_lower (c : ascii) : ascii :=
  let n := nat_of_ascii c in
  if (Nat.leb 65 n && Nat.leb n 90)%bool then ascii_of_nat (n + 32) else c.

Fixpoint lower (s : string) : string :=
  match s with
  | EmptyString => EmptyString
  | String c s' => String (ascii_lower c) (lower s')
  end.

(** *** int(str) and str(int) *)

(** The largest number of digits that [int] takes from a [str] and that
    [str] prints of an [int]; beyond it both raise [ValueError]. *)
Definition max_str_digits : Z := 4300.

(** The characters [int] strips: tab to carriage return, space, and the
    two spaces above 127. *)
Definition is_space (c : ascii) : bool :=
  let n := nat_of_ascii c in
  ((Nat.leb 9 n && Nat.leb n 13) || Nat.eqb n 32 || Nat.eqb n 133 || Nat.eqb n 160)%bool.

Definition digit_of (c : ascii) : option (Decimal.uint -> Decimal.uint) :=
  match nat_of_ascii c with
  | 48%nat => Some Decimal.D0 | 49%nat => Some Decimal.D1
  | 50%nat => Some Decimal.D2 | 51%nat => Some Decimal.D3
  | 52%nat => Some Decimal.D4 | 53%nat => Some Decimal.D5
  | 54%nat => Some Decimal.D6 | 55%nat => Some Decimal.D7
  | 56%nat => Some Decimal.D8 | 57%nat => Some Decimal.D9
  | _ => None
  end.

Fixpoint all_space (s : string) : bool :=
  match s with
  | EmptyString => true
  | String c s' => (is_space c && all_space s')%bool
  end.

Fixpoint lstrip (s : string) : string :=
  match s with
  | EmptyString => EmptyString
  | String c s' => if is_space c then lstrip s' else s
  end.

(** The digits of an integer literal after its first digit: digits with
    single underscores between them, then only spaces.  [prev_us] says
    that the previous character was an underscore. *)
Fixpoint int_digits (prev_us : bool) (s : string) : option Decimal.uint :=
  match s with
  | EmptyString => if prev_us then None else Some Decimal.Nil
  | String c s' =>
      match digit_of c with
      | Some d => option_map d (int_digits false s')
      | None =>
          if Ascii.eqb c "_"%char then
            if prev_us then None else int_digits true s'
          else if (negb prev_us && is_space c && all_space s')%bool
               then Some Decimal.Nil
               else None
      end
  end.

(** The digits are counted with their leading zeros and without the
    underscores. *)
Definition int_literal (s : string) : option Z :=
  match s with
  | EmptyString => None
  | String c s' =>
      match digit_of c with
      | Some d =>
          match int_digits false s' with
          | Some u =>
              if Z.of_nat (Decimal.nb_digits (d u)) <=? max_str_digits
              then Some (Z.of_uint (d u))
              else None
          | None => None
          end
      | None => None
      end
  end.

(** [int(s)] for a [str]: [None] is [ValueError]. *)
Definition py_int (s : string) : option Z :=
  match lstrip s with
  | EmptyString => None
  | String c s' =>
      if Ascii.eqb c "-"%char then option_map Z.opp (int_literal s')
      else if Ascii.eqb c "+"%char then int_literal s'
      else int_literal (String c s')
  end.

Fixpoint string_of_uint (d : Decimal.uint) : string :=
  match d with
  | Decimal.Nil => EmptyString
  | Decimal.D0 d => String "0" (string_of_uint d)
  | Decimal.D1 d => String "1" (string_of_uint d)
  | Decimal.D2 d => String "2" (string_of_uint d)
  | Decimal.D3 d => String "3" (string_of_uint d)
  | Decimal.D4 d => String "4" (string_of_uint d)
  | Decimal.D5 d => String "5" (string_of_uint d)
  | Decimal.D6 d => String "6" (string_of_uint d)
  | Decimal.D7 d => String "7" (string_of_uint d)
  | Decimal.D8 d => String "8" (string_of_uint d)
  | Decimal.D9 d => String "9" (string_of_uint d)
  end.

(** The decimal text of an [int]. *)
Definition str_of_int (n : Z) : string :=
  match n with
  | Z0 => "0"
  | Zpos p => string_of_uint (Pos.to_uint p)
  | Zneg p => String "-" (string_of_uint (Pos.to_uint p))
  end.

(** An [int] with no more digits than [str] prints. *)
Definition int_prints (n : Z) : bool :=
  Z.of_nat (String.length (str_of_int (Z.abs n))) <=? max_str_digits.

(** [str(n)] for an [int]. *)
Definition int_str (n : Z) : result string :=
  if int_prints n then Ok (str_of_int n) else Raise ValueError.

(** *** float *)

(** The conversion of an [int] operand of a float operation: the nearest
    double, ties to even, and [OverflowError] past the largest double. *)
Definition float_of_int (n : Z) : result float :=
  let x := SF2Prim (binary_normalize prec emax n 0 false) in
  if is_infinity x then Raise OverflowError else Ok x.

(** [x * n] for a float [x] and an int [n]. *)
Definition float_mul_int (x : float) (n : Z) : result float :=
  match float_of_int n with
  | Ok y => Ok (x * y)%float
  | Raise e => Raise e
  end.

(** The text of the floats of the scenarios, as [repr] prints them and
    [float] reads them; the conversions of the interpreter are not
    modelled beyond these values. *)
Definition sample_repr (x : float) : string :=
  if (x =? 2.5)%float then "2.5"
  else if (x =? 5)%float then "5.0"
  else if (x =? 10)%float then "10.0"
  else "nan".

Definition sample_float (s : string) : option float :=
  if String.eqb s "2.5" then Some 2.5%float
  else if String.eqb s "5.0" then Some 5%float
  else if String.eqb s "10.0" then Some 10%float
  else None.

(** ** The csv module, excel dialect *)

(** *** Files in text mode *)

(** Reading with [newline=None] (the default of [open]): ["\r\n"] and a
    lone ["\r"] both become ["\n"].  [pendingcr] says that the previous
    character was a carriage return. *)
Fixpoint universal_newlines (pendingcr : bool) (s : string) : string :=
  match s with
  | EmptyString => EmptyString
  | String c s' =>
      if Ascii.eqb c CR then String LF (universal_newlines true s')
      else if Ascii.eqb c LF then
        if pendingcr then universal_newlines false s'
        else String LF (universal_newlines false s')
      else String c (universal_newlines false s')
  end.

(** The lines a file object yields, each with its line feed; [cur] is
    the line read so far. *)
Fixpoint readlines (cur : string) (s : string) : list string :=
  match s with
  | EmptyString => match cur with EmptyString => [] | _ => [cur] end
  | String c s' =>
      if Ascii.eqb c LF then (cur ++ str1 c)%string :: readlines EmptyString s'
      else readlines (cur ++ str1 c)%string s'
  end.

(** *** csv.writer *)

Definition special (c : ascii) : bool :=
  (Ascii.eqb c COMMA || Ascii.eqb c QUOTE || Ascii.eqb c CR || Ascii.eqb c LF)%bool.

Fixpoint has_special (s : string) : bool :=
  match s with
  | EmptyString => false
  | String c s' => (special c || has_special s')%bool
  end.

Fixpoint double_quotes (s : string) : string :=
  match s with
  | EmptyString => EmptyString
  | String c s' =>
      if Ascii.eqb c QUOTE then String QUOTE (String QUOTE (double_quotes s'))
      else String c (double_quotes s')
  end.

(** [join_append]: a field with a delimiter, a quote or a line break is
    quoted and its quotes are doubled. *)
Definition join_append (fld : string) : string :=
  if has_special fld
  then (str1 QUOTE ++ double_quotes fld ++ str1 QUOTE)%string
  else fld.

Definition lineterminator : string := String CR (String LF EmptyString).

(** The text of a file after the writes [l], one after the other. *)
Fixpoint writes (l : list string) : string :=
  match l with
  | [] => EmptyString
  | x :: l' => (x ++ writes l')%string
  end.

(** The record that [writer.writerow] builds: a row that is one empty
    field is written quoted. *)
Definition join_fields (row : list string) : string :=
  let rec := String.concat (str1 COMMA) (map join_append row) in
  match row, rec with
  | _ :: _, EmptyString => (str1 QUOTE ++ str1 QUOTE)%string
  | _, _ => rec
  end.

Definition writerow (row : list string) : string :=
  (join_fields row ++ lineterminator)%string.

(** *** csv.reader *)

(** The states of the parser that the excel dialect can reach (it has
    no escape character). *)
Inductive ParserState : Type :=
| START_RECORD | START_FIELD | IN_FIELD | IN_QUOTED_FIELD
| QUOTE_IN_QUOTED_FIELD | EAT_CRNL.

Record Reader : Type := mkReader {
  state : ParserState;
  fields : list string;
  field : string
}.

Definition parse_reset : Reader := mkReader START_RECORD [] EmptyString.

Definition set_state (s : ParserState) (r : Reader) : Reader :=
  mkReader s (fields r) (field r).

Definition parse_save_field (r : Reader) : Reader :=
  mkReader (state r) (fields r ++ [field r]) EmptyString.

(** [csv.field_size_limit()], which the program never changes. *)
Definition field_limit : Z := 131072.

(** A field that has reached the limit takes no more characters: the
    reader raises [csv.Error]. *)
Definition parse_add_char (r : Reader) (c : ascii) : result Reader :=
  if field_limit <=? Z.of_nat (String.length (field r)) then Raise CsvError
  else Ok (mkReader (state r) (fields r) (field r ++ str1 c)%string).

(** [parse_add_char], then the new state. *)
Definition add_char (s : ParserState) (r : Reader) (c : ascii) : result Reader :=
  match parse_add_char r c with
  | Ok r' => Ok (set_state s r')
  | Raise e => Raise e
  end.

(** The case START_FIELD, which START_RECORD falls into. *)
Definition start_field (r : Reader) (c : option ascii) : result Reader :=
  match c with
  | None => Ok (set_state START_RECORD (parse_save_field r))
  | Some ch =>
      if is_newline ch then Ok (set_state EAT_CRNL (parse_save_field r))
      else if Ascii.eqb ch QUOTE then Ok (set_state IN_QUOTED_FIELD r)
      else if Ascii.eqb ch COMMA then Ok (set_state START_FIELD (parse_save_field r))
      else add_char IN_FIELD r ch
  end.

(** [parse_process_char]; the character [None] is the end of a line. *)
Definition parse_process_char (r : Reader) (c : option ascii) : result Reader :=
  match state r with
  | START_RECORD =>
      match c with
      | None => Ok r
      | Some ch =>
          if is_newline ch then Ok (set_state EAT_CRNL r)
          else start_field r c
      end
  | START_FIELD => start_field r c
  | IN_FIELD =>
      match c with
      | None => Ok (set_state START_RECORD (parse_save_field r))
      | Some ch =>
          if is_newline ch then Ok (set_state EAT_CRNL (parse_save_field r))
          else if Ascii.eqb ch COMMA then Ok (set_state START_FIELD (parse_save_field r))
          else parse_add_char r ch
      end
  | IN_QUOTED_FIELD =>
      match c with
      | None => Ok r
      | Some ch =>
          if Ascii.eqb ch QUOTE then Ok (set_state QUOTE_IN_QUOTED_FIELD r)
          else parse_add_char r ch
      end
  | QUOTE_IN_QUOTED_FIELD =>
      match c with
      | None => Ok (set_state START_RECORD (parse_save_field r))
      | Some ch =>
          if Ascii.eqb ch QUOTE then add_char IN_QUOTED_FIELD r ch
          else if Ascii.eqb ch COMMA then Ok (set_state START_FIELD (parse_save_field r))
          else if is_newline ch then Ok (set_state EAT_CRNL (parse_save_field r))
          else add_char IN_FIELD r ch
      end
  | EAT_CRNL =>
      match c with
      | None => Ok (set_state START_RECORD r)
      | Some ch => if is_newline ch then Ok r else Raise CsvError
      end
  end.

(** The characters of one line, then the end of the line. *)
Fixpoint parse_line (r : Reader) (line : string) : result Reader :=
  match line with
  | EmptyString => parse_process_char r None
  | String c line' =>
      match parse_process_char r (Some c) with
      | Ok r' => parse_line r' line'
      | Raise e => Raise e
      end
  end.

Definition state_is_start (r : Reader) : bool :=
  match state r with START_RECORD => true | _ => false end.

Definition state_is_quoted (r : Reader) : bool :=
  match state r with IN_QUOTED_FIELD => true | _ => false end.

(** The records [Reader_iternext] returns one after the other, and the
    error that ends the iteration if there is one.  A record takes lines
    until the parser is back at the start of a record; at the end of the
    input an unfinished record is returned as it is. *)
Fixpoint reader_from (r : Reader) (lines : list string)
  : list (list string) * option exn :=
  match lines with
  | [] =>
      match field r with
      | EmptyString =>
          if state_is_quoted r then ([fields (parse_save_field r)], None)
          else ([], None)
      | _ => ([fields (parse_save_field r)], None)
      end
  | line :: rest =>
      match parse_line r line with
      | Raise e => ([], Some e)
      | Ok r' =>
          if state_is_start r' then
            let (recs, err) := reader_from parse_reset rest in
            (fields r' :: recs, err)
          else reader_from r' rest
      end
  end.

Definition reader (lines : list string) : list (list string) * option exn :=
  reader_from parse_reset lines.

(** The characters of the beginning of a line, without its end. *)
Fixpoint parse_chars (r : Reader) (s : string) : result Reader :=
  match s with
  | EmptyString => Ok r
  | String c s' =>
      match parse_process_char r (Some c) with
      | Ok r' => parse_chars r' s'
      | Raise e => Raise e
      end
  end.

(** [reads r s out]: a reader that has come to [r] inside the current
    line returns [out] when the rest of the text is [s]. *)
Definition reads (r : Reader) (s : string) (out : list (list string) * option exn) : Prop :=
  forall r0 cur,
    parse_chars r0 cur = Ok r ->
    reader_from r0 (readlines cur s) = out.

Fixpoint no_cr (s : string) : bool :=
  match s with
  | EmptyString => true
  | String c s' => (negb (Ascii.eqb c CR) && no_cr s')%bool
  end.

(** A text that a field of the reader can hold. *)
Definition fits (s : string) : bool :=
  Z.of_nat (String.length s) <=? field_limit.

(** What the reader returns when a field does not fit. *)
Definition field_error : list (list string) * option exn := ([], Some CsvError).

(** The elements of a list before the first that fails [f]. *)
Fixpoint take_while {A : Type} (f : A -> bool) (l : list A) : list A :=
  match l with
  | [] => []
  | a :: l' => if f a then a :: take_while f l' else []
  end.

(** The records that the reader returns before the first one with a
    field over the limit. *)
Definition fitting (rows : list (list string)) : list (list string) :=
  take_while (forallb fits) rows.

(** A written record whose fields, with their line breaks translated,
    the reader can hold. *)
Definition record_fits (rec : list string) : bool :=
  forallb fits (map (universal_newlines false) rec).

(** What the reader makes of the records [rows] once written: those
    before the first record that does not fit, and the error it raises
    at that record. *)
Definition read_back (rows : list (list string)) : list (list string) * option exn :=
  (fitting rows, if forallb (forallb fits) rows then None else Some CsvError).

(** The state of the parser after the text of a field. *)
Definition field_end (fld : string) : ParserState :=
  if has_special fld then QUOTE_IN_QUOTED_FIELD
  else match fld with EmptyString => START_FIELD | _ => IN_FIELD end.

(** *** csv.DictReader *)

(** A row as [DictReader] builds it: the header zipped with the record,
    then [None] for the columns the record lacks.  Lookup takes the last
    binding of a key, as the assignments into the dict leave it. *)
Definition DictRow : Type := list (string * pyval).

Fixpoint zip_row (fieldnames : list string) (row : list string) : DictRow :=
  match fieldnames, row with
  | k :: ks, v :: vs => (k, PyStr v) :: zip_row ks vs
  | _, _ => []
  end.

Definition make_row (fieldnames : list string) (row : list string) : DictRow :=
  (zip_row fieldnames row
   ++ map (fun k => (k, PyNone)) (skipn (List.length row) fieldnames))%list.

Fixpoint row_find (key : string) (d : DictRow) (found : option pyval) : option pyval :=
  match d with
  | [] => found
  | (k, v) :: d' =>
      row_find key d' (if String.eqb key k then Some v else found)
  end.

(** [row[key]] *)
Definition getitem (d : DictRow) (key : string) : result pyval :=
  match row_find key d None with
  | Some v => Ok v
  | None => Raise KeyError
  end.

Definition is_nil {A : Type} (l : list A) : bool :=
  match l with [] => true | _ => false end.

(** The rows of a [DictReader] over the records of a reader: the first
    record is the header, empty records are skipped. *)
Definition DictReader (recs : list (list string)) : list DictRow :=
  match recs with
  | [] => []
  | fieldnames :: rest =>
      map (make_row fieldnames) (filter (fun row => negb (is_nil row)) rest)
  end.

(** [csv.DictReader(open(name, "r"))] on the stored text of the file. *)
Definition read_csv (text : string) : list DictRow * option exn :=
  let (recs, err) := reader (readlines EmptyString (universal_newlines false text)) in
  (DictReader recs, err).

(** [str(v)] as the writer takes a field: [None] is the empty field. *)
Definition csv_text (v : pyval) : string :=
  match v with
  | PyNone => EmptyString
  | PyStr s => s
  end.

(** ** Objects and the store *)

Definition ref := nat.

Record Product : Type := mkProduct {
  product_id : pyval;
  name : pyval;
  price : float;
  quantity : Z
}.

Record Sale : Type := mkSale {
  sale_id : pyval;
  products_sold : list (ref * Z)
}.

(** [products] is the dictionary of [Inventory], in insertion order;
    [sales] is the list of [SalesManager]. *)
Record Shop : Type := mkShop {
  heap : ref -> Product;
  next_ref : ref;
  products : list (pyval * ref);
  sales : list Sale;
  inventory_csv : option string;
  sales_csv : option string
}.

Definition set_heap (h : ref -> Product) (st : Shop) : Shop :=
  mkShop h (next_ref st) (products st) (sales st) (inventory_csv st) (sales_csv st).
Definition set_products (d : list (pyval * ref)) (st : Shop) : Shop :=
  mkShop (heap st) (next_ref st) d (sales st) (inventory_csv st) (sales_csv st).
Definition set_sales (l : list Sale) (st : Shop) : Shop :=
  mkShop (heap st) (next_ref st) (products st) l (inventory_csv st) (sales_csv st).
Definition set_inventory_csv (f : option string) (st : Shop) : Shop :=
  mkShop (heap st) (next_ref st) (products st) (sales st) f (sales_csv st).
Definition set_sales_csv (f : option string) (st : Shop) : Shop :=
  mkShop (heap st) (next_ref st) (products st) (sales st) (inventory_csv st) f.

Definition store (h : ref -> Product) (r : ref) (p : Product) : ref -> Product :=
  fun r' => if Nat.eqb r' r then p else h r'.

(** ** Dictionaries in insertion order *)

Fixpoint dict_get {V : Type} (k : pyval) (d : list (pyval * V)) : option V :=
  match d with
  | [] => None
  | (k', v) :: d' => if pyval_eqb k k' then Some v else dict_get k d'
  end.

(** [d[k] = v]: an existing key keeps its place, a new key goes last. *)
Fixpoint dict_set {V : Type} (k : pyval) (v : V) (d : list (pyval * V))
  : list (pyval * V) :=
  match d with
  | [] => [(k, v)]
  | (k', v') :: d' =>
      if pyval_eqb k k' then (k, v) :: d' else (k', v') :: dict_set k v d'
  end.

(** ** The monad of methods *)

Definition M (A : Type) : Type := Shop -> result A * Shop.

Definition ret {A : Type} (a : A) : M A := fun st => (Ok a, st).
Definition raise {A : Type} (e : exn) : M A := fun st => (Raise e, st).
Definition bind {A B : Type} (m : M A) (k : A -> M B) : M B :=
  fun st =>
    match m st with
    | (Ok a, st') => k a st'
    | (Raise e, st') => (Raise e, st')
    end.
Definition get : M Shop := fun st => (Ok st, st).
Definition modify (f : Shop -> Shop) : M unit := fun st => (Ok tt, f st).
Definition lift {A : Type} (r : result A) : M A := fun st => (r, st).

Notation "x <- m ;; k" := (bind m (fun x => k))
  (at level 61, m at next level, right associativity).
Notation "m ;;; k" := (bind m (fun _ => k))
  (at level 61, right associativity).

(** ** [input] *)

(** The lines still to be read from the standard input are passed
    along; what the program prints is left out. *)
Definition input (inp : list string) : result (string * list string) :=
  match inp with
  | [] => Raise EOFError
  | line :: rest => Ok (line, rest)
  end.

Section Shop.

(** [repr] of a float and [float] of a [str] ([None] is [ValueError])
    are taken as they come from the interpreter. *)
Variable repr_text : float -> string.
Variable py_float : string -> option float.

(** [repr] of a double has at most 24 characters (a sign, 17 digits, a
    point and an exponent of 5 characters); the text of the parameter is
    taken within this length. *)
Definition float_repr (x : float) : string := substring 0 24 (repr_text x).

Definition float_of_pyval (v : pyval) : result float :=
  match v with
  | PyNone => Raise TypeError
  | PyStr s => match py_float s with Some x => Ok x | None => Raise ValueError end
  end.

Definition int_of_pyval (v : pyval) : result Z :=
  match v with
  | PyNone => Raise TypeError
  | PyStr s => match py_int s with Some n => Ok n | None => Raise ValueError end
  end.

(** ** class Product *)

(** [Product(product_id, name, price, quantity)]: a new object. *)
Definition Product_new (p : Product) : M ref :=
  st <- get ;;
  let r := next_ref st in
  modify (fun st =>
    mkShop (store (heap st) r p) (S r) (products st) (sales st)
           (inventory_csv st) (sales_csv st)) ;;;
  ret r.

(** The object [p] after [p.quantity = q]. *)
Definition with_quantity (p : Product) (q : Z) : Product :=
  mkProduct (product_id p) (name p) (price p) q.

Definition Product_update_quantity (self : ref) (quantity_sold : Z) : M bool :=
  st <- get ;;
  let p := heap st self in
  if quantity_sold >? quantity p then ret false
  else
    modify (set_heap (store (heap st) self
      (with_quantity p (quantity p - quantity_sold)))) ;;;
    ret true.

(** The dict of [Product.to_dict], one field per key. *)
Record ProductDict : Type := mkProductDict {
  inv_product_id : pyval;
  inv_product_name : pyval;
  inv_price : float;
  inv_quantity : Z
}.

Definition Product_to_dict (p : Product) : ProductDict :=
  mkProductDict (product_id p) (name p) (price p) (quantity p).

(** ** class Inventory *)

Definition inventory_fieldnames : list string :=
  ["product_id"; "product_name"; "price"; "quantity"].

(** The record that [writer.writerow] builds of the dict of a product:
    [str] of each value, and [repr] of the float; [str] of a quantity
    beyond the digit limit raises. *)
Definition inventory_record (d : ProductDict) : result (list string) :=
  match int_str (inv_quantity d) with
  | Ok q =>
      Ok [csv_text (inv_product_id d); csv_text (inv_product_name d);
          float_repr (inv_price d); q]
  | Raise e => Raise e
  end.

Definition Inventory_view_inventory : M (list ProductDict) :=
  st <- get ;;
  ret (map (fun kv => Product_to_dict (heap st (snd kv))) (products st)).

(** The text written for the products of [d]; when [writerow] raises,
    nothing of its row is written and what was written before stays in
    the file. *)
Fixpoint inventory_text (h : ref -> Product) (d : list (pyval * ref))
  : string * option exn :=
  match d with
  | [] => (EmptyString, None)
  | kv :: d' =>
      match inventory_record (Product_to_dict (h (snd kv))) with
      | Raise e => (EmptyString, Some e)
      | Ok rec =>
          let (text, err) := inventory_text h d' in
          ((writerow rec ++ text)%string, err)
      end
  end.

Definition Inventory_save_to_file : M unit :=
  st <- get ;;
  let (text, err) := inventory_text (heap st) (products st) in
  modify (set_inventory_csv (Some (writerow inventory_fieldnames ++ text)%string)) ;;;
  match err with
  | Some e => raise e
  | None => ret tt
  end.

Definition Inventory_add_product (product : ref) : M unit :=
  st <- get ;;
  modify (set_products (dict_set (product_id (heap st product)) product (products st))) ;;;
  Inventory_save_to_file.

Definition Inventory_update_product (pid : pyval) (quantity_sold : Z) : M bool :=
  st <- get ;;
  match dict_get pid (products st) with
  | Some r => Product_update_quantity r quantity_sold
  | None => ret false
  end.

(** One turn of the loop of [Inventory.load_from_file]. *)
Definition Inventory_load_row (row : DictRow) : M unit :=
  pid <- lift (getitem row "product_id") ;;
  nm <- lift (getitem row "product_name") ;;
  pr <- lift (getitem row "price") ;;
  x <- lift (float_of_pyval pr) ;;
  qt <- lift (getitem row "quantity") ;;
  n <- lift (int_of_pyval qt) ;;
  r <- Product_new (mkProduct pid nm x n) ;;
  key <- lift (getitem row "product_id") ;;
  st <- get ;;
  modify (set_products (dict_set key r (products st))).

Fixpoint for_each {A : Type} (body : A -> M unit) (l : list A) : M unit :=
  match l with
  | [] => ret tt
  | a :: l' => body a ;;; for_each body l'
  end.

(** A loop over the rows of a [DictReader]: the rows read before an
    error of the reader are processed, then the error is raised. *)
Definition for_each_row (body : DictRow -> M unit) (text : string) : M unit :=
  let (rows, err) := read_csv text in
  for_each body rows ;;;
  match err with
  | Some e => raise e
  | None => ret tt
  end.

(** A missing file is [FileNotFoundError], which is caught. *)
Definition Inventory_load_from_file : M unit :=
  st <- get ;;
  match inventory_csv st with
  | None => ret tt
  | Some text => for_each_row Inventory_load_row text
  end.

Definition Inventory_init : M unit :=
  modify (set_products []) ;;;
  Inventory_load_from_file.

(** ** class Sale *)

Definition Sale_new (sid : pyval) : Sale := mkSale sid [].

Definition Sale_add_product (sale : Sale) (product : ref) (qty : Z) : Sale :=
  mkSale (sale_id sale) (products_sold sale ++ [(product, qty)]).

(** One dict of the list of [Sale.to_dict]. *)
Record SaleRow : Type := mkSaleRow {
  sr_sale_id : pyval;
  sr_product_id : pyval;
  sr_product_name : pyval;
  sr_quantity_sold : Z;
  sr_total_price : float
}.

Fixpoint Sale_entries (h : ref -> Product) (sid : pyval) (items : list (ref * Z))
  : result (list SaleRow) :=
  match items with
  | [] => Ok []
  | (p, q) :: items' =>
      match float_mul_int (price (h p)) q with
      | Raise e => Raise e
      | Ok total =>
          match Sale_entries h sid items' with
          | Raise e => Raise e
          | Ok rows =>
              Ok (mkSaleRow sid (product_id (h p)) (name (h p)) q total :: rows)
          end
      end
  end.

Definition Sale_to_dict (h : ref -> Product) (sale : Sale) : result (list SaleRow) :=
  Sale_entries h (sale_id sale) (products_sold sale).

(** ** class SalesManager *)

Definition sales_fieldnames : list string :=
  ["sale_id"; "product_id"; "product_name"; "quantity_sold"; "total_price"].

(** The record of an entry of [Sale.to_dict].  Its quantity has been
    multiplied by a float, so it is below 2^1024 and far from the digit
    limit of [str]. *)
Definition sales_record (e : SaleRow) : list string :=
  [csv_text (sr_sale_id e); csv_text (sr_product_id e); csv_text (sr_product_name e);
   str_of_int (sr_quantity_sold e); float_repr (sr_total_price e)].

Fixpoint report_rows (h : ref -> Product) (l : list Sale) : result (list SaleRow) :=
  match l with
  | [] => Ok []
  | sale :: l' =>
      match Sale_to_dict h sale with
      | Raise e => Raise e
      | Ok entries =>
          match report_rows h l' with
          | Raise e => Raise e
          | Ok rows => Ok (entries ++ rows)
          end
      end
  end.

Definition SalesManager_view_sales_report : M (list SaleRow) :=
  st <- get ;;
  lift (report_rows (heap st) (sales st)).

(** The text written for the sales in [l]; when [to_dict] raises, what
    was written before stays in the file. *)
Fixpoint sales_text (h : ref -> Product) (l : list Sale) : string * option exn :=
  match l with
  | [] => (EmptyString, None)
  | sale :: l' =>
      match Sale_to_dict h sale with
      | Raise e => (EmptyString, Some e)
      | Ok entries =>
          let (text, err) := sales_text h l' in
          ((writes (map (fun e => writerow (sales_record e)) entries)
            ++ text)%string, err)
      end
  end.

Definition SalesManager_save_to_file : M unit :=
  st <- get ;;
  let (text, err) := sales_text (heap st) (sales st) in
  modify (set_sales_csv (Some (writerow sales_fieldnames ++ text)%string)) ;;;
  match err with
  | Some e => raise e
  | None => ret tt
  end.

(** The body of the loop of [record_sale]; the result of
    [update_product] is dropped. *)
Definition record_deduction (item : ref * Z) : M unit :=
  st <- get ;;
  _ <- Inventory_update_product (product_id (heap st (fst item))) (snd item) ;;
  ret tt.

Definition SalesManager_record_sale (sale : Sale) : M unit :=
  for_each record_deduction (products_sold sale) ;;;
  st <- get ;;
  modify (set_sales (sales st ++ [sale])) ;;;
  SalesManager_save_to_file.

(** One turn of the loop of [SalesManager.load_from_file]. *)
Definition SalesManager_load_row (row : DictRow) : M unit :=
  sid <- lift (getitem row "sale_id") ;;
  let sale := Sale_new sid in
  pid <- lift (getitem row "product_id") ;;
  st <- get ;;
  sale' <-
    match dict_get pid (products st) with
    | Some product =>
        qs <- lift (getitem row "quantity_sold") ;;
        q <- lift (int_of_pyval qs) ;;
        ret (Sale_add_product sale product q)
    | None => ret sale
    end ;;
  st <- get ;;
  modify (set_sales (sales st ++ [sale'])).

Definition SalesManager_load_from_file : M unit :=
  st <- get ;;
  match sales_csv st with
  | None => ret tt
  | Some text => for_each_row SalesManager_load_row text
  end.

Definition SalesManager_init : M unit :=
  modify (set_sales []) ;;;
  SalesManager_load_from_file.

(** ** class ShopSystem *)

Definition ShopSystem_init : M unit :=
  Inventory_init ;;;
  SalesManager_init.

(** [add_product]: four lines of input. *)
Definition ShopSystem_add_product (inp : list string) : M (list string) :=
  i1 <- lift (input inp) ;;
  i2 <- lift (input (snd i1)) ;;
  i3 <- lift (input (snd i2)) ;;
  x <- lift (float_of_pyval (PyStr (fst i3))) ;;
  i4 <- lift (input (snd i3)) ;;
  n <- lift (int_of_pyval (PyStr (fst i4))) ;;
  r <- Product_new (mkProduct (PyStr (fst i1)) (PyStr (fst i2)) x n) ;;
  Inventory_add_product r ;;;
  ret (snd i4).

(** The loop of [process_sale]: a product id, then for a known id a
    quantity, until the line ["done"]. *)
Fixpoint process_sale_loop (inp : list string) (sale : Sale) : M (Sale * list string) :=
  match inp with
  | [] => raise EOFError
  | pid :: inp1 =>
      if String.eqb (lower pid) "done" then ret (sale, inp1)
      else
        st <- get ;;
        match dict_get (PyStr pid) (products st) with
        | Some _ =>
            match inp1 with
            | [] => raise EOFError
            | qs :: inp2 =>
                qty <- lift (int_of_pyval (PyStr qs)) ;;
                ok <- Inventory_update_product (PyStr pid) qty ;;
                if (ok : bool) then
                  st' <- get ;;
                  match dict_get (PyStr pid) (products st') with
                  | Some product =>
                      process_sale_loop inp2 (Sale_add_product sale product qty)
                  | None => raise KeyError
                  end
                else process_sale_loop inp2 sale
            end
        | None => process_sale_loop inp1 sale
        end
  end.

Definition ShopSystem_process_sale (inp : list string) : M (list string) :=
  i1 <- lift (input inp) ;;
  let sale := Sale_new (PyStr (fst i1)) in
  res <- process_sale_loop (snd i1) sale ;;
  SalesManager_record_sale (fst res) ;;;
  ret (snd res).

(** ** Policies of the specification and sample states *)

(** Following the words of the specification for [record]: each line
    item in turn is deducted when its product is in the catalog with
    enough stock and is skipped otherwise; nothing is undone. *)
Fixpoint best_effort (d : list (pyval * ref)) (items : list (ref * Z))
  (h : ref -> Product) : ref -> Product :=
  match items with
  | [] => h
  | (p, q) :: items' =>
      best_effort d items'
        match dict_get (product_id (h p)) d with
        | Some r =>
            if q <=? quantity (h r)
            then store h r (with_quantity (h r) (quantity (h r) - q))
            else h
        | None => h
        end
  end.

Definition no_product : Product := mkProduct PyNone PyNone 0%float 0.

Definition empty_shop : Shop :=
  mkShop (fun _ => no_product) 0%nat [] [] None None.

Definition widget (q : Z) : Product :=
  mkProduct (PyStr "P1") (PyStr "Widget") 2.5%float q.

(** A shop whose catalog is the product P1 with [q] in stock. *)
Definition widget_shop (q : Z) (l : list Sale) : Shop :=
  mkShop (store (fun _ => no_product) 0%nat (widget q)) 1%nat
         [(PyStr "P1", 0%nat)] l None None.

(** Two texts that differ in one character: a carriage return in the
    first, a line feed in the second. *)
Definition cr_name : string := String "W" (String "i" (String "d" (String CR "get"))).
Definition lf_name : string := String "W" (String "i" (String "d" (String LF "get"))).
Definition cr_sale_id : string := String "S" (String CR "1").
Definition lf_sale_id : string := String "S" (String LF "1").

(** A shop whose one product has a carriage return in its name. *)
Definition cr_product : Product :=
  mkProduct (PyStr "P1") (PyStr cr_name) 2.5%float 10.

Definition cr_shop : Shop :=
  mkShop (store (fun _ => no_product) 0%nat cr_product) 1%nat
         [(PyStr "P1", 0%nat)] [] None None.

(** A shop whose one sale has a carriage return in its id. *)
Definition cr_sale_shop : Shop :=
  widget_shop 10 [mkSale (PyStr cr_sale_id) [(0%nat, 4)]].

(** ** Conditions on stored rows and on the ledger *)

(** A stored row that [SalesManager.load_from_file] takes without
    raising: it has the two id columns, and a quantity that [int]
    accepts when its product is in the catalog. *)
Definition row_ok (d : list (pyval * ref)) (row : DictRow) : bool :=
  match getitem row "sale_id", getitem row "product_id" with
  | Ok _, Ok pid =>
      match dict_get pid d with
      | None => true
      | Some _ =>
          match getitem row "quantity_sold" with
          | Ok qs => match int_of_pyval qs with Ok _ => true | Raise _ => false end
          | Raise _ => false
          end
      end
  | _, _ => false
  end.

(** The product id of a stored row is a key of the catalog. *)
Definition row_known (d : list (pyval * ref)) (row : DictRow) : bool :=
  match getitem row "product_id" with
  | Ok pid => match dict_get pid d with Some _ => true | None => false end
  | Raise _ => false
  end.

(** Two stored rows: one of a product of [widget_shop], one of a
    product that is not in it. *)
Definition sample_rows : list DictRow :=
  [make_row sales_fieldnames ["S1"; "P1"; "Widget"; "4"; "10.0"];
   make_row sales_fieldnames ["S2"; "P9"; "Gone"; "1"; "3.0"]].

(** A stored ledger with these two rows. *)
Definition sample_ledger_file : string :=
  writes (map writerow [sales_fieldnames;
                        ["S1"; "P1"; "Widget"; "4"; "10.0"];
                        ["S2"; "P9"; "Gone"; "1"; "3.0"]]).

(** How a stored row and the sale reconstructed from it are related. *)
Definition row_sale (d : list (pyval * ref)) (row : DictRow) (sale : Sale) : Prop :=
  getitem row "sale_id" = Ok (sale_id sale) /\
  exists pid,
    getitem row "product_id" = Ok pid /\
    match dict_get pid d with
    | None => products_sold sale = []
    | Some product =>
        exists qs q,
          getitem row "quantity_sold" = Ok qs /\ int_of_pyval qs = Ok q /\
          products_sold sale = [(product, q)]
    end.

(** A [str] without carriage return. *)
Definition str_ok (v : pyval) : bool :=
  match v with
  | PyStr s => no_cr s
  | PyNone => false
  end.

(** A line item whose product is the object that the catalog holds
    under the product's id. *)
Definition item_ok (st : Shop) (item : ref * Z) : bool :=
  (str_ok (product_id (heap st (fst item))) &&
   match dict_get (product_id (heap st (fst item))) (products st) with
   | Some r => Nat.eqb r (fst item)
   | None => false
   end)%bool.

Definition ledger_ok (st : Shop) : bool :=
  forallb (fun sale => (str_ok (sale_id sale) && forallb (item_ok st) (products_sold sale))%bool)
          (sales st).

(** One sale per line item, as a reload leaves the ledger. *)
Definition split_sales (l : list Sale) : list Sale :=
  flat_map (fun sale => map (fun item => mkSale (sale_id sale) [item]) (products_sold sale)) l.

(** The row that [DictReader] makes of a written entry of the ledger. *)
Definition stored_sale_row (e : SaleRow) : DictRow :=
  make_row sales_fieldnames (map (universal_newlines false) (sales_record e)).

(** The texts of the fields of a product. *)
Definition inventory_fields (p : Product) : list string :=
  [csv_text (product_id p); csv_text (name p); float_repr (price p);
   str_of_int (quantity p)].

(** The row that [DictReader] makes of a written product. *)
Definition stored_product_row (p : Product) : DictRow :=
  make_row inventory_fieldnames (map (universal_newlines false) (inventory_fields p)).

(** An entry of the ledger that the file and its reader can hold: no
    field of its record is over the limit of the reader, and its
    quantity has no more digits than [int] takes. *)
Definition entry_fits (e : SaleRow) : bool :=
  (record_fits (sales_record e) && int_prints (sr_quantity_sold e))%bool.

Definition at_most_one_item (sale : Sale) : Prop :=
  (List.length (products_sold sale) <= 1)%nat.

(** ** The operations and the reachable states *)

Definition quantities_nonneg (st : Shop) : Prop :=
  forall r, 0 <= quantity (heap st r).

(** A stored row whose quantity, when [int] accepts it, is not negative. *)
Definition row_nonneg (row : DictRow) : bool :=
  match getitem row "quantity" with
  | Ok qt =>
      match int_of_pyval qt with
      | Ok n => 0 <=? n
      | Raise _ => true
      end
  | Raise _ => true
  end.

Definition file_nonneg (f : option string) : bool :=
  match f with
  | None => true
  | Some text => forallb row_nonneg (fst (read_csv text))
  end.

(** The operations of the program on the shop: the methods of the three
    classes, and the start of a new process over the files on disk. *)
Inductive Op : Type :=
| OpAddProduct (p : Product)
| OpAddProductInput (inp : list string)
| OpUpdateProduct (pid : pyval) (n : Z)
| OpRecordSale (sale : Sale)
| OpProcessSale (inp : list string)
| OpViewInventory
| OpViewSalesReport
| OpSaveInventory
| OpSaveSales
| OpLoadInventory
| OpLoadSales
| OpRestart.

(** The state after an operation, whether it ends normally or raises. *)
Definition exec (op : Op) (st : Shop) : Shop :=
  match op with
  | OpAddProduct p => snd ((r <- Product_new p ;; Inventory_add_product r) st)
  | OpAddProductInput inp => snd (ShopSystem_add_product inp st)
  | OpUpdateProduct pid n => snd (Inventory_update_product pid n st)
  | OpRecordSale sale => snd (SalesManager_record_sale sale st)
  | OpProcessSale inp => snd (ShopSystem_process_sale inp st)
  | OpViewInventory => snd (Inventory_view_inventory st)
  | OpViewSalesReport => snd (SalesManager_view_sales_report st)
  | OpSaveInventory => snd (Inventory_save_to_file st)
  | OpSaveSales => snd (SalesManager_save_to_file st)
  | OpLoadInventory => snd (Inventory_load_from_file st)
  | OpLoadSales => snd (SalesManager_load_from_file st)
  | OpRestart => snd (ShopSystem_init st)
  end.

(** A product is added with a quantity that is not negative. *)
Definition op_ok (op : Op) : Prop :=
  match op with
  | OpAddProduct p => 0 <= quantity p
  | OpAddProductInput (_ :: _ :: _ :: q :: _) =>
      match py_int q with
      | Some n => 0 <= n
      | None => True
      end
  | _ => True
  end.

(** The states of a shop that starts with no file on disk; the files
    are written by the program only. *)
Inductive reachable : Shop -> Prop :=
| reachable_init : reachable empty_shop
| reachable_step (st : Shop) (op : Op) :
    reachable st -> op_ok op -> reachable (exec op st).

(** The invariant that carries the claim: the quantities in the store
    and those in the stored catalog. *)
Definition Inv (st : Shop) : Prop :=
  quantities_nonneg st /\ file_nonneg (inventory_csv st) = true.

(** The catalog as a mapping from ids to products, in its order. *)
Definition catalog (st : Shop) : list (pyval * Product) :=
  map (fun kv => (fst kv, heap st (snd kv))) (products st).

(** The products of the catalog, in its order. *)
Definition stocked (st : Shop) : list Product :=
  map (fun kv => heap st (snd kv)) (products st).

(** A product whose quantity [str] prints. *)
Definition prints (p : Product) : bool := int_prints (quantity p).

(** A product whose id and name are strings without carriage return,
    whose price comes back from its text, whose quantity has no more
    digits than [str] prints, and no field of which is over the limit
    of the reader. *)
Definition product_ok (p : Product) : Prop :=
  str_ok (product_id p) = true /\ str_ok (name p) = true /\
  no_cr (float_repr (price p)) = true /\
  py_float (float_repr (price p)) = Some (price p) /\
  int_prints (quantity p) = true /\
  record_fits (inventory_fields p) = true.

(** A catalog as the methods of [Inventory] build it: each key is the
    id of its product and no key comes twice. *)
Definition catalog_ok (st : Shop) : Prop :=
  NoDup (map fst (products st)) /\
  Forall (fun kv => product_id (heap st (snd kv)) = fst kv /\
                    product_ok (heap st (snd kv))) (products st).

(** ** Frames, sessions and reloads *)

(** The shop after [Product(...)] made the object [p] and
    [Inventory.add_product] put it in the dictionary, before the save. *)
Definition added (p : Product) (st : Shop) : Shop :=
  mkShop (store (heap st) (next_ref st) p) (S (next_ref st))
         (dict_set (product_id p) (next_ref st) (products st))
         (sales st) (inventory_csv st) (sales_csv st).

(** [st'] differs from [st] at most in the quantities of the products. *)
Definition same_but_quantities (st st' : Shop) : Prop :=
  products st' = products st /\ sales st' = sales st /\
  inventory_csv st' = inventory_csv st /\ sales_csv st' = sales_csv st /\
  next_ref st' = next_ref st /\
  forall r, product_id (heap st' r) = product_id (heap st r) /\
            name (heap st' r) = name (heap st r) /\
            price (heap st' r) = price (heap st r).

(** The operations whose code opens a file for writing. *)
Definition writes_catalog_file (op : Op) : bool :=
  match op with
  | OpAddProduct _ | OpAddProductInput _ | OpSaveInventory => true
  | _ => false
  end.

Definition writes_ledger_file (op : Op) : bool :=
  match op with
  | OpRecordSale _ | OpProcessSale _ | OpSaveSales => true
  | _ => false
  end.

(** The loop of [display_menu] over the lines of the input; the tables
    that choices 1 and 4 print are left out, the report of choice 4 is
    still computed and may raise.  Each turn reads at least one line:
    [fuel] bounds the number of turns and [None] is its exhaustion. *)
Fixpoint menu_loop (fuel : nat) (inp : list string) (st : Shop)
  : option (result (list string) * Shop) :=
  match fuel with
  | O => None
  | S fuel' =>
      match inp with
      | [] => Some (Raise EOFError, st)
      | choice :: rest =>
          if String.eqb choice "1" then
            match Inventory_view_inventory st with
            | (Ok _, st1) => menu_loop fuel' rest st1
            | (Raise e, st1) => Some (Raise e, st1)
            end
          else if String.eqb choice "2" then
            match ShopSystem_add_product rest st with
            | (Ok rest', st1) => menu_loop fuel' rest' st1
            | (Raise e, st1) => Some (Raise e, st1)
            end
          else if String.eqb choice "3" then
            match ShopSystem_process_sale rest st with
            | (Ok rest', st1) => menu_loop fuel' rest' st1
            | (Raise e, st1) => Some (Raise e, st1)
            end
          else if String.eqb choice "4" then
            match SalesManager_view_sales_report st with
            | (Ok _, st1) => menu_loop fuel' rest st1
            | (Raise e, st1) => Some (Raise e, st1)
            end
          else if String.eqb choice "5" then Some (Ok rest, st)
          else menu_loop fuel' rest st
      end
  end.

Definition ShopSystem_display_menu (inp : list string) (st : Shop)
  : option (result (list string) * Shop) :=
  menu_loop (S (List.length inp)) inp st.

(** No line of the input is the text of a negative integer. *)
Definition nonneg_inputs (inp : list string) : bool :=
  forallb (fun line => match py_int line with Some n => 0 <=? n | None => true end) inp.

(** The ids that the ledger writes are strings without carriage return. *)
Definition ledger_ids_ok (st : Shop) : bool :=
  forallb (fun sale =>
             (str_ok (sale_id sale)
              && forallb (fun item : ref * Z => str_ok (product_id (heap st (fst item))))
                         (products_sold sale))%bool)
          (sales st).

(** The ledger that a load makes of the saved sales [l] of a store [h],
    over a catalog [d]: one sale per line item, its product looked up
    again by id. *)
Definition rejoin (d : list (pyval * ref)) (h : ref -> Product) (l : list Sale)
  : list Sale :=
  flat_map (fun sale =>
              map (fun item : ref * Z =>
                     mkSale (sale_id sale)
                       match dict_get (product_id (h (fst item))) d with
                       | Some r => [(r, snd item)]
                       | None => []
                       end)
                  (products_sold sale)) l.

(** The catalog as the methods keep it: its references are allocated,
    each key is the id of its product, no key comes twice. *)
Definition catalog_wf (st : Shop) : Prop :=
  Forall (fun kv => (snd kv < next_ref st)%nat) (products st) /\
  Forall (fun kv => product_id (heap st (snd kv)) = fst kv) (products st) /\
  NoDup (map fst (products st)).

(** The references of the line items of the ledger are allocated. *)
Definition ledger_refs_ok (st : Shop) : bool :=
  forallb (fun sale =>
             forallb (fun item : ref * Z => Nat.ltb (fst item) (next_ref st))
                     (products_sold sale))
          (sales st).

(** A line item of the ledger whose quantity is too large for a float. *)
Definition overflowing (l : list Sale) : bool :=
  existsb (fun sale =>
             existsb (fun item : ref * Z =>
                        match float_of_int (snd item) with
                        | Ok _ => false
                        | Raise _ => true
                        end)
                     (products_sold sale)) l.

(** The ledger and the keys of the catalog of [st'] are those of [st]
    with more at the end. *)
Definition grows (st st' : Shop) : Prop :=
  (exists new, sales st' = sales st ++ new) /\
  (exists keys, map fst (products st') = map fst (products st) ++ keys).

(** Every product sold in [st] is, under its id, in the catalog of
    [st_saved] with the same name and price. *)
Definition sold_in_catalog (st st_saved : Shop) : Prop :=
  Forall (fun sale =>
            Forall (fun item : ref * Z =>
                      exists r,
                        dict_get (product_id (heap st (fst item))) (products st_saved)
                          = Some r /\
                        name (heap st_saved r) = name (heap st (fst item)) /\
                        price (heap st_saved r) = price (heap st (fst item)))
                   (products_sold sale))
         (sales st).

(** ** Text *)

Lemma append_nil_r (s : string) : (s ++ EmptyString)%string = s.
Proof. induction s as [|c s IH]; cbn; [reflexivity | now rewrite IH]. Qed.

Lemma append_assoc (s t u : string) :
  ((s ++ t) ++ u)%string = (s ++ t ++ u)%string.
Proof. induction s as [|c s IH]; cbn; [reflexivity | now rewrite IH]. Qed.

Lemma special_false (c : ascii) :
  special c = false ->
  Ascii.eqb c COMMA = false /\ Ascii.eqb c QUOTE = false /\
  Ascii.eqb c CR = false /\ Ascii.eqb c LF = false.
Proof.
  unfold special. intro H.
  destruct (Ascii.eqb c COMMA), (Ascii.eqb c QUOTE), (Ascii.eqb c CR), (Ascii.eqb c LF);
    try discriminate; auto.
Qed.

Lemma special_newline (c : ascii) : special c = false -> is_newline c = false.
Proof.
  intro H. apply special_false in H. destruct H as (_ & _ & Hcr & Hlf).
  unfold is_newline. now rewrite Hcr, Hlf.
Qed.

(** ** Integers as text *)

Lemma int_digits_string_of_uint (d : Decimal.uint) :
  int_digits false (string_of_uint d) = Some d.
Proof.
  induction d as [|d IH|d IH|d IH|d IH|d IH|d IH|d IH|d IH|d IH|d IH];
    cbn [string_of_uint int_digits]; [reflexivity|..]; rewrite IH; reflexivity.
Qed.

Lemma to_uint_not_nil (p : positive) : Pos.to_uint p <> Decimal.Nil.
Proof.
  intro E. pose proof (DecimalPos.Unsigned.of_to p) as H.
  rewrite E in H. discriminate.
Qed.

Lemma string_of_uint_first (d : Decimal.uint) :
  d <> Decimal.Nil ->
  exists c s f d',
    string_of_uint d = String c s /\ digit_of c = Some f /\ d = f d' /\
    string_of_uint d' = s /\ is_space c = false /\
    Ascii.eqb c "-" = false /\ Ascii.eqb c "+" = false.
Proof.
  destruct d; [now intros [] | ..]; intros _;
    eexists _, _, _, _; cbn [string_of_uint]; repeat split; reflexivity.
Qed.

Lemma length_string_of_uint (d : Decimal.uint) :
  String.length (string_of_uint d) = Decimal.nb_digits d.
Proof. induction d; cbn; congruence. Qed.

Lemma int_literal_string_of_uint (p : positive) :
  int_literal (string_of_uint (Pos.to_uint p)) =
  if int_prints (Zpos p) then Some (Zpos p) else None.
Proof.
  unfold int_prints. cbn [Z.abs str_of_int]. rewrite length_string_of_uint.
  destruct (string_of_uint_first _ (to_uint_not_nil p))
    as (c & s & f & d' & E & Hc & Hd & Hs & _).
  rewrite E. cbn [int_literal]. rewrite Hc, <- Hs, int_digits_string_of_uint.
  rewrite <- Hd. unfold Z.of_uint.
  now rewrite DecimalPos.Unsigned.of_to.
Qed.

(** [int(str(n))] is [n], for an [n] that [str] prints. *)
Lemma py_int_str_of_int (n : Z) :
  py_int (str_of_int n) = if int_prints n then Some n else None.
Proof.
  destruct n as [|p|p]; [reflexivity | |].
  - unfold py_int, str_of_int.
    destruct (string_of_uint_first _ (to_uint_not_nil p))
      as (c & s & f & d' & E & _ & _ & _ & Hsp & Hm & Hpl).
    pose proof (int_literal_string_of_uint p) as H. rewrite E in H |- *.
    cbn [lstrip]. now rewrite Hsp, Hm, Hpl.
  - unfold py_int, str_of_int. cbn [lstrip].
    change (is_space "-") with false. cbv iota.
    change (Ascii.eqb "-" "-") with true. cbv iota.
    rewrite int_literal_string_of_uint.
    change (int_prints (Z.neg p)) with (int_prints (Z.pos p)).
    now destruct (int_prints (Z.pos p)).
Qed.

Lemma no_cr_string_of_uint (d : Decimal.uint) : no_cr (string_of_uint d) = true.
Proof. induction d; cbn; auto. Qed.

Lemma no_cr_str_of_int (n : Z) : no_cr (str_of_int n) = true.
Proof.
  destruct n; cbn [str_of_int]; [reflexivity | apply no_cr_string_of_uint |].
  cbn. apply no_cr_string_of_uint.
Qed.

(** ** Reading what the writer wrote: the line breaks *)

Lemma universal_newlines_plain (s t : string) (b : bool) :
  has_special s = false ->
  universal_newlines b (s ++ t) =
  (s ++ universal_newlines (match s with EmptyString => b | _ => false end) t)%string.
Proof.
  revert b. induction s as [|c s IH]; intros b H; [reflexivity|].
  cbn in H. apply orb_false_iff in H. destruct H as [Hc Hs].
  apply special_false in Hc. destruct Hc as (_ & _ & Hcr & Hlf).
  cbn. rewrite Hcr, Hlf. rewrite (IH false Hs). now destruct s.
Qed.

Lemma universal_newlines_quoted (s t : string) (b : bool) :
  universal_newlines b (double_quotes s ++ String QUOTE t) =
  (double_quotes (universal_newlines b s) ++ String QUOTE (universal_newlines false t))%string.
Proof.
  revert b. induction s as [|c s IH]; intro b; [reflexivity|].
  cbn [double_quotes universal_newlines].
  destruct (Ascii.eqb c QUOTE) eqn:Hq.
  - apply Ascii.eqb_eq in Hq. subst c.
    change (Ascii.eqb QUOTE CR) with false. change (Ascii.eqb QUOTE LF) with false.
    cbn. now rewrite IH.
  - cbn [append universal_newlines].
    destruct (Ascii.eqb c CR) eqn:Hcr.
    + cbn. now rewrite IH.
    + destruct (Ascii.eqb c LF) eqn:Hlf.
      * destruct b; [apply IH|].
        cbn. now rewrite IH.
      * cbn. rewrite Hq. cbn. now rewrite IH.
Qed.

Lemma has_special_universal_newlines (s : string) :
  has_special (universal_newlines false s) = has_special s.
Proof.
  induction s as [|c s IH]; [reflexivity|].
  cbn [universal_newlines has_special].
  destruct (Ascii.eqb c CR) eqn:Hcr.
  { cbn [has_special]. unfold special. rewrite Hcr. cbn. now rewrite !orb_true_r. }
  destruct (Ascii.eqb c LF) eqn:Hlf.
  { cbn [has_special]. unfold special. rewrite Hlf. cbn. now rewrite !orb_true_r. }
  cbn [has_special]. now rewrite IH.
Qed.

Lemma universal_newlines_nil (s : string) :
  universal_newlines false s = EmptyString -> s = EmptyString.
Proof.
  destruct s as [|c s]; [reflexivity|]. cbn.
  destruct (Ascii.eqb c CR); [discriminate|].
  destruct (Ascii.eqb c LF); discriminate.
Qed.

Lemma no_cr_universal_newlines (s : string) (b : bool) :
  no_cr (universal_newlines b s) = true.
Proof.
  revert b. induction s as [|c s IH]; intro b; [reflexivity|].
  cbn. destruct (Ascii.eqb c CR) eqn:Hcr; [cbn; apply IH|].
  destruct (Ascii.eqb c LF) eqn:Hlf.
  - destruct b; [apply IH|]. cbn. apply IH.
  - cbn. rewrite Hcr. cbn. apply IH.
Qed.

Lemma universal_newlines_no_cr (s : string) :
  no_cr s = true -> universal_newlines false s = s.
Proof.
  induction s as [|c s IH]; [reflexivity|].
  cbn. destruct (Ascii.eqb c CR); [discriminate|]. cbn. intro H.
  destruct (Ascii.eqb c LF) eqn:Hlf.
  - apply Ascii.eqb_eq in Hlf. subst c. now rewrite IH.
  - now rewrite IH.
Qed.

(** A field as the writer renders it, after the translation of line
    breaks, is the rendering of the translated field. *)
Lemma universal_newlines_join_append (fld t : string) :
  universal_newlines false (join_append fld ++ t) =
  (join_append (universal_newlines false fld)
   ++ universal_newlines false t)%string.
Proof.
  unfold join_append. rewrite has_special_universal_newlines.
  destruct (has_special fld) eqn:E.
  - cbn. change (Ascii.eqb QUOTE CR) with false. change (Ascii.eqb QUOTE LF) with false.
    cbv iota. rewrite !append_assoc. cbn [str1 append].
    now rewrite universal_newlines_quoted.
  - rewrite universal_newlines_plain by exact E.
    assert (Hid : universal_newlines false fld = fld).
    { rewrite <- (append_nil_r fld) at 1.
      rewrite universal_newlines_plain by exact E. cbn. apply append_nil_r. }
    rewrite Hid. now destruct fld.
Qed.

Lemma join_append_nil (fld : string) :
  join_append fld = EmptyString -> fld = EmptyString.
Proof.
  unfold join_append. destruct (has_special fld); [discriminate | auto].
Qed.

Lemma append_cons_not_nil (s t : string) (c : ascii) :
  (s ++ String c t)%string <> EmptyString.
Proof. destruct s; discriminate. Qed.

(** The two shapes of the record of a row. *)
Lemma join_fields_cases (row : list string) :
  (row = [EmptyString] /\ join_fields row = (str1 QUOTE ++ str1 QUOTE)%string) \/
  (row <> [EmptyString] /\
   join_fields row = String.concat (str1 COMMA) (map join_append row)).
Proof.
  destruct row as [|f [|g l]].
  - right. split; [discriminate | reflexivity].
  - destruct f as [|c f].
    + left. split; reflexivity.
    + right. split; [discriminate|]. unfold join_fields. cbn [map String.concat].
      destruct (join_append (String c f)) eqn:E; [|reflexivity].
      apply join_append_nil in E. discriminate.
  - right. split; [discriminate|]. unfold join_fields. cbv zeta.
    remember (String.concat (str1 COMMA) (map join_append (f :: g :: l))) as rec eqn:E.
    destruct rec; [exfalso | reflexivity].
    change (String.concat (str1 COMMA) (map join_append (f :: g :: l)))
      with (join_append f ++ String COMMA
              (String.concat (str1 COMMA) (map join_append (g :: l))))%string in E.
    symmetry in E. revert E. apply append_cons_not_nil.
Qed.

Lemma universal_newlines_concat (row : list string) (t : string) :
  universal_newlines false
    (String.concat (str1 COMMA) (map join_append row) ++ lineterminator ++ t) =
  (String.concat (str1 COMMA) (map join_append (map (universal_newlines false) row))
   ++ String LF (universal_newlines false t))%string.
Proof.
  induction row as [|f row IH]; [reflexivity|].
  destruct row as [|g row].
  - cbn [map String.concat]. rewrite universal_newlines_join_append. reflexivity.
  - change (String.concat (str1 COMMA) (map join_append (f :: g :: row)))
      with (join_append f ++ str1 COMMA
            ++ String.concat (str1 COMMA) (map join_append (g :: row)))%string.
    rewrite !append_assoc, universal_newlines_join_append.
    cbn [str1 append]. cbn [universal_newlines].
    change (Ascii.eqb COMMA CR) with false. change (Ascii.eqb COMMA LF) with false.
    cbv iota. rewrite IH.
    cbn [map String.concat]. now rewrite !append_assoc.
Qed.

(** A written row after the translation of line breaks: the record of
    the translated fields, and one line feed. *)
Lemma universal_newlines_writerow (row : list string) (t : string) :
  universal_newlines false (writerow row ++ t) =
  (join_fields (map (universal_newlines false) row)
   ++ String LF (universal_newlines false t))%string.
Proof.
  unfold writerow. rewrite append_assoc.
  destruct (join_fields_cases row) as [[Hr Hj] | [Hr Hj]].
  - subst row. reflexivity.
  - rewrite Hj, universal_newlines_concat.
    destruct (join_fields_cases (map (universal_newlines false) row)) as [[Hr' Hj'] | [_ Hj']].
    + exfalso. apply Hr. destruct row as [|f [|g l]]; try discriminate.
      injection Hr' as Hf. now rewrite (universal_newlines_nil _ Hf).
    + now rewrite Hj'.
Qed.

(** ** Reading what the writer wrote: the parser *)

Lemma parse_chars_app (r : Reader) (a b : string) :
  parse_chars r (a ++ b) =
  match parse_chars r a with
  | Ok r' => parse_chars r' b
  | Raise e => Raise e
  end.
Proof.
  revert r. induction a as [|c a IH]; intro r; [reflexivity|].
  cbn. destruct (parse_process_char r (Some c)); [apply IH | reflexivity].
Qed.

Lemma parse_line_app (r : Reader) (a b : string) :
  parse_line r (a ++ b) =
  match parse_chars r a with
  | Ok r' => parse_line r' b
  | Raise e => Raise e
  end.
Proof.
  revert r. induction a as [|c a IH]; intro r; [reflexivity|].
  cbn. destruct (parse_process_char r (Some c)); [apply IH | reflexivity].
Qed.

(** The length of a field and the limit. *)
Lemma length_append (s t : string) :
  String.length (s ++ t) = (String.length s + String.length t)%nat.
Proof. induction s as [|c s IH]; cbn; [reflexivity | now rewrite IH]. Qed.

Lemma fits_cons_false (f s : string) (c : ascii) :
  fits (f ++ str1 c) = false -> fits (f ++ String c s) = false.
Proof.
  unfold fits. rewrite !length_append, !Z.leb_gt. cbn [str1 String.length]. lia.
Qed.

Lemma parse_add_char_fits (r : Reader) (c : ascii) :
  fits (field r ++ str1 c) = true ->
  parse_add_char r c = Ok (mkReader (state r) (fields r) (field r ++ str1 c)).
Proof.
  unfold fits, parse_add_char. rewrite length_append. cbn [str1 String.length].
  intro H. apply Z.leb_le in H.
  destruct (field_limit <=? Z.of_nat (String.length (field r))) eqn:E; [|reflexivity].
  apply Z.leb_le in E. lia.
Qed.

Lemma parse_add_char_raise (r : Reader) (c : ascii) :
  fits (field r ++ str1 c) = false ->
  parse_add_char r c = Raise CsvError.
Proof.
  unfold fits, parse_add_char. rewrite length_append. cbn [str1 String.length].
  intro H. apply Z.leb_gt in H.
  destruct (field_limit <=? Z.of_nat (String.length (field r))) eqn:E; [reflexivity|].
  apply Z.leb_gt in E. lia.
Qed.

Lemma length_universal_newlines (s : string) (b : bool) :
  (String.length (universal_newlines b s) <= String.length s)%nat.
Proof.
  revert b. induction s as [|c s IH]; intro b; [cbn; lia|].
  cbn [universal_newlines].
  destruct (Ascii.eqb c CR); [cbn; specialize (IH true); lia|].
  destruct (Ascii.eqb c LF).
  - destruct b; cbn; [specialize (IH false); lia | specialize (IH false); lia].
  - cbn. specialize (IH false). lia.
Qed.

Lemma fits_universal_newlines (s : string) :
  fits s = true -> fits (universal_newlines false s) = true.
Proof.
  unfold fits. rewrite !Z.leb_le.
  pose proof (length_universal_newlines s false). lia.
Qed.

Lemma length_substring (n : nat) (s : string) :
  (String.length (substring 0 n s) <= n)%nat.
Proof.
  revert s. induction n as [|n IH]; intros [|c s]; cbn; try lia.
  specialize (IH s). lia.
Qed.

Lemma fits_float_repr (x : float) :
  fits (universal_newlines false (float_repr x)) = true.
Proof.
  apply fits_universal_newlines. unfold fits, float_repr. apply Z.leb_le.
  pose proof (length_substring 24 (repr_text x)). unfold field_limit. lia.
Qed.

(** No character brings the parser back to the start of a record;
    only the end of a line does. *)
Lemma process_char_not_start (r r' : Reader) (c : ascii) :
  parse_process_char r (Some c) = Ok r' -> state r' <> START_RECORD.
Proof.
  unfold parse_process_char, start_field, add_char, parse_add_char.
  destruct (state r) eqn:E;
    destruct (is_newline c); destruct (Ascii.eqb c QUOTE); destruct (Ascii.eqb c COMMA);
    destruct (field_limit <=? Z.of_nat (String.length (field r)));
    intro H; inversion H; subst; cbn; try discriminate; rewrite E; discriminate.
Qed.

Lemma parse_chars_start (r0 r : Reader) (cur : string) :
  parse_chars r0 cur = Ok r -> state r = START_RECORD ->
  cur = EmptyString /\ r0 = r.
Proof.
  revert r0. induction cur as [|c cur IH]; intros r0 H Hs.
  - cbn in H. inversion H. auto.
  - exfalso. cbn in H.
    destruct (parse_process_char r0 (Some c)) as [r1|e] eqn:E; [|discriminate].
    destruct (IH r1 H Hs) as [_ ->].
    exact (process_char_not_start _ _ _ E Hs).
Qed.

Lemma reads_char (c : ascii) (r r' : Reader) (s : string)
  (out : list (list string) * option exn) :
  Ascii.eqb c LF = false ->
  parse_process_char r (Some c) = Ok r' ->
  reads r' s out -> reads r (String c s) out.
Proof.
  intros Hc Hp H r0 cur Hcur. cbn [readlines]. rewrite Hc.
  apply H. rewrite parse_chars_app, Hcur. cbn. now rewrite Hp.
Qed.

Lemma reads_line_inside (r r1 r2 : Reader) (s : string)
  (out : list (list string) * option exn) :
  parse_process_char r (Some LF) = Ok r1 ->
  parse_process_char r1 None = Ok r2 ->
  state_is_start r2 = false ->
  reads r2 s out -> reads r (String LF s) out.
Proof.
  intros H1 H2 Hs H r0 cur Hcur. cbn [readlines].
  change (Ascii.eqb LF LF) with true. cbv iota. cbn [reader_from].
  rewrite parse_line_app, Hcur. cbn [str1 parse_line]. rewrite H1, H2, Hs.
  now apply H.
Qed.

Lemma reads_line_end (r r1 r2 : Reader) (s : string)
  (recs : list (list string)) (err : option exn) :
  parse_process_char r (Some LF) = Ok r1 ->
  parse_process_char r1 None = Ok r2 ->
  state_is_start r2 = true ->
  reads parse_reset s (recs, err) ->
  reads r (String LF s) (fields r2 :: recs, err).
Proof.
  intros H1 H2 Hs H r0 cur Hcur. cbn [readlines].
  change (Ascii.eqb LF LF) with true. cbv iota. cbn [reader_from].
  rewrite parse_line_app, Hcur. cbn [str1 parse_line]. rewrite H1, H2, Hs.
  now rewrite (H parse_reset EmptyString eq_refl).
Qed.

Lemma reads_eof : reads parse_reset EmptyString ([], None).
Proof.
  intros r0 cur Hcur.
  destruct (parse_chars_start _ _ _ Hcur eq_refl) as [-> ->]. reflexivity.
Qed.

Lemma readlines_cur (s : string) :
  forall cur, cur <> EmptyString ->
  exists l rest, readlines cur s = (cur ++ l)%string :: rest.
Proof.
  induction s as [|c s IH]; intros cur Hcur.
  - exists EmptyString, []. cbn. rewrite append_nil_r. now destruct cur.
  - cbn [readlines]. destruct (Ascii.eqb c LF).
    + now exists (str1 c), (readlines EmptyString s).
    + destruct (IH (cur ++ str1 c)%string) as (l & rest & E).
      { apply append_cons_not_nil. }
      exists (String c l), rest. rewrite E. now rewrite append_assoc.
Qed.

(** A character at which the parser raises ends the iteration: the
    record that was being read is not returned. *)
Lemma reads_raise (c : ascii) (r : Reader) (s : string) (e : exn) :
  parse_process_char r (Some c) = Raise e ->
  reads r (String c s) ([], Some e).
Proof.
  intros Hp r0 cur Hcur.
  assert (Hline : forall l, parse_line r0 ((cur ++ str1 c) ++ l) = Raise e).
  { intro l. rewrite append_assoc, parse_line_app, Hcur. cbn. now rewrite Hp. }
  cbn [readlines]. destruct (Ascii.eqb c LF).
  - cbn [reader_from]. rewrite <- (append_nil_r (cur ++ str1 c)). now rewrite Hline.
  - destruct (readlines_cur s (cur ++ str1 c)%string) as (l & rest & E).
    { apply append_cons_not_nil. }
    rewrite E. cbn [reader_from]. now rewrite Hline.
Qed.

Lemma no_cr_cons (c : ascii) (s : string) :
  no_cr (String c s) = true -> Ascii.eqb c CR = false /\ no_cr s = true.
Proof.
  cbn. destruct (Ascii.eqb c CR); [discriminate | auto].
Qed.

Lemma if_andb {A : Type} (a b : bool) (x y : A) :
  (if (a && b)%bool then x else y) = (if a then (if b then x else y) else y).
Proof. now destruct a. Qed.

(** The inside of a quoted field: a doubled quote is one quote, a line
    feed is kept and the field goes on with the next line; the
    character that would bring the field over the limit raises. *)
Lemma reads_quoted_content (s : string) :
  forall (fs : list string) (f rest : string) out,
    no_cr s = true ->
    fits f = true ->
    (fits (f ++ s) = true ->
     reads (mkReader IN_QUOTED_FIELD fs (f ++ s)) rest out) ->
    reads (mkReader IN_QUOTED_FIELD fs f) (double_quotes s ++ rest)
      (if fits (f ++ s) then out else field_error).
Proof.
  induction s as [|c s IH]; intros fs f rest out Hs Hf H.
  - rewrite append_nil_r in *. rewrite Hf. now apply H.
  - apply no_cr_cons in Hs. destruct Hs as [Hcr Hs].
    destruct (fits (f ++ str1 c)) eqn:Hc.
    + assert (Hnext : reads (mkReader IN_QUOTED_FIELD fs (f ++ str1 c))
                        (double_quotes s ++ rest)
                        (if fits (f ++ String c s) then out else field_error)).
      { replace (f ++ String c s)%string with ((f ++ str1 c) ++ s)%string
          by now rewrite append_assoc.
        apply IH; [exact Hs | exact Hc |]. now rewrite append_assoc. }
      cbn [double_quotes]. destruct (Ascii.eqb c QUOTE) eqn:Hq.
      * apply Ascii.eqb_eq in Hq. subst c. cbn [append].
        apply (reads_char QUOTE _ (mkReader QUOTE_IN_QUOTED_FIELD fs f));
          [reflexivity | reflexivity |].
        apply (reads_char QUOTE _ (mkReader IN_QUOTED_FIELD fs (f ++ str1 QUOTE)));
          [reflexivity | | exact Hnext].
        unfold parse_process_char, add_char. cbn [state Ascii.eqb Bool.eqb QUOTE].
        now rewrite parse_add_char_fits by exact Hc.
      * cbn [append]. destruct (Ascii.eqb c LF) eqn:Hlf.
        -- apply Ascii.eqb_eq in Hlf. subst c.
           apply (reads_line_inside _ (mkReader IN_QUOTED_FIELD fs (f ++ str1 LF))
                    (mkReader IN_QUOTED_FIELD fs (f ++ str1 LF)));
             [| reflexivity | reflexivity | exact Hnext].
           unfold parse_process_char. cbn [state]. rewrite Hq.
           now rewrite parse_add_char_fits by exact Hc.
        -- apply (reads_char c _ (mkReader IN_QUOTED_FIELD fs (f ++ str1 c)));
             [exact Hlf | | exact Hnext].
           unfold parse_process_char. cbn [state]. rewrite Hq.
           now rewrite parse_add_char_fits by exact Hc.
    + rewrite (fits_cons_false f s c Hc).
      cbn [double_quotes]. destruct (Ascii.eqb c QUOTE) eqn:Hq.
      * apply Ascii.eqb_eq in Hq. subst c. cbn [append].
        apply (reads_char QUOTE _ (mkReader QUOTE_IN_QUOTED_FIELD fs f));
          [reflexivity | reflexivity |].
        apply reads_raise.
        unfold parse_process_char, add_char. cbn [state Ascii.eqb Bool.eqb QUOTE].
        now rewrite parse_add_char_raise by exact Hc.
      * cbn [append]. apply reads_raise.
        unfold parse_process_char. cbn [state]. rewrite Hq.
        now rewrite parse_add_char_raise by exact Hc.
Qed.

(** The inside of a field that needs no quotes. *)
Lemma reads_plain (s : string) :
  forall (fs : list string) (f rest : string) out,
    has_special s = false ->
    fits f = true ->
    (fits (f ++ s) = true -> reads (mkReader IN_FIELD fs (f ++ s)) rest out) ->
    reads (mkReader IN_FIELD fs f) (s ++ rest)
      (if fits (f ++ s) then out else field_error).
Proof.
  induction s as [|c s IH]; intros fs f rest out Hs Hf H.
  - rewrite append_nil_r in *. rewrite Hf. now apply H.
  - cbn in Hs. apply orb_false_iff in Hs. destruct Hs as [Hc Hs].
    pose proof (special_newline _ Hc) as Hnl.
    apply special_false in Hc. destruct Hc as (Hco & Hq & Hcr & Hlf).
    cbn [append]. destruct (fits (f ++ str1 c)) eqn:Hfc.
    + apply (reads_char c _ (mkReader IN_FIELD fs (f ++ str1 c))); [exact Hlf | |].
      * unfold parse_process_char. cbn [state]. rewrite Hnl, Hco.
        now rewrite parse_add_char_fits by exact Hfc.
      * replace (f ++ String c s)%string with ((f ++ str1 c) ++ s)%string
          by now rewrite append_assoc.
        apply IH; [exact Hs | exact Hfc |]. now rewrite append_assoc.
    + rewrite (fits_cons_false f s c Hfc). apply reads_raise.
      unfold parse_process_char. cbn [state]. rewrite Hnl, Hco.
      now rewrite parse_add_char_raise by exact Hfc.
Qed.

Lemma reads_field (fld : string) (fs : list string) (rest : string) out :
  no_cr fld = true ->
  (fits fld = true -> reads (mkReader (field_end fld) fs fld) rest out) ->
  reads (mkReader START_FIELD fs EmptyString) (join_append fld ++ rest)
    (if fits fld then out else field_error).
Proof.
  unfold field_end, join_append. intros Hcr H.
  destruct (has_special fld) eqn:E.
  - rewrite !append_assoc. cbn [str1 append].
    apply (reads_char QUOTE _ (mkReader IN_QUOTED_FIELD fs EmptyString));
      [reflexivity | reflexivity |].
    apply (reads_quoted_content fld fs EmptyString); [exact Hcr | reflexivity |].
    cbn [append]. intro Hfit.
    apply (reads_char QUOTE _ (mkReader QUOTE_IN_QUOTED_FIELD fs fld));
      [reflexivity | reflexivity | now apply H].
  - destruct fld as [|c f]; [now apply H|].
    cbn in E. apply orb_false_iff in E. destruct E as [Hc Hf].
    pose proof (special_newline _ Hc) as Hnl.
    apply special_false in Hc. destruct Hc as (Hco & Hq & _ & Hlf).
    cbn [append].
    apply (reads_char c _ (mkReader IN_FIELD fs (str1 c))); [exact Hlf | |].
    + unfold parse_process_char, start_field. cbn [state]. now rewrite Hnl, Hq, Hco.
    + apply (reads_plain f fs (str1 c)); [exact Hf | reflexivity | exact H].
Qed.

Lemma field_end_comma (fld : string) (fs : list string) :
  parse_process_char (mkReader (field_end fld) fs fld) (Some COMMA) =
  Ok (mkReader START_FIELD (fs ++ [fld]) EmptyString).
Proof.
  unfold field_end. destruct (has_special fld); [reflexivity|].
  now destruct fld.
Qed.

Lemma field_end_lf (fld : string) (fs : list string) :
  parse_process_char (mkReader (field_end fld) fs fld) (Some LF) =
  Ok (mkReader EAT_CRNL (fs ++ [fld]) EmptyString).
Proof.
  unfold field_end. destruct (has_special fld); [reflexivity|].
  now destruct fld.
Qed.

(** The fields of a record from the second on, or from the first when
    the parser has been brought to START_FIELD. *)
Lemma reads_fields (row : list string) :
  forall (fld : string) (fs : list string) (rest : string) recs err,
    no_cr fld = true ->
    Forall (fun f => no_cr f = true) row ->
    reads parse_reset rest (recs, err) ->
    reads (mkReader START_FIELD fs EmptyString)
      (String.concat (str1 COMMA) (map join_append (fld :: row)) ++ String LF rest)
      (if forallb fits (fld :: row) then ((fs ++ fld :: row) :: recs, err)
       else field_error).
Proof.
  induction row as [|g row IH]; intros fld fs rest recs err Hf Hrow H.
  - cbn [map String.concat forallb]. rewrite andb_true_r.
    apply reads_field; [exact Hf|]. intros _.
    apply (reads_line_end _ (mkReader EAT_CRNL (fs ++ [fld]) EmptyString)
             (mkReader START_RECORD (fs ++ [fld]) EmptyString));
      [apply field_end_lf | reflexivity | reflexivity | exact H].
  - change (String.concat (str1 COMMA) (map join_append (fld :: g :: row)))
      with (join_append fld ++ String COMMA
              (String.concat (str1 COMMA) (map join_append (g :: row))))%string.
    change (forallb fits (fld :: g :: row))
      with (fits fld && forallb fits (g :: row))%bool.
    rewrite append_assoc, if_andb. apply reads_field; [exact Hf|]. intros _.
    cbn [append].
    apply (reads_char COMMA _ (mkReader START_FIELD (fs ++ [fld]) EmptyString));
      [reflexivity | apply field_end_comma |].
    inversion Hrow as [|? ? Hg Hrow']; subst.
    replace (fs ++ fld :: g :: row) with ((fs ++ [fld]) ++ g :: row)
      by now rewrite <- app_assoc.
    now apply IH.
Qed.

(** At the start of a record a character that is no line break is
    taken as at the start of a field. *)
Lemma reads_start (c : ascii) (s : string) out :
  is_newline c = false ->
  reads (mkReader START_FIELD [] EmptyString) (String c s) out ->
  reads parse_reset (String c s) out.
Proof.
  intros Hnl H r0 cur Hcur.
  destruct (parse_chars_start _ _ _ Hcur eq_refl) as [-> ->].
  rewrite <- (H (mkReader START_FIELD [] EmptyString) EmptyString eq_refl).
  assert (Hlf : Ascii.eqb c LF = false).
  { unfold is_newline in Hnl. now apply orb_false_iff in Hnl. }
  cbn [readlines]. rewrite Hlf. cbn [append].
  destruct (readlines_cur s (str1 c)) as (l & rest & E); [discriminate|].
  rewrite E. cbn [reader_from str1 append parse_line].
  assert (Hsame : parse_process_char parse_reset (Some c) =
                  parse_process_char (mkReader START_FIELD [] EmptyString) (Some c)).
  { unfold parse_process_char. cbn [state parse_reset]. now rewrite Hnl. }
  now rewrite Hsame.
Qed.

Lemma record_first_char (fld : string) (row : list string) (rest : string) :
  fld :: row <> [EmptyString] ->
  exists c s,
    (String.concat (str1 COMMA) (map join_append (fld :: row)) ++ rest)%string
      = String c s /\ is_newline c = false.
Proof.
  intro Hne.
  destruct row as [|g row].
  - cbn [map String.concat]. unfold join_append.
    destruct (has_special fld) eqn:E.
    + eexists _, _. split; [reflexivity | reflexivity].
    + destruct fld as [|c f]; [now elim Hne|].
      cbn in E. apply orb_false_iff in E. destruct E as [Hc _].
      eexists _, _. split; [reflexivity | now apply special_newline].
  - change (String.concat (str1 COMMA) (map join_append (fld :: g :: row)))
      with (join_append fld ++ String COMMA
              (String.concat (str1 COMMA) (map join_append (g :: row))))%string.
    unfold join_append at 1. destruct (has_special fld) eqn:E.
    + eexists _, _. split; [reflexivity | reflexivity].
    + destruct fld as [|c f].
      * eexists _, _. split; [reflexivity | reflexivity].
      * cbn in E. apply orb_false_iff in E. destruct E as [Hc _].
        eexists _, _. split; [reflexivity | now apply special_newline].
Qed.

(** One record and its line feed, read from the start of a record. *)
Lemma reads_row (row : list string) (rest : string) recs err :
  Forall (fun f => no_cr f = true) row ->
  reads parse_reset rest (recs, err) ->
  reads parse_reset (join_fields row ++ String LF rest)
    (if forallb fits row then (row :: recs, err) else field_error).
Proof.
  intros Hrow H.
  destruct (join_fields_cases row) as [[Hr Hj] | [Hr Hj]]; rewrite Hj.
  - subst row. cbn [str1 append].
    apply (reads_char QUOTE _ (mkReader IN_QUOTED_FIELD [] EmptyString));
      [reflexivity | reflexivity |].
    apply (reads_char QUOTE _ (mkReader QUOTE_IN_QUOTED_FIELD [] EmptyString));
      [reflexivity | reflexivity |].
    apply (reads_line_end _ (mkReader EAT_CRNL [EmptyString] EmptyString)
             (mkReader START_RECORD [EmptyString] EmptyString));
      [reflexivity | reflexivity | reflexivity | exact H].
  - destruct row as [|fld row].
    + cbn [map String.concat append].
      apply (reads_line_end _ (mkReader EAT_CRNL [] EmptyString) parse_reset);
        [reflexivity | reflexivity | reflexivity | exact H].
    + destruct (record_first_char fld row (String LF rest) Hr) as (c & s & E & Hnl).
      rewrite E. apply reads_start; [exact Hnl|]. rewrite <- E.
      inversion Hrow; subst.
      now apply (reads_fields row fld []).
Qed.

Lemma universal_newlines_writes (rows : list (list string)) :
  universal_newlines false (writes (map writerow rows)) =
  writes (map (fun row => join_fields (map (universal_newlines false) row) ++ str1 LF)%string
              rows).
Proof.
  induction rows as [|row rows IH]; [reflexivity|].
  cbn [map writes]. rewrite universal_newlines_writerow, IH.
  now rewrite append_assoc.
Qed.

Lemma reads_rows (rows : list (list string)) :
  Forall (Forall (fun f => no_cr f = true)) rows ->
  reads parse_reset
    (writes (map (fun row => join_fields row ++ str1 LF)%string rows))
    (read_back rows).
Proof.
  induction rows as [|row rows IH]; intro H.
  - apply reads_eof.
  - inversion H as [|? ? Hrow Hrows]; subst. cbn [map writes].
    rewrite append_assoc. cbn [str1 append].
    specialize (IH Hrows). unfold read_back, fitting in *. cbn [take_while forallb].
    pose proof (reads_row row _ _ _ Hrow IH) as Hr.
    now destruct (forallb fits row).
Qed.

(** What the reader returns for a file written row by row and read in
    text mode: the rows before the first one with a field over the
    limit, each field with its line breaks translated, and the error of
    the limit if a row has such a field. *)
Theorem reader_writerows (rows : list (list string)) :
  reader (readlines EmptyString (universal_newlines false (writes (map writerow rows)))) =
  read_back (map (map (universal_newlines false)) rows).
Proof.
  rewrite universal_newlines_writes.
  pose proof (reads_rows (map (map (universal_newlines false)) rows)) as H.
  rewrite map_map in H. unfold reader. apply H; [|reflexivity].
  apply Forall_forall. intros row Hrow. apply in_map_iff in Hrow.
  destruct Hrow as (row0 & <- & _).
  apply Forall_forall. intros f Hf. apply in_map_iff in Hf.
  destruct Hf as (f0 & <- & _). apply no_cr_universal_newlines.
Qed.

Theorem read_csv_written (fieldnames : list string) (recs : list (list string)) :
  read_csv (writerow fieldnames ++ writes (map writerow recs)) =
  (DictReader (fitting (map (map (universal_newlines false)) (fieldnames :: recs))),
   snd (read_back (map (map (universal_newlines false)) (fieldnames :: recs)))).
Proof.
  unfold read_csv.
  change (writerow fieldnames ++ writes (map writerow recs))%string
    with (writes (map writerow (fieldnames :: recs))).
  now rewrite reader_writerows.
Qed.

(** ** Deduction of stock *)

Ltac run := unfold bind, get, modify, ret, lift, raise; cbn.

Lemma set_heap_id (st : Shop) : set_heap (heap st) st = st.
Proof. now destruct st. Qed.

Lemma update_product_run (st : Shop) (pid : pyval) (n : Z) :
  Inventory_update_product pid n st =
  match dict_get pid (products st) with
  | Some r =>
      if n >? quantity (heap st r) then (Ok false, st)
      else (Ok true,
            set_heap (store (heap st) r
                        (with_quantity (heap st r) (quantity (heap st r) - n))) st)
  | None => (Ok false, st)
  end.
Proof.
  unfold Inventory_update_product, Product_update_quantity. run.
  destruct (dict_get pid (products st)) as [r|]; [|reflexivity].
  now destruct (n >? quantity (heap st r)).
Qed.

(** C2: a deduction of [n] from a product that is in the catalog with at
    least [n] in stock succeeds, takes exactly [n] from that product's
    quantity, and leaves its other fields, every other product object and
    the rest of the state as they were. *)
Theorem update_product_success (st : Shop) (pid : pyval) (r : ref) (n : Z)
  (Hin : dict_get pid (products st) = Some r)
  (Hle : n <= quantity (heap st r)) :
  exists st',
    Inventory_update_product pid n st = (Ok true, st') /\
    quantity (heap st' r) = quantity (heap st r) - n /\
    product_id (heap st' r) = product_id (heap st r) /\
    name (heap st' r) = name (heap st r) /\
    price (heap st' r) = price (heap st r) /\
    (forall r', r' <> r -> heap st' r' = heap st r') /\
    products st' = products st /\
    sales st' = sales st /\
    inventory_csv st' = inventory_csv st /\
    sales_csv st' = sales_csv st.
Proof.
  rewrite update_product_run, Hin.
  assert (Hgt : (n >? quantity (heap st r)) = false)
    by (rewrite Z.gtb_ltb; apply Z.ltb_ge; lia).
  rewrite Hgt. eexists. split; [reflexivity|].
  cbn. unfold store. rewrite Nat.eqb_refl. cbn.
  repeat split; auto.
  intros r' Hr'. apply Nat.eqb_neq in Hr'. now rewrite Hr'.
Qed.

(** C3: a deduction for an id that is not in the catalog, or of more
    than the product has, returns [False] without raising and leaves
    the whole state as it was. *)
Theorem update_product_failure (st : Shop) (pid : pyval) (n : Z)
  (Hbad : dict_get pid (products st) = None \/
          exists r, dict_get pid (products st) = Some r /\ n > quantity (heap st r)) :
  Inventory_update_product pid n st = (Ok false, st).
Proof.
  rewrite update_product_run.
  destruct Hbad as [Hnone | (r & Hin & Hgt)].
  - now rewrite Hnone.
  - rewrite Hin. apply Z.gt_lt in Hgt.
    rewrite Z.gtb_ltb. apply Z.ltb_lt in Hgt. now rewrite Hgt.
Qed.

(** ** Recording a sale *)

Lemma save_sales_run (st : Shop) :
  snd (SalesManager_save_to_file st) =
  set_sales_csv
    (Some (writerow sales_fieldnames ++ fst (sales_text (heap st) (sales st)))%string) st.
Proof.
  unfold SalesManager_save_to_file. run.
  destruct (sales_text (heap st) (sales st)) as [text [e|]]; reflexivity.
Qed.

Lemma record_deduction_run (st : Shop) (h : ref -> Product) (p : ref) (q : Z) :
  record_deduction (p, q) (set_heap h st) =
  (Ok tt, set_heap (best_effort (products st) [(p, q)] h) st).
Proof.
  unfold record_deduction, bind, get. rewrite update_product_run.
  cbn [heap products set_heap fst snd best_effort].
  destruct (dict_get (product_id (h p)) (products st)) as [r|]; [|reflexivity].
  rewrite Z.gtb_ltb, Z.leb_antisym.
  now destruct (quantity (h r) <? q).
Qed.

Lemma record_deductions_run (st : Shop) (items : list (ref * Z)) :
  forall h,
    for_each record_deduction items (set_heap h st) =
    (Ok tt, set_heap (best_effort (products st) items h) st).
Proof.
  induction items as [|[p q] items IH]; intro h; [reflexivity|].
  cbn [for_each]. unfold bind. rewrite record_deduction_run. apply IH.
Qed.

Lemma record_sale_run (st : Shop) (sale : Sale) :
  SalesManager_record_sale sale st =
  SalesManager_save_to_file
    (set_sales (sales st ++ [sale])
       (set_heap (best_effort (products st) (products_sold sale) (heap st)) st)).
Proof.
  unfold SalesManager_record_sale. unfold bind at 1.
  rewrite <- (set_heap_id st) at 1. rewrite record_deductions_run.
  reflexivity.
Qed.

(** C6: [record_sale] appends the sale whatever the deductions do: the
    ledger afterwards is the ledger before followed by the sale, and the
    stock is that of the best-effort policy, each line item deducted if
    it can be and skipped if not, none undone; this holds also when the
    save that follows raises. *)
Theorem record_sale_appends_best_effort (st : Shop) (sale : Sale) :
  let st' := snd (SalesManager_record_sale sale st) in
  sales st' = sales st ++ [sale] /\
  products st' = products st /\
  heap st' = best_effort (products st) (products_sold sale) (heap st).
Proof.
  cbv zeta. rewrite record_sale_run, save_sales_run. cbn. auto.
Qed.


(** ** The loop of [process_sale], one item at a time *)

Lemma loop_done (pid : string) (inp : list string) (sale : Sale) (st : Shop) :
  String.eqb (lower pid) "done" = true ->
  process_sale_loop (pid :: inp) sale st = (Ok (sale, inp), st).
Proof. intro H. cbn [process_sale_loop]. now rewrite H. Qed.

Lemma loop_unknown (pid : string) (inp : list string) (sale : Sale) (st : Shop) :
  String.eqb (lower pid) "done" = false ->
  dict_get (PyStr pid) (products st) = None ->
  process_sale_loop (pid :: inp) sale st = process_sale_loop inp sale st.
Proof.
  intros H Hd. cbn [process_sale_loop]. rewrite H.
  unfold bind, get. now rewrite Hd.
Qed.

Lemma loop_sold (pid qs : string) (inp : list string) (sale : Sale) (st : Shop)
  (r : ref) (q : Z) :
  String.eqb (lower pid) "done" = false ->
  dict_get (PyStr pid) (products st) = Some r ->
  py_int qs = Some q ->
  q <= quantity (heap st r) ->
  process_sale_loop (pid :: qs :: inp) sale st =
  process_sale_loop inp (Sale_add_product sale r q)
    (set_heap (store (heap st) r (with_quantity (heap st r) (quantity (heap st r) - q))) st).
Proof.
  intros H Hd Hq Hle. cbn [process_sale_loop]. rewrite H.
  unfold bind at 1. unfold get at 1. rewrite Hd.
  unfold bind at 1. unfold lift, int_of_pyval. rewrite Hq.
  unfold bind at 1. rewrite update_product_run, Hd.
  assert (Hgt : (q >? quantity (heap st r)) = false)
    by (rewrite Z.gtb_ltb; apply Z.ltb_ge; lia).
  rewrite Hgt. unfold bind at 1. unfold get at 1.
  cbn [products set_heap]. now rewrite Hd.
Qed.

Lemma loop_short (pid qs : string) (inp : list string) (sale : Sale) (st : Shop)
  (r : ref) (q : Z) :
  String.eqb (lower pid) "done" = false ->
  dict_get (PyStr pid) (products st) = Some r ->
  py_int qs = Some q ->
  q > quantity (heap st r) ->
  process_sale_loop (pid :: qs :: inp) sale st = process_sale_loop inp sale st.
Proof.
  intros H Hd Hq Hgt. cbn [process_sale_loop]. rewrite H.
  unfold bind at 1. unfold get at 1. rewrite Hd.
  unfold bind at 1. unfold lift, int_of_pyval. rewrite Hq.
  unfold bind at 1. rewrite update_product_run, Hd.
  assert (Hb : (q >? quantity (heap st r)) = true)
    by (rewrite Z.gtb_ltb; apply Z.ltb_lt; lia).
  now rewrite Hb.
Qed.

Lemma process_sale_run (sid : string) (inp : list string) (st : Shop) :
  ShopSystem_process_sale (sid :: inp) st =
  match process_sale_loop inp (Sale_new (PyStr sid)) st with
  | (Ok res, st1) =>
      match SalesManager_record_sale (fst res) st1 with
      | (Ok _, st2) => (Ok (snd res), st2)
      | (Raise e, st2) => (Raise e, st2)
      end
  | (Raise e, st1) => (Raise e, st1)
  end.
Proof. reflexivity. Qed.

Lemma store_same (h : ref -> Product) (r : ref) (p : Product) : store h r p r = p.
Proof. unfold store. now rewrite Nat.eqb_refl. Qed.

Lemma snd_match_result {A B : Type} (x : result A * Shop) (f : A -> B) :
  snd (match x with
       | (Ok a, st) => (Ok (f a), st)
       | (Raise e, st) => (Raise e, st)
       end) = snd x.
Proof. now destruct x as [[a|e] st]. Qed.

(** ** The two sale scenarios *)

(** C1: from a catalog where P1 (Widget, 2.50) has 10 in stock and an
    empty ledger, the sale S1 of 4 units of P1 gives the one report row
    (S1, P1, Widget, 4, 10.0), but leaves P1 with 2 in stock, not 6:
    the 4 units are deducted once by [process_sale] and once more by
    [record_sale]. *)
Theorem process_sale_S1_deducts_twice (st : Shop) (r : ref)
  (Hin : dict_get (PyStr "P1") (products st) = Some r)
  (Hp : heap st r = widget 10)
  (Hs : sales st = []) :
  let st' := snd (ShopSystem_process_sale ["S1"; "P1"; "4"; "done"] st) in
  quantity (heap st' r) = 2 /\
  fst (SalesManager_view_sales_report st') =
    Ok [mkSaleRow (PyStr "S1") (PyStr "P1") (PyStr "Widget") 4 10%float].
Proof.
  cbv zeta. rewrite process_sale_run.
  rewrite (loop_sold "P1" "4" _ _ _ r 4); try reflexivity; try assumption;
    [|rewrite Hp; cbn; lia].
  rewrite loop_done by reflexivity.
  cbn [fst snd]. rewrite snd_match_result, record_sale_run, save_sales_run.
  unfold SalesManager_view_sales_report, bind, get, lift.
  cbn [fst snd heap sales products set_sales_csv set_sales set_heap
       Sale_add_product Sale_new products_sold sale_id app best_effort].
  rewrite Hs, !store_same, Hp. cbn [with_quantity product_id widget quantity name price].
  rewrite Hin, store_same. cbn [quantity with_quantity].
  change (4 <=? 10 - 4) with true. cbv iota.
  split; [now rewrite store_same|].
  unfold Sale_add_product, Sale_new.
  cbn [app report_rows products_sold sale_id]. unfold Sale_to_dict.
  cbn [Sale_entries products_sold sale_id].
  rewrite !store_same. reflexivity.
Qed.

Lemma report_rows_app (h : ref -> Product) (l1 l2 : list Sale) :
  report_rows h (l1 ++ l2) =
  match report_rows h l1 with
  | Ok rows1 =>
      match report_rows h l2 with
      | Ok rows2 => Ok (rows1 ++ rows2)
      | Raise e => Raise e
      end
  | Raise e => Raise e
  end.
Proof.
  induction l1 as [|sale l1 IH]; cbn [app report_rows].
  - now destruct (report_rows h l2).
  - destruct (Sale_to_dict h sale) as [entries|e]; [|reflexivity].
    rewrite IH. destruct (report_rows h l1) as [rows1|e]; [|reflexivity].
    destruct (report_rows h l2) as [rows2|e]; [|reflexivity].
    now rewrite app_assoc.
Qed.

Lemma report_rows_empty_sale (h : ref -> Product) (l : list Sale) (sid : pyval) :
  report_rows h (l ++ [mkSale sid []]) = report_rows h l.
Proof.
  rewrite report_rows_app. destruct (report_rows h l) as [rows|e]; [|reflexivity].
  cbn. now rewrite app_nil_r.
Qed.

(** C7: with 6 of P1 in stock, the sale S2 of 999 units of P1 skips the
    item: the loop ends normally with no line item, the sale with zero
    line items is appended to the ledger, no product object changes (P1
    keeps its 6), and the sales report is what it was before. *)
Theorem process_sale_S2_skips_item (st : Shop) (r : ref)
  (Hin : dict_get (PyStr "P1") (products st) = Some r)
  (Hq : quantity (heap st r) = 6) :
  let st' := snd (ShopSystem_process_sale ["S2"; "P1"; "999"; "done"] st) in
  process_sale_loop ["P1"; "999"; "done"] (Sale_new (PyStr "S2")) st =
    (Ok (mkSale (PyStr "S2") [], []), st) /\
  sales st' = sales st ++ [mkSale (PyStr "S2") []] /\
  heap st' = heap st /\
  quantity (heap st' r) = 6 /\
  fst (SalesManager_view_sales_report st') = fst (SalesManager_view_sales_report st).
Proof.
  cbv zeta.
  assert (Hloop : process_sale_loop ["P1"; "999"; "done"] (Sale_new (PyStr "S2")) st =
                  (Ok (mkSale (PyStr "S2") [], []), st)).
  { rewrite (loop_short "P1" "999" _ _ _ r 999).
    - now rewrite loop_done.
    - reflexivity.
    - exact Hin.
    - reflexivity.
    - rewrite Hq. lia. }
  split; [exact Hloop|].
  rewrite process_sale_run, Hloop. cbn [fst snd].
  rewrite snd_match_result, record_sale_run, save_sales_run.
  unfold SalesManager_view_sales_report, bind, get, lift.
  cbn [fst snd heap sales products set_sales_csv set_sales set_heap
       products_sold best_effort].
  repeat split; auto.
  apply report_rows_empty_sale.
Qed.

(** ** Loading the ledger, row by row *)

Lemma load_row_run (row : DictRow) (st : Shop) :
  SalesManager_load_row row st =
  match getitem row "sale_id" with
  | Raise e => (Raise e, st)
  | Ok sid =>
      match getitem row "product_id" with
      | Raise e => (Raise e, st)
      | Ok pid =>
          match dict_get pid (products st) with
          | None => (Ok tt, set_sales (sales st ++ [mkSale sid []]) st)
          | Some product =>
              match getitem row "quantity_sold" with
              | Raise e => (Raise e, st)
              | Ok qs =>
                  match int_of_pyval qs with
                  | Raise e => (Raise e, st)
                  | Ok q => (Ok tt, set_sales (sales st ++ [mkSale sid [(product, q)]]) st)
                  end
              end
          end
      end
  end.
Proof.
  unfold SalesManager_load_row. run.
  destruct (getitem row "sale_id") as [sid|]; [|reflexivity].
  destruct (getitem row "product_id") as [pid|]; [|reflexivity].
  destruct (dict_get pid (products st)) as [product|]; [|reflexivity].
  destruct (getitem row "quantity_sold") as [qs|]; [|reflexivity].
  now destruct (int_of_pyval qs).
Qed.

Lemma set_sales_twice (l l' : list Sale) (st : Shop) :
  set_sales l (set_sales l' st) = set_sales l st.
Proof. reflexivity. Qed.

Lemma set_sales_id (st : Shop) : set_sales (sales st) st = st.
Proof. now destruct st. Qed.

Lemma take_while_map {A B : Type} (g : A -> B) (f : B -> bool) (l : list A) :
  take_while f (map g l) = map g (take_while (fun a => f (g a)) l).
Proof.
  induction l as [|a l IH]; [reflexivity|]. cbn. now rewrite IH; destruct (f (g a)).
Qed.

Lemma forallb_map_comp {A B : Type} (g : A -> B) (f : B -> bool) (l : list A) :
  forallb f (map g l) = forallb (fun a => f (g a)) l.
Proof. induction l as [|a l IH]; [reflexivity|]. cbn. now rewrite IH. Qed.

Lemma take_while_all {A : Type} (f : A -> bool) (l : list A) :
  forallb f l = true -> take_while f l = l.
Proof.
  induction l as [|a l IH]; [reflexivity|]. cbn. intro H.
  apply andb_true_iff in H. destruct H as [-> H]. now rewrite IH.
Qed.

Lemma take_while_in {A : Type} (f : A -> bool) (l : list A) (a : A) :
  In a (take_while f l) -> In a l.
Proof.
  induction l as [|b l IH]; [auto|]. cbn. destruct (f b); [|now intros []].
  intros [H|H]; [now left | right; auto].
Qed.

Lemma load_sales_run (st : Shop) (text : string) :
  sales_csv st = Some text ->
  SalesManager_load_from_file st =
  match for_each SalesManager_load_row (fst (read_csv text)) st with
  | (Ok _, st') =>
      match snd (read_csv text) with
      | Some e => (Raise e, st')
      | None => (Ok tt, st')
      end
  | (Raise e, st') => (Raise e, st')
  end.
Proof.
  intro H. unfold SalesManager_load_from_file, for_each_row.
  run. rewrite H. destruct (read_csv text) as [rows [e|]]; run;
    destruct (for_each SalesManager_load_row rows st) as [[[]|] st'];
    reflexivity.
Qed.

(** A row is taken, as one sale, exactly when it is [row_ok]; a row
    that is not raises and leaves the ledger as it is. *)
Lemma load_row_cases (row : DictRow) (st : Shop) :
  if row_ok (products st) row then
    exists sale,
      SalesManager_load_row row st = (Ok tt, set_sales (sales st ++ [sale]) st) /\
      row_sale (products st) row sale
  else exists e, SalesManager_load_row row st = (Raise e, st).
Proof.
  rewrite load_row_run. unfold row_ok, row_sale.
  destruct (getitem row "sale_id") as [sid|e]; [|now exists e].
  destruct (getitem row "product_id") as [pid|e]; [|now exists e].
  destruct (dict_get pid (products st)) as [product|] eqn:Hd.
  - destruct (getitem row "quantity_sold") as [qs|e]; [|now exists e].
    destruct (int_of_pyval qs) as [q|e] eqn:Hq; [|now exists e].
    eexists. split; [reflexivity|]. split; [reflexivity|].
    exists pid. split; [reflexivity|]. rewrite Hd. now exists qs, q.
  - eexists. split; [reflexivity|]. split; [reflexivity|].
    exists pid. split; [reflexivity|]. now rewrite Hd.
Qed.

(** The loop takes the rows before the first that is not [row_ok], one
    sale each, and ends normally when there is no such row. *)
Lemma load_rows_taken (rows : list DictRow) :
  forall st,
    exists new,
      snd (for_each SalesManager_load_row rows st) = set_sales (sales st ++ new) st /\
      Forall2 (row_sale (products st)) (take_while (row_ok (products st)) rows) new /\
      (fst (for_each SalesManager_load_row rows st) = Ok tt <->
       forallb (row_ok (products st)) rows = true).
Proof.
  induction rows as [|row rows IH]; intro st.
  - exists []. cbn. rewrite app_nil_r, set_sales_id.
    split; [reflexivity|]. split; [constructor | now split].
  - cbn [for_each take_while forallb]. unfold bind.
    pose proof (load_row_cases row st) as Hrow.
    destruct (row_ok (products st) row).
    + destruct Hrow as (sale & Hrun & Hrel). rewrite Hrun.
      destruct (IH (set_sales (sales st ++ [sale]) st)) as (new & Hst & Hall & Hres).
      exists (sale :: new). cbn [sales set_sales products] in *.
      rewrite Hst, set_sales_twice, <- app_assoc.
      split; [reflexivity|]. split; [now constructor | exact Hres].
    + destruct Hrow as (e & Hrun). rewrite Hrun. exists [].
      cbn [fst snd]. rewrite app_nil_r, set_sales_id.
      split; [reflexivity|]. split; [constructor|]. now split.
Qed.

Lemma take_while_forallb {A : Type} (f : A -> bool) (l : list A) :
  forallb f (take_while f l) = true.
Proof.
  induction l as [|a l IH]; [reflexivity|]. cbn.
  destruct (f a) eqn:E; [|reflexivity]. cbn. now rewrite E.
Qed.

Lemma row_sale_known (d : list (pyval * ref)) (row : DictRow) (sale : Sale) :
  row_sale d row sale -> row_known d row = false -> products_sold sale = [].
Proof.
  intros (_ & pid & Hp & H) Hk. unfold row_known in Hk. rewrite Hp in Hk.
  now destruct (dict_get pid d).
Qed.

Lemma row_sale_unique (d : list (pyval * ref)) (row : DictRow) (s1 s2 : Sale) :
  row_sale d row s1 -> row_sale d row s2 -> s1 = s2.
Proof.
  intros (Hi1 & pid1 & Hp1 & H1) (Hi2 & pid2 & Hp2 & H2).
  rewrite Hp1 in Hp2. injection Hp2 as <-. rewrite Hi1 in Hi2. injection Hi2 as Hid.
  destruct s1 as [i1 l1], s2 as [i2 l2]. cbn in *. subst i2. f_equal.
  destruct (dict_get pid1 d).
  - destruct H1 as (qs1 & q1 & Hq1 & Hn1 & ->), H2 as (qs2 & q2 & Hq2 & Hn2 & ->).
    rewrite Hq1 in Hq2. injection Hq2 as <-. rewrite Hn1 in Hn2. now injection Hn2 as <-.
  - now rewrite H1, H2.
Qed.

Lemma report_rows_cons_empty (h : ref -> Product) (sale : Sale) (l : list Sale) :
  products_sold sale = [] -> report_rows h (sale :: l) = report_rows h l.
Proof.
  intro H. cbn [report_rows]. unfold Sale_to_dict. rewrite H. cbn.
  now destruct (report_rows h l).
Qed.

Lemma report_rows_filter (d : list (pyval * ref)) (h : ref -> Product)
  (rows : list DictRow) :
  forall new new',
    Forall2 (row_sale d) rows new ->
    Forall2 (row_sale d) (filter (row_known d) rows) new' ->
    report_rows h new = report_rows h new'.
Proof.
  induction rows as [|row rows IH]; intros new new' H H'.
  - inversion H; subst. cbn in H'. now inversion H'; subst.
  - inversion H as [|? sale ? news Hrel Hrest]; subst. cbn [filter] in H'.
    destruct (row_known d row) eqn:Hk.
    + inversion H' as [|? sale' ? news' Hrel' Hrest']; subst.
      rewrite (row_sale_unique _ _ _ _ Hrel Hrel').
      cbn [report_rows]. now rewrite (IH news news').
    + rewrite (report_rows_cons_empty _ _ _ (row_sale_known _ _ _ Hrel Hk)).
      now apply IH.
Qed.

Lemma row_ok_filter (d : list (pyval * ref)) (rows : list DictRow) :
  forallb (row_ok d) rows = true ->
  forallb (row_ok d) (filter (row_known d) rows) = true.
Proof.
  induction rows as [|row rows IH]; [reflexivity|]. cbn. intro H.
  apply andb_true_iff in H. destruct H as [H1 H2].
  destruct (row_known d row); cbn; [rewrite H1|]; auto.
Qed.

(** C9: [SalesManager.load_from_file] on a stored file appends one sale
    for each row that the reader yields, up to the first row that makes
    the loop raise.  The sale of a row whose product id is not in the
    catalog has no line item; the sale of a row whose product id is in
    the catalog has the one line item made of the catalog's product and
    of [int] of the stored quantity.  Whatever the products are, the
    sales report of the loaded sales is the one that the same rows
    without those of unknown products give.  The load ends normally
    exactly when every row is taken and the reader raises no error. *)
Theorem load_drops_unknown_products (st : Shop) (text : string)
  (Hfile : sales_csv st = Some text) :
  let d := products st in
  let taken := take_while (row_ok d) (fst (read_csv text)) in
  exists new new',
    snd (SalesManager_load_from_file st) = set_sales (sales st ++ new) st /\
    Forall2 (row_sale d) taken new /\
    Forall2 (row_sale d) (filter (row_known d) taken) new' /\
    (forall h, report_rows h new = report_rows h new') /\
    (fst (SalesManager_load_from_file st) = Ok tt <->
     forallb (row_ok d) (fst (read_csv text)) = true /\ snd (read_csv text) = None).
Proof.
  cbv zeta. rewrite (load_sales_run st text Hfile).
  set (rows := fst (read_csv text)).
  destruct (load_rows_taken rows st) as (new & Hst & Hall & Hres).
  destruct (load_rows_taken
              (filter (row_known (products st)) (take_while (row_ok (products st)) rows))
              st)
    as (new' & _ & Hall' & _).
  rewrite take_while_all in Hall'
    by apply row_ok_filter, take_while_forallb.
  exists new, new'.
  destruct (for_each SalesManager_load_row rows st) as [[[]|e] st1];
    cbn [fst snd] in Hst, Hres.
  - split; [now destruct (snd (read_csv text))|].
    split; [exact Hall|]. split; [exact Hall'|].
    split; [intro h; exact (report_rows_filter _ h _ new new' Hall Hall')|].
    destruct (snd (read_csv text)); cbn [fst]; split.
    + discriminate.
    + now intros [_ ?].
    + intros _. split; [now apply Hres | reflexivity].
    + reflexivity.
  - split; [exact Hst|]. split; [exact Hall|]. split; [exact Hall'|].
    split; [intro h; exact (report_rows_filter _ h _ new new' Hall Hall')|].
    cbn [fst]. split; [discriminate|]. intros [H _]. now apply Hres.
Qed.

(** ** Saving and reloading the ledger *)

Lemma writes_app (a b : list string) :
  writes (a ++ b) = (writes a ++ writes b)%string.
Proof.
  induction a as [|x a IH]; [reflexivity|]. cbn. now rewrite IH, append_assoc.
Qed.

Lemma for_each_app {A : Type} (body : A -> M unit) (a b : list A) (st : Shop) :
  for_each body (a ++ b) st =
  match for_each body a st with
  | (Ok _, st') => for_each body b st'
  | (Raise e, st') => (Raise e, st')
  end.
Proof.
  revert st. induction a as [|x a IH]; intro st; [reflexivity|].
  cbn [app for_each]. unfold bind.
  destruct (body x st) as [[[]|e] st1]; [apply IH | reflexivity].
Qed.

Lemma sales_text_ok (h : ref -> Product) (l : list Sale) (rows : list SaleRow) :
  report_rows h l = Ok rows ->
  sales_text h l = (writes (map writerow (map sales_record rows)), None).
Proof.
  revert rows. induction l as [|sale l IH]; intros rows H.
  - cbn in H. injection H as <-. reflexivity.
  - cbn [report_rows sales_text] in *.
    destruct (Sale_to_dict h sale) as [entries|]; [|discriminate].
    destruct (report_rows h l) as [rows'|]; [|discriminate].
    injection H as <-. rewrite (IH rows' eq_refl).
    now rewrite !map_app, writes_app, !map_map.
Qed.

Lemma DictReader_written (fieldnames : list string) (recs : list (list string)) :
  Forall (fun rec => rec <> []) recs ->
  DictReader (fieldnames :: recs) = map (make_row fieldnames) recs.
Proof.
  intro H. cbn [DictReader]. f_equal.
  induction H as [|rec recs Hrec _ IH]; [reflexivity|].
  cbn [filter]. destruct rec; [now elim Hrec|]. cbn. now rewrite IH.
Qed.

(** The rows that [DictReader] yields for a header and the records of
    the items [l], written one after the other: those of the items
    before the first whose record does not fit. *)
Lemma read_written {A : Type} (fieldnames : list string) (rec : A -> list string)
  (l : list A) :
  map (universal_newlines false) fieldnames = fieldnames ->
  forallb fits fieldnames = true ->
  (forall a, rec a <> []) ->
  read_csv (writerow fieldnames ++ writes (map writerow (map rec l))) =
  (map (fun a => make_row fieldnames (map (universal_newlines false) (rec a)))
       (take_while (fun a => record_fits (rec a)) l),
   if forallb (fun a => record_fits (rec a)) l then None else Some CsvError).
Proof.
  intros Hnames Hfit Hrec. rewrite read_csv_written. unfold read_back, fitting.
  cbn [map take_while forallb snd]. rewrite Hnames, Hfit. cbn [andb].
  rewrite !map_map, take_while_map, forallb_map_comp. f_equal.
  rewrite DictReader_written; [now rewrite map_map|].
  apply Forall_forall. intros r Hin. apply in_map_iff in Hin.
  destruct Hin as (a & <- & _). intro E. apply map_eq_nil in E. now apply (Hrec a).
Qed.

(** The rows that [DictReader] yields for the saved ledger. *)
Lemma read_saved_sales (rows : list SaleRow) :
  read_csv (writerow sales_fieldnames ++ writes (map writerow (map sales_record rows))) =
  (map stored_sale_row (take_while (fun e => record_fits (sales_record e)) rows),
   if forallb (fun e => record_fits (sales_record e)) rows then None
   else Some CsvError).
Proof.
  apply (read_written sales_fieldnames sales_record); [reflexivity | reflexivity |].
  discriminate.
Qed.

Lemma entry_fits_reads (rows : list SaleRow) :
  forallb entry_fits rows = true ->
  forallb (fun e => record_fits (sales_record e)) rows = true.
Proof.
  induction rows as [|e rows IH]; [reflexivity|]. cbn [forallb]. intro H.
  apply andb_true_iff in H. destruct H as [He H].
  apply andb_true_iff in He. destruct He as [-> _]. now apply IH.
Qed.

(** The rows of a saved ledger whose entries all fit. *)
Lemma read_saved_sales_fit (rows : list SaleRow) :
  forallb entry_fits rows = true ->
  read_csv (writerow sales_fieldnames ++ writes (map writerow (map sales_record rows))) =
  (map stored_sale_row rows, None).
Proof.
  intro H. apply entry_fits_reads in H.
  now rewrite read_saved_sales, take_while_all, H.
Qed.

Lemma str_ok_text (v : pyval) :
  str_ok v = true -> PyStr (universal_newlines false (csv_text v)) = v.
Proof.
  destruct v as [|s]; [discriminate|]. cbn. intro H.
  now rewrite universal_newlines_no_cr.
Qed.

Lemma int_text (n : Z) :
  int_prints n = true ->
  int_of_pyval (PyStr (universal_newlines false (str_of_int n))) = Ok n.
Proof.
  intro H. rewrite universal_newlines_no_cr by apply no_cr_str_of_int.
  cbn. now rewrite py_int_str_of_int, H.
Qed.

(** One stored entry of a sale is loaded as a sale of its own. *)
Lemma load_stored_entry (st st0 : Shop) (sid : pyval) (p : ref) (q : Z) (total : float) :
  str_ok sid = true ->
  item_ok st (p, q) = true ->
  products st0 = products st ->
  int_prints q = true ->
  SalesManager_load_row
    (stored_sale_row (mkSaleRow sid (product_id (heap st p)) (name (heap st p)) q total))
    st0 =
  (Ok tt, set_sales (sales st0 ++ [mkSale sid [(p, q)]]) st0).
Proof.
  intros Hsid Hitem Hprod Hq. rewrite load_row_run.
  unfold item_ok in Hitem. cbn [fst] in Hitem.
  apply andb_true_iff in Hitem. destruct Hitem as [Hpid Hget].
  unfold stored_sale_row, sales_record.
  cbn [map sr_sale_id sr_product_id sr_product_name sr_quantity_sold sr_total_price].
  change (getitem (make_row sales_fieldnames ?l) "sale_id")
    with (getitem (make_row sales_fieldnames l) "sale_id").
  unfold make_row, sales_fieldnames, getitem.
  cbn [zip_row List.length skipn map app row_find String.eqb Ascii.eqb Bool.eqb].
  rewrite (str_ok_text _ Hsid), (str_ok_text _ Hpid), Hprod.
  destruct (dict_get (product_id (heap st p)) (products st)) as [r|]; [|discriminate].
  apply Nat.eqb_eq in Hget. subst r.
  now rewrite int_text by exact Hq.
Qed.

Lemma load_stored_entries (st : Shop) (sid : pyval) (items : list (ref * Z)) :
  forall (entries : list SaleRow) (st0 : Shop),
    Sale_entries (heap st) sid items = Ok entries ->
    str_ok sid = true ->
    forallb (item_ok st) items = true ->
    products st0 = products st ->
    forallb entry_fits entries = true ->
    for_each SalesManager_load_row (map stored_sale_row entries) st0 =
    (Ok tt, set_sales (sales st0 ++ map (fun item => mkSale sid [item]) items) st0).
Proof.
  induction items as [|[p q] items IH]; intros entries st0 He Hsid Hitems Hprod Hfit.
  - cbn in He. injection He as <-. cbn. now rewrite app_nil_r, set_sales_id.
  - cbn [Sale_entries] in He.
    destruct (float_mul_int (price (heap st p)) q) as [total|]; [|discriminate].
    destruct (Sale_entries (heap st) sid items) as [rest|] eqn:Hrest; [|discriminate].
    injection He as <-. cbn in Hitems. apply andb_true_iff in Hitems.
    destruct Hitems as [Hitem Hitems].
    cbn [forallb] in Hfit. apply andb_true_iff in Hfit. destruct Hfit as [Hq Hfit].
    apply andb_true_iff in Hq. destruct Hq as [_ Hq]. cbn [sr_quantity_sold] in Hq.
    cbn [map for_each]. unfold bind.
    rewrite (load_stored_entry st st0 sid p q total Hsid Hitem Hprod Hq).
    rewrite (IH rest _ eq_refl Hsid Hitems) by assumption.
    cbn [sales set_sales]. rewrite set_sales_twice. now rewrite <- app_assoc.
Qed.

Lemma load_stored_sales (st : Shop) (l : list Sale) :
  forall (rows : list SaleRow) (st0 : Shop),
    report_rows (heap st) l = Ok rows ->
    forallb (fun sale => (str_ok (sale_id sale)
                          && forallb (item_ok st) (products_sold sale))%bool) l = true ->
    products st0 = products st ->
    forallb entry_fits rows = true ->
    for_each SalesManager_load_row (map stored_sale_row rows) st0 =
    (Ok tt, set_sales (sales st0 ++ split_sales l) st0).
Proof.
  induction l as [|sale l IH]; intros rows st0 Hr Hok Hprod Hfit.
  - cbn in Hr. injection Hr as <-. cbn. now rewrite app_nil_r, set_sales_id.
  - cbn [report_rows] in Hr.
    destruct (Sale_to_dict (heap st) sale) as [entries|] eqn:He; [|discriminate].
    destruct (report_rows (heap st) l) as [rows'|] eqn:Hr'; [|discriminate].
    injection Hr as <-. cbn [forallb] in Hok.
    apply andb_true_iff in Hok. destruct Hok as [Hsale Hok].
    apply andb_true_iff in Hsale. destruct Hsale as [Hsid Hitems].
    rewrite forallb_app in Hfit. apply andb_true_iff in Hfit.
    destruct Hfit as [Hfit1 Hfit2].
    rewrite map_app, for_each_app.
    rewrite (load_stored_entries st _ _ entries st0 He Hsid Hitems Hprod Hfit1).
    rewrite (IH rows' _ eq_refl Hok) by assumption.
    cbn [sales set_sales split_sales flat_map]. rewrite set_sales_twice.
    now rewrite <- app_assoc.
Qed.

Lemma report_rows_split (h : ref -> Product) (l : list Sale) :
  report_rows h (split_sales l) = report_rows h l.
Proof.
  induction l as [|[sid items] l IH]; [reflexivity|].
  cbn [split_sales flat_map sale_id products_sold].
  change (flat_map _ l) with (split_sales l).
  cbn [report_rows]. unfold Sale_to_dict at 1. cbn [sale_id products_sold].
  rewrite <- IH. clear IH.
  induction items as [|[p q] items IHi]; cbn [map app Sale_entries].
  - now destruct (report_rows h (split_sales l)).
  - cbn [report_rows]. unfold Sale_to_dict at 1. cbn [sale_id products_sold Sale_entries].
    destruct (float_mul_int (price (h p)) q) as [total|]; [|reflexivity].
    rewrite IHi.
    destruct (Sale_entries h sid items) as [entries|]; [|reflexivity].
    now destruct (report_rows h (split_sales l)).
Qed.

Lemma init_sales_run (st : Shop) (text : string) :
  sales_csv st = Some text ->
  SalesManager_init st =
  let (rows, err) := read_csv text in
  match for_each SalesManager_load_row rows (set_sales [] st) with
  | (Ok _, st') =>
      match err with
      | Some e => (Raise e, st')
      | None => (Ok tt, st')
      end
  | (Raise e, st') => (Raise e, st')
  end.
Proof.
  intro H. unfold SalesManager_init, SalesManager_load_from_file, for_each_row.
  run. rewrite H. destruct (read_csv text) as [rows [e|]]; run;
    destruct (for_each SalesManager_load_row rows (set_sales [] st)) as [[[]|] st'];
    reflexivity.
Qed.

(** The ledger after a save and a reload by a new [SalesManager] over
    the same catalog: one sale per line item of the saved ledger, and
    the same report. *)
Theorem ledger_reload (st : Shop) (rows : list SaleRow) :
  ledger_ok st = true ->
  report_rows (heap st) (sales st) = Ok rows ->
  forallb entry_fits rows = true ->
  let st1 := snd (SalesManager_save_to_file st) in
  SalesManager_init st1 =
    (Ok tt, set_sales (split_sales (sales st)) st1) /\
  fst (SalesManager_view_sales_report (snd (SalesManager_init st1))) = Ok rows.
Proof.
  intros Hok Hrows Hfit. cbv zeta. rewrite save_sales_run.
  rewrite (sales_text_ok _ _ _ Hrows). cbn [fst].
  erewrite init_sales_run by reflexivity.
  rewrite (read_saved_sales_fit rows Hfit).
  rewrite (load_stored_sales st (sales st) rows
             (set_sales [] (set_sales_csv _ st)) Hrows Hok eq_refl Hfit).
  cbn [sales set_sales app].
  split; [reflexivity|].
  unfold SalesManager_view_sales_report. run.
  now rewrite report_rows_split.
Qed.

Lemma load_row_at_most_one (row : DictRow) (st : Shop) :
  Forall at_most_one_item (sales st) ->
  Forall at_most_one_item (sales (snd (SalesManager_load_row row st))).
Proof.
  intro H. rewrite load_row_run.
  destruct (getitem row "sale_id") as [sid|]; [|exact H].
  destruct (getitem row "product_id") as [pid|]; [|exact H].
  destruct (dict_get pid (products st)) as [product|].
  - destruct (getitem row "quantity_sold") as [qs|]; [|exact H].
    destruct (int_of_pyval qs) as [q|]; [|exact H].
    cbn. apply Forall_app. split; [exact H|]. repeat constructor.
  - cbn. apply Forall_app. split; [exact H|]. repeat constructor.
Qed.

Lemma load_rows_at_most_one (rows : list DictRow) :
  forall st,
    Forall at_most_one_item (sales st) ->
    Forall at_most_one_item (sales (snd (for_each SalesManager_load_row rows st))).
Proof.
  induction rows as [|row rows IH]; intros st H; [exact H|].
  cbn [for_each]. unfold bind.
  pose proof (load_row_at_most_one row st H) as H1.
  destruct (SalesManager_load_row row st) as [[[]|e] st1]; cbn [snd] in *.
  - now apply IH.
  - exact H1.
Qed.

Lemma split_one_sale (sid : pyval) (items : list (ref * Z)) :
  split_sales [mkSale sid items] = map (fun item => mkSale sid [item]) items.
Proof. cbn. apply app_nil_r. Qed.

(** C10: whatever the stored file holds, and whether the load ends
    normally or not, every sale of the ledger of a new [SalesManager]
    has at most one line item; and a ledger that is saved and reloaded
    over the same catalog comes back with one sale per line item, so a
    sale saved with k line items comes back as k sales with its id.
    The second part is for a ledger that the file and its reader can
    hold: ids without carriage return, no field over the limit of the
    reader, no quantity over the digit limit of [int]. *)
Theorem reload_one_sale_per_line_item (st : Shop) :
  Forall at_most_one_item (sales (snd (SalesManager_init st))) /\
  (forall rows,
      ledger_ok st = true ->
      report_rows (heap st) (sales st) = Ok rows ->
      forallb entry_fits rows = true ->
      sales (snd (SalesManager_init (snd (SalesManager_save_to_file st)))) =
      split_sales (sales st)) /\
  (forall sid items,
      split_sales [mkSale sid items] = map (fun item => mkSale sid [item]) items).
Proof.
  split; [|split].
  - destruct (sales_csv st) as [text|] eqn:E.
    + rewrite (init_sales_run st text E).
      destruct (read_csv text) as [rows err].
      pose proof (load_rows_at_most_one rows (set_sales [] st) (Forall_nil _)) as H.
      destruct (for_each SalesManager_load_row rows (set_sales [] st)) as [[[]|e] st1];
        [destruct err|]; exact H.
    + unfold SalesManager_init, SalesManager_load_from_file. run. rewrite E. constructor.
  - intros rows Hok Hrows Hfit.
    destruct (ledger_reload st rows Hok Hrows Hfit) as [Hrun _]. now rewrite Hrun.
  - exact split_one_sale.
Qed.

(** ** Quantities are never negative *)

Lemma store_nonneg (h : ref -> Product) (r : ref) (p : Product) :
  (forall r', 0 <= quantity (h r')) -> 0 <= quantity p ->
  forall r', 0 <= quantity (store h r p r').
Proof.
  intros Hh Hp r'. unfold store. destruct (Nat.eqb r' r); auto.
Qed.

Lemma update_product_inv (pid : pyval) (n : Z) (st : Shop) :
  Inv st -> Inv (snd (Inventory_update_product pid n st)).
Proof.
  intros [Hq Hf]. rewrite update_product_run.
  destruct (dict_get pid (products st)) as [r|]; [|now split].
  destruct (n >? quantity (heap st r)) eqn:E; [now split|].
  split; [|exact Hf]. cbn. intro r'. apply store_nonneg; [exact Hq|].
  cbn. rewrite Z.gtb_ltb in E. apply Z.ltb_ge in E. lia.
Qed.

Lemma best_effort_nonneg (d : list (pyval * ref)) (items : list (ref * Z)) :
  forall h,
    (forall r, 0 <= quantity (h r)) ->
    forall r, 0 <= quantity (best_effort d items h r).
Proof.
  induction items as [|[p q] items IH]; intros h Hh; [exact Hh|].
  cbn [best_effort]. apply IH.
  destruct (dict_get (product_id (h p)) d) as [r|]; [|exact Hh].
  destruct (q <=? quantity (h r)) eqn:E; [|exact Hh].
  apply store_nonneg; [exact Hh|]. cbn. apply Z.leb_le in E. lia.
Qed.

Lemma record_sale_inv (sale : Sale) (st : Shop) :
  Inv st -> Inv (snd (SalesManager_record_sale sale st)).
Proof.
  intros [Hq Hf]. rewrite record_sale_run, save_sales_run.
  split; [|exact Hf]. intro r. cbn. now apply best_effort_nonneg.
Qed.

Lemma process_sale_loop_inv (inp : list string) :
  (forall sale st, Inv st -> Inv (snd (process_sale_loop inp sale st))) /\
  (forall a sale st, Inv st -> Inv (snd (process_sale_loop (a :: inp) sale st))).
Proof.
  assert (Step : forall a inp1,
             (forall sale st, Inv st -> Inv (snd (process_sale_loop inp1 sale st))) ->
             (forall sale st, Inv st ->
                Inv (snd (process_sale_loop (tl inp1) sale st))) ->
             forall sale st, Inv st -> Inv (snd (process_sale_loop (a :: inp1) sale st))).
  { intros a inp1 H1 H2 sale st HI. cbn [process_sale_loop].
    destruct (String.eqb (lower a) "done"); [exact HI|].
    unfold bind at 1. unfold get at 1.
    destruct (dict_get (PyStr a) (products st)) as [r|] eqn:Hd; [|now apply H1].
    destruct inp1 as [|qs inp2]; [exact HI|]. cbn [tl] in H2.
    unfold bind at 1. unfold lift.
    destruct (int_of_pyval (PyStr qs)) as [qty|]; [|exact HI].
    unfold bind at 1.
    pose proof (update_product_inv (PyStr a) qty st HI) as HI1.
    destruct (Inventory_update_product (PyStr a) qty st) as [[[|]|e] st1];
      cbn [snd] in HI1; [| now apply H2 | exact HI1].
    unfold bind at 1. unfold get at 1.
    destruct (dict_get (PyStr a) (products st1)); [now apply H2 | exact HI1]. }
  induction inp as [|b inp [IH1 IH2]].
  - assert (H0 : forall sale st, Inv st -> Inv (snd (process_sale_loop [] sale st)))
      by (intros sale st HI; exact HI).
    split; [exact H0|]. intro a. now apply Step.
  - split; [apply IH2|]. intro a. apply Step; [apply IH2 | exact IH1].
Qed.

Lemma process_sale_inv (inp : list string) (st : Shop) :
  Inv st -> Inv (snd (ShopSystem_process_sale inp st)).
Proof.
  intro HI. destruct inp as [|sid inp]; [exact HI|].
  rewrite process_sale_run.
  pose proof (proj1 (process_sale_loop_inv inp) (Sale_new (PyStr sid)) st HI) as H1.
  destruct (process_sale_loop inp (Sale_new (PyStr sid)) st) as [[res|e] st1];
    cbn [snd] in H1; [|exact H1].
  rewrite snd_match_result. now apply record_sale_inv.
Qed.

Lemma read_saved_inventory (ps : list Product) :
  read_csv (writerow inventory_fieldnames
            ++ writes (map writerow (map inventory_fields ps))) =
  (map stored_product_row (take_while (fun p => record_fits (inventory_fields p)) ps),
   if forallb (fun p => record_fits (inventory_fields p)) ps then None
   else Some CsvError).
Proof.
  apply (read_written inventory_fieldnames inventory_fields);
    [reflexivity | reflexivity | discriminate].
Qed.

Lemma inventory_record_run (p : Product) :
  inventory_record (Product_to_dict p) =
  if prints p then Ok (inventory_fields p) else Raise ValueError.
Proof.
  unfold inventory_record, int_str, prints. cbn [Product_to_dict inv_quantity].
  now destruct (int_prints (quantity p)).
Qed.

(** The loop of the save writes the products before the first whose
    quantity [str] does not print, and raises at that product. *)
Lemma inventory_text_run (h : ref -> Product) (d : list (pyval * ref)) :
  inventory_text h d =
  (writes (map writerow (map inventory_fields
             (take_while prints (map (fun kv => h (snd kv)) d)))),
   if forallb prints (map (fun kv => h (snd kv)) d) then None else Some ValueError).
Proof.
  induction d as [|kv d IH]; [reflexivity|].
  cbn [inventory_text map take_while forallb]. rewrite inventory_record_run.
  destruct (prints (h (snd kv))); [|reflexivity].
  now rewrite IH.
Qed.

Lemma save_inventory_run (st : Shop) :
  Inventory_save_to_file st =
  (if forallb prints (stocked st) then Ok tt else Raise ValueError,
   set_inventory_csv
     (Some (writerow inventory_fieldnames
            ++ writes (map writerow (map inventory_fields
                         (take_while prints (stocked st)))))%string) st).
Proof.
  unfold Inventory_save_to_file, stocked. run. rewrite inventory_text_run.
  now destruct (forallb prints (map (fun kv => heap st (snd kv)) (products st))).
Qed.

Lemma stored_quantity (p : Product) :
  getitem (stored_product_row p) "quantity" =
  Ok (PyStr (universal_newlines false (str_of_int (quantity p)))).
Proof. reflexivity. Qed.

Lemma stored_product_row_nonneg (p : Product) :
  0 <= quantity p -> row_nonneg (stored_product_row p) = true.
Proof.
  intro H. unfold row_nonneg. rewrite stored_quantity.
  rewrite universal_newlines_no_cr by apply no_cr_str_of_int.
  cbn [int_of_pyval]. rewrite py_int_str_of_int.
  destruct (int_prints (quantity p)); [now apply Z.leb_le | reflexivity].
Qed.

Lemma save_inventory_inv (st : Shop) :
  Inv st -> Inv (snd (Inventory_save_to_file st)).
Proof.
  intros [Hq Hf]. rewrite save_inventory_run. split; [exact Hq|].
  cbn [snd inventory_csv set_inventory_csv file_nonneg].
  rewrite read_saved_inventory. cbn [fst].
  apply forallb_forall. intros row Hin.
  apply in_map_iff in Hin. destruct Hin as (p & <- & Hin).
  apply take_while_in, take_while_in in Hin. unfold stocked in Hin.
  apply in_map_iff in Hin. destruct Hin as (kv & <- & _).
  apply stored_product_row_nonneg, Hq.
Qed.

Lemma inventory_load_row_run (row : DictRow) (st : Shop) :
  Inventory_load_row row st =
  match getitem row "product_id" with
  | Raise e => (Raise e, st)
  | Ok pid =>
  match getitem row "product_name" with
  | Raise e => (Raise e, st)
  | Ok nm =>
  match getitem row "price" with
  | Raise e => (Raise e, st)
  | Ok pr =>
  match float_of_pyval pr with
  | Raise e => (Raise e, st)
  | Ok x =>
  match getitem row "quantity" with
  | Raise e => (Raise e, st)
  | Ok qt =>
  match int_of_pyval qt with
  | Raise e => (Raise e, st)
  | Ok n =>
      (Ok tt,
       mkShop (store (heap st) (next_ref st) (mkProduct pid nm x n))
              (S (next_ref st))
              (dict_set pid (next_ref st) (products st))
              (sales st) (inventory_csv st) (sales_csv st))
  end end end end end end.
Proof.
  unfold Inventory_load_row, Product_new. run.
  destruct (getitem row "product_id") as [pid|]; [|reflexivity].
  destruct (getitem row "product_name") as [nm|]; [|reflexivity].
  destruct (getitem row "price") as [pr|]; [|reflexivity].
  destruct (float_of_pyval pr) as [x|]; [|reflexivity].
  destruct (getitem row "quantity") as [qt|]; [|reflexivity].
  now destruct (int_of_pyval qt) as [n|].
Qed.

Lemma load_inventory_rows_inv (rows : list DictRow) :
  forall st,
    forallb row_nonneg rows = true ->
    quantities_nonneg st ->
    quantities_nonneg (snd (for_each Inventory_load_row rows st)) /\
    inventory_csv (snd (for_each Inventory_load_row rows st)) = inventory_csv st.
Proof.
  induction rows as [|row rows IH]; intros st Hrows Hq; [now split|].
  cbn in Hrows. apply andb_true_iff in Hrows. destruct Hrows as [Hrow Hrows].
  cbn [for_each]. unfold bind. rewrite inventory_load_row_run.
  unfold row_nonneg in Hrow.
  destruct (getitem row "product_id") as [pid|]; [|now split].
  destruct (getitem row "product_name") as [nm|]; [|now split].
  destruct (getitem row "price") as [pr|]; [|now split].
  destruct (float_of_pyval pr) as [x|]; [|now split].
  destruct (getitem row "quantity") as [qt|]; [|now split].
  destruct (int_of_pyval qt) as [n|]; [|now split].
  apply Z.leb_le in Hrow.
  match goal with
  | |- context [for_each Inventory_load_row rows ?s] =>
      destruct (IH s Hrows) as [H1 H2]
  end.
  - intro r. cbn [heap]. now apply store_nonneg.
  - split; [exact H1 | exact H2].
Qed.

Lemma load_inventory_inv (st : Shop) :
  Inv st -> Inv (snd (Inventory_load_from_file st)).
Proof.
  intros [Hq Hf]. unfold Inventory_load_from_file, bind, get.
  destruct (inventory_csv st) as [text|] eqn:E;
    [|split; [exact Hq | cbn [snd ret]; now rewrite E]].
  assert (Hrows : forallb row_nonneg (fst (read_csv text)) = true) by exact Hf.
  unfold for_each_row. destruct (read_csv text) as [rows err]. cbn [fst] in Hrows.
  destruct (load_inventory_rows_inv rows st Hrows Hq) as [H1 H2].
  unfold bind.
  destruct (for_each Inventory_load_row rows st) as [[[]|e] st1]; cbn [snd] in *;
    [destruct err; cbn [snd raise ret]|]; (split; [exact H1 | now rewrite H2, E]).
Qed.

Lemma set_products_inv (d : list (pyval * ref)) (st : Shop) :
  Inv st -> Inv (set_products d st).
Proof. intros [Hq Hf]. now split. Qed.

Lemma inventory_init_inv (st : Shop) :
  Inv st -> Inv (snd (Inventory_init st)).
Proof.
  intro HI. unfold Inventory_init, bind, modify.
  apply load_inventory_inv. now apply set_products_inv.
Qed.

(** The methods of the ledger that leave the products and the stored
    catalog alone. *)
Lemma load_sales_rows_state (rows : list DictRow) :
  forall st, exists l, snd (for_each SalesManager_load_row rows st) = set_sales l st.
Proof.
  induction rows as [|row rows IH]; intro st.
  - exists (sales st). cbn. now rewrite set_sales_id.
  - cbn [for_each]. unfold bind. rewrite load_row_run.
    assert (Hkeep : exists l, st = set_sales l st)
      by (exists (sales st); now rewrite set_sales_id).
    assert (Hstep : forall l0, exists l,
               snd (for_each SalesManager_load_row rows (set_sales l0 st)) = set_sales l st).
    { intro l0. destruct (IH (set_sales l0 st)) as [l Hl]. exists l.
      now rewrite Hl, set_sales_twice. }
    destruct (getitem row "sale_id") as [sid|]; [|exact Hkeep].
    destruct (getitem row "product_id") as [pid|]; [|exact Hkeep].
    destruct (dict_get pid (products st)) as [product|]; [|apply Hstep].
    destruct (getitem row "quantity_sold") as [qs|]; [|exact Hkeep].
    destruct (int_of_pyval qs) as [q|]; [apply Hstep | exact Hkeep].
Qed.

Lemma set_sales_inv (l : list Sale) (st : Shop) : Inv st -> Inv (set_sales l st).
Proof. intros [Hq Hf]. now split. Qed.

Lemma load_sales_inv (st : Shop) :
  Inv st -> Inv (snd (SalesManager_load_from_file st)).
Proof.
  intro HI. unfold SalesManager_load_from_file, bind, get.
  destruct (sales_csv st) as [text|]; [|exact HI].
  unfold for_each_row. destruct (read_csv text) as [rows err]. unfold bind.
  destruct (load_sales_rows_state rows st) as [l Hl].
  destruct (for_each SalesManager_load_row rows st) as [[[]|e] st1]; cbn [snd] in *;
    [destruct err; cbn [snd raise ret]|]; subst st1; now apply set_sales_inv.
Qed.

Lemma sales_init_inv (st : Shop) :
  Inv st -> Inv (snd (SalesManager_init st)).
Proof.
  intro HI. unfold SalesManager_init, bind, modify.
  apply load_sales_inv. now apply set_sales_inv.
Qed.

Lemma add_product_inv (p : Product) (st : Shop) :
  Inv st -> 0 <= quantity p ->
  Inv (snd ((r <- Product_new p ;; Inventory_add_product r) st)).
Proof.
  intros [Hq Hf] Hp. unfold Product_new, Inventory_add_product, bind, get, modify, ret.
  apply save_inventory_inv. split; [|exact Hf].
  intro r. cbn [heap set_products]. now apply store_nonneg.
Qed.

Lemma add_product_input_inv (inp : list string) (st : Shop) :
  Inv st -> op_ok (OpAddProductInput inp) ->
  Inv (snd (ShopSystem_add_product inp st)).
Proof.
  intros HI Hop. unfold ShopSystem_add_product.
  destruct inp as [|a [|b [|c [|d inp]]]]; try exact HI.
  - unfold bind, lift. cbn [input fst snd float_of_pyval].
    now destruct (py_float c).
  - cbn [op_ok] in Hop.
    unfold bind at 1. unfold lift at 1. cbn [input fst snd].
    unfold bind at 1. unfold lift at 1. cbn [input fst snd].
    unfold bind at 1. unfold lift at 1. cbn [input fst snd].
    unfold bind at 1. unfold lift at 1. cbn [float_of_pyval].
    destruct (py_float c) as [x|]; [|exact HI].
    unfold bind at 1. unfold lift at 1. cbn [input fst snd].
    unfold bind at 1. unfold lift at 1. cbn [int_of_pyval].
    destruct (py_int d) as [n|]; [|exact HI].
    pose proof (add_product_inv (mkProduct (PyStr a) (PyStr b) x n) st HI Hop) as H.
    unfold bind in H |- *.
    destruct (Product_new (mkProduct (PyStr a) (PyStr b) x n) st) as [[r|e] st1];
      [|exact H].
    now destruct (Inventory_add_product r st1) as [[[]|e] st2].
Qed.

Lemma exec_inv (op : Op) (st : Shop) :
  Inv st -> op_ok op -> Inv (exec op st).
Proof.
  intros HI Hop. destruct op; cbn [exec].
  - now apply add_product_inv.
  - now apply add_product_input_inv.
  - now apply update_product_inv.
  - now apply record_sale_inv.
  - now apply process_sale_inv.
  - exact HI.
  - unfold SalesManager_view_sales_report, bind, get, lift. exact HI.
  - now apply save_inventory_inv.
  - rewrite save_sales_run. destruct HI. now split.
  - now apply load_inventory_inv.
  - now apply load_sales_inv.
  - unfold ShopSystem_init, bind.
    pose proof (inventory_init_inv st HI) as H1.
    destruct (Inventory_init st) as [[[]|e] st1]; cbn [snd] in H1; [|exact H1].
    now apply sales_init_inv.
Qed.

Lemma reachable_inv (st : Shop) : reachable st -> Inv st.
Proof.
  induction 1 as [|st op _ IH Hop].
  - split; [intro r; cbn; lia | reflexivity].
  - now apply exec_inv.
Qed.

(** C8: from a reachable state, where no product has a negative
    quantity, every operation (adding a product whose quantity is not
    negative, deducting any amount, recording a sale, processing a sale,
    the two views, saving, loading, starting again from the files) ends,
    normally or with an exception, in a state where no product has a
    negative quantity. *)
Theorem quantity_never_negative (st : Shop) (op : Op)
  (Hreach : reachable st)
  (Hq : quantities_nonneg st)
  (Hop : op_ok op) :
  quantities_nonneg (exec op st).
Proof.
  exact (proj1 (exec_inv op st (reachable_inv st Hreach) Hop)).
Qed.

(** ** Saving and reloading the catalog *)

Lemma pyval_eqb_eq (a b : pyval) : pyval_eqb a b = true <-> a = b.
Proof.
  destruct a as [|s], b as [|t]; cbn; split; try discriminate; auto.
  - intro H. apply String.eqb_eq in H. now subst.
  - intro H. injection H as <-. apply String.eqb_refl.
Qed.

Lemma dict_set_fresh {V : Type} (k : pyval) (v : V) (d : list (pyval * V)) :
  dict_get k d = None -> dict_set k v d = d ++ [(k, v)].
Proof.
  induction d as [|[k' v'] d IH]; [reflexivity|]. cbn.
  destruct (pyval_eqb k k'); [discriminate|]. intro H. now rewrite IH.
Qed.

Lemma dict_get_app_none {V : Type} (k k' : pyval) (v : V) (d : list (pyval * V)) :
  dict_get k d = None -> k <> k' -> dict_get k (d ++ [(k', v)]) = None.
Proof.
  intros Hd Hne. induction d as [|[k0 v0] d IH].
  - cbn. destruct (pyval_eqb k k') eqn:E; [|reflexivity].
    apply pyval_eqb_eq in E. contradiction.
  - cbn in *. destruct (pyval_eqb k k0); [discriminate | now apply IH].
Qed.

Lemma stored_product_fields (p : Product) :
  getitem (stored_product_row p) "product_id" =
    Ok (PyStr (universal_newlines false (csv_text (product_id p)))) /\
  getitem (stored_product_row p) "product_name" =
    Ok (PyStr (universal_newlines false (csv_text (name p)))) /\
  getitem (stored_product_row p) "price" =
    Ok (PyStr (universal_newlines false (float_repr (price p)))).
Proof. repeat split. Qed.

(** A stored product that is [product_ok] is loaded as it was saved. *)
Lemma load_stored_product (p : Product) (st0 : Shop) :
  product_ok p ->
  Inventory_load_row (stored_product_row p) st0 =
  (Ok tt,
   mkShop (store (heap st0) (next_ref st0) p) (S (next_ref st0))
          (dict_set (product_id p) (next_ref st0) (products st0))
          (sales st0) (inventory_csv st0) (sales_csv st0)).
Proof.
  intros (Hid & Hname & Hcr & Hfloat & Hq & _). rewrite inventory_load_row_run.
  destruct (stored_product_fields p) as (E1 & E2 & E3).
  rewrite E1, E2, E3, stored_quantity, int_text by exact Hq.
  rewrite (str_ok_text _ Hid), (str_ok_text _ Hname).
  rewrite (universal_newlines_no_cr _ Hcr). cbn [float_of_pyval].
  rewrite Hfloat. now destruct p.
Qed.

Lemma load_stored_products (ps : list Product) :
  forall st0,
    Forall product_ok ps ->
    NoDup (map product_id ps) ->
    Forall (fun p => dict_get (product_id p) (products st0) = None) ps ->
    Forall (fun kv => (snd kv < next_ref st0)%nat) (products st0) ->
    exists st',
      for_each Inventory_load_row (map stored_product_row ps) st0 = (Ok tt, st') /\
      catalog st' = catalog st0 ++ map (fun p => (product_id p, p)) ps.
Proof.
  induction ps as [|p ps IH]; intros st0 Hok Hnd Hfresh Hbound.
  - exists st0. split; [reflexivity|]. cbn. now rewrite app_nil_r.
  - inversion Hok as [|? ? Hp Hps]; subst.
    inversion Hnd as [|? ? Hnotin Hnd']; subst.
    inversion Hfresh as [|? ? Hnone Hfresh']; subst.
    set (st1 := mkShop (store (heap st0) (next_ref st0) p) (S (next_ref st0))
                       (dict_set (product_id p) (next_ref st0) (products st0))
                       (sales st0) (inventory_csv st0) (sales_csv st0)).
    assert (Hd : products st1 = products st0 ++ [(product_id p, next_ref st0)])
      by (cbn; now apply dict_set_fresh).
    assert (Hcat : catalog st1 = catalog st0 ++ [(product_id p, p)]).
    { unfold catalog. rewrite Hd, map_app. cbn [map fst snd heap st1].
      rewrite store_same. f_equal.
      apply map_ext_in. intros kv Hin. f_equal.
      rewrite Forall_forall in Hbound. specialize (Hbound kv Hin).
      unfold store. destruct (Nat.eqb (snd kv) (next_ref st0)) eqn:E; [|reflexivity].
      apply Nat.eqb_eq in E. unfold ref in *. lia. }
    destruct (IH st1 Hps Hnd') as (st' & Hrun & Hcat').
    + rewrite Forall_forall in Hfresh' |- *. intros p' Hin. rewrite Hd.
      apply dict_get_app_none; [now apply Hfresh'|].
      intro E. apply Hnotin. rewrite <- E. now apply in_map.
    + rewrite Hd. apply Forall_app. split.
      * rewrite Forall_forall in Hbound |- *. intros kv Hin.
        specialize (Hbound kv Hin). cbn. lia.
      * constructor; [cbn; lia | constructor].
    + exists st'. split.
      * cbn [map for_each]. unfold bind. now rewrite (load_stored_product p st0 Hp).
      * rewrite Hcat', Hcat. now rewrite <- app_assoc.
Qed.

(** The save of a catalog that is [catalog_ok] writes every product
    and ends normally, and the reader reads every row back. *)
Lemma catalog_ok_stocked (st : Shop) :
  catalog_ok st -> Forall product_ok (stocked st).
Proof.
  intros [_ Hall]. apply Forall_forall. intros p Hin. apply in_map_iff in Hin.
  destruct Hin as (kv & <- & Hin). rewrite Forall_forall in Hall.
  now apply Hall.
Qed.

Lemma save_catalog_ok (st : Shop) :
  catalog_ok st ->
  Inventory_save_to_file st =
  (Ok tt,
   set_inventory_csv
     (Some (writerow inventory_fieldnames
            ++ writes (map writerow (map inventory_fields (stocked st))))%string) st).
Proof.
  intro Hok. apply catalog_ok_stocked in Hok. rewrite save_inventory_run.
  assert (H : forallb prints (stocked st) = true).
  { apply forallb_forall. intros p Hin. rewrite Forall_forall in Hok.
    exact (proj1 (proj2 (proj2 (proj2 (proj2 (Hok p Hin)))))). }
  now rewrite H, take_while_all.
Qed.

Lemma read_catalog_ok (st : Shop) :
  catalog_ok st ->
  read_csv (writerow inventory_fieldnames
            ++ writes (map writerow (map inventory_fields (stocked st)))) =
  (map stored_product_row (stocked st), None).
Proof.
  intro Hok. apply catalog_ok_stocked in Hok. rewrite read_saved_inventory.
  assert (H : forallb (fun p => record_fits (inventory_fields p)) (stocked st) = true).
  { apply forallb_forall. intros p Hin. rewrite Forall_forall in Hok.
    exact (proj2 (proj2 (proj2 (proj2 (proj2 (Hok p Hin)))))). }
  now rewrite H, take_while_all.
Qed.

(** The catalog after a save and a reload by a new [Inventory], when no
    id or name has a carriage return and the file and its reader can
    hold every product: the load ends normally and gives the same ids
    in the same order, each with the same name, price and quantity. *)
Theorem catalog_reload (st : Shop) :
  catalog_ok st ->
  let st1 := snd (Inventory_save_to_file st) in
  fst (Inventory_init st1) = Ok tt /\
  catalog (snd (Inventory_init st1)) = catalog st.
Proof.
  intros Hok. cbv zeta. rewrite (save_catalog_ok st Hok). cbn [snd].
  unfold Inventory_init, Inventory_load_from_file, for_each_row, bind, modify, get.
  cbn [inventory_csv set_products set_inventory_csv].
  rewrite (read_catalog_ok st Hok). destruct Hok as [Hnd Hall].
  set (ps := stocked st).
  match goal with
  | |- context [for_each Inventory_load_row (map stored_product_row ps) ?s] =>
      destruct (load_stored_products ps s) as (st' & Hrun & Hcat)
  end.
  - apply catalog_ok_stocked. now split.
  - replace (map product_id ps) with (map fst (products st)); [exact Hnd|].
    unfold ps, stocked. rewrite map_map. apply map_ext_in. intros kv Hin.
    rewrite Forall_forall in Hall. symmetry. now apply Hall.
  - apply Forall_forall. reflexivity.
  - constructor.
  - rewrite Hrun. cbn [fst snd ret]. split; [reflexivity|].
    rewrite Hcat. unfold catalog at 1. cbn [products set_products map app].
    unfold catalog, ps, stocked. rewrite map_map. apply map_ext_in. intros kv Hin.
    rewrite Forall_forall in Hall. now rewrite (proj1 (Hall kv Hin)).
Qed.

(** ** The carriage return that does not come back *)

Lemma cr_product_fits : record_fits (inventory_fields cr_product) = true.
Proof.
  unfold record_fits, inventory_fields. cbn [map forallb].
  now rewrite fits_float_repr.
Qed.

Lemma read_cr_catalog :
  read_csv (writerow inventory_fieldnames
            ++ writes (map writerow (map inventory_fields [cr_product]))) =
  ([stored_product_row cr_product], None).
Proof.
  rewrite read_saved_inventory. cbn [take_while forallb map].
  now rewrite cr_product_fits.
Qed.

(** C4: the catalog whose product P1 is named ["Wid\rget"] does not
    come back from a save and a reload: the row that is read back has
    the name ["Wid\nget"], so the reloaded catalog differs from the
    saved one whatever the price text is.  The file is written with
    the empty [newline] argument and read without it. *)
Theorem catalog_reload_loses_carriage_return :
  let st1 := snd (Inventory_save_to_file cr_shop) in
  catalog cr_shop = [(PyStr "P1", cr_product)] /\
  (exists text,
      inventory_csv st1 = Some text /\
      read_csv text = ([stored_product_row cr_product], None)) /\
  getitem (stored_product_row cr_product) "product_name" = Ok (PyStr lf_name) /\
  catalog (snd (Inventory_init st1)) <> catalog cr_shop.
Proof.
  cbv zeta. rewrite save_inventory_run.
  change (stocked cr_shop) with [cr_product].
  change (forallb prints [cr_product]) with true.
  change (take_while prints [cr_product]) with [cr_product]. cbn [snd].
  split; [reflexivity|]. split; [|split; [reflexivity|]].
  - eexists. split; [reflexivity|]. exact read_cr_catalog.
  - unfold Inventory_init, Inventory_load_from_file, for_each_row, bind, modify, get.
    cbn [inventory_csv set_products set_inventory_csv].
    rewrite read_cr_catalog. cbn [map for_each]. unfold bind at 1.
    rewrite inventory_load_row_run.
    destruct (stored_product_fields cr_product) as (E1 & E2 & E3).
    rewrite E1, E2, E3, stored_quantity, int_text by reflexivity.
    destruct (float_of_pyval
                (PyStr (universal_newlines false (float_repr (price cr_product)))))
      as [x|e]; cbn; discriminate.
Qed.

(** C5: the ledger whose one sale has the id ["S\r1"] does not come
    back with the same report from a save and a reload over the same
    catalog: the report row has the sale id ["S\r1"] before and
    ["S\n1"] after.  The file is written with the empty [newline]
    argument and read without it. *)
Theorem ledger_reload_loses_carriage_return :
  let st := cr_sale_shop in
  let st2 := snd (SalesManager_init (snd (SalesManager_save_to_file st))) in
  fst (SalesManager_view_sales_report st) =
    Ok [mkSaleRow (PyStr cr_sale_id) (PyStr "P1") (PyStr "Widget") 4 10%float] /\
  fst (SalesManager_view_sales_report st2) =
    Ok [mkSaleRow (PyStr lf_sale_id) (PyStr "P1") (PyStr "Widget") 4 10%float].
Proof.
  cbv zeta. split; [reflexivity|].
  rewrite save_sales_run.
  rewrite (sales_text_ok _ _
             [mkSaleRow (PyStr cr_sale_id) (PyStr "P1") (PyStr "Widget") 4 10%float])
    by reflexivity.
  cbn [fst]. erewrite init_sales_run by reflexivity.
  rewrite read_saved_sales.
  assert (Hfit : record_fits
                   (sales_record
                      (mkSaleRow (PyStr cr_sale_id) (PyStr "P1") (PyStr "Widget") 4
                         10%float)) = true).
  { unfold record_fits, sales_record. cbn [map forallb].
    now rewrite fits_float_repr. }
  cbn [take_while forallb map]. rewrite Hfit. cbn [map for_each]. unfold bind at 1.
  rewrite load_row_run. reflexivity.
Qed.

(** ** Two boundaries *)

(** A sale whose first line item can be deducted and whose second
    cannot: the first deduction stays, the sale is in the ledger. *)
Example record_sale_keeps_first_deduction :
  let sale := mkSale (PyStr "S3") [(0%nat, 4); (0%nat, 999)] in
  let st' := snd (SalesManager_record_sale sale (widget_shop 10 [])) in
  quantity (heap st' 0%nat) = 6 /\ sales st' = [sale].
Proof.
  cbv zeta. rewrite record_sale_run, save_sales_run. split; reflexivity.
Qed.

(** The invariant of the quantities counts on the stored catalog being
    written by the program: a stored row with the quantity ["-3"], put
    in the file by hand, is loaded as it is. *)
Example load_takes_a_stored_negative_quantity :
  py_float "2.5" = Some 2.5%float ->
  let st := set_inventory_csv
              (Some (writerow inventory_fieldnames
                     ++ writerow ["P1"; "Widget"; "2.5"; "-3"])%string) empty_shop in
  catalog (snd (Inventory_init st)) =
    [(PyStr "P1", mkProduct (PyStr "P1") (PyStr "Widget") 2.5%float (-3))].
Proof.
  intro Hfloat. cbv zeta.
  unfold Inventory_init, Inventory_load_from_file, for_each_row, bind, modify, get.
  cbn [inventory_csv set_products set_inventory_csv empty_shop].
  change (writerow inventory_fieldnames ++ writerow ["P1"; "Widget"; "2.5"; "-3"])%string
    with (writerow inventory_fieldnames
          ++ writes (map writerow [["P1"; "Widget"; "2.5"; "-3"]]))%string.
  rewrite read_csv_written.
  change (fitting _) with [inventory_fieldnames; ["P1"; "Widget"; "2.5"; "-3"]].
  change (snd (read_back _)) with (@None exn).
  cbn [map DictReader filter negb is_nil for_each].
  unfold bind at 1. rewrite inventory_load_row_run.
  change (getitem _ "price") with (@Ok pyval (PyStr "2.5")).
  cbn [float_of_pyval]. rewrite Hfloat. reflexivity.
Qed.

(** ** Input that cannot be taken *)

Lemma add_product_run (p : Product) (st : Shop) :
  (r <- Product_new p ;; Inventory_add_product r) st =
  Inventory_save_to_file (added p st).
Proof.
  unfold Product_new, Inventory_add_product, bind, get, modify, ret, added.
  cbn [heap products next_ref set_products]. now rewrite store_same.
Qed.

Lemma add_product_input_run (a b c d : string) (rest : list string) (x : float) (n : Z)
  (st : Shop) :
  py_float c = Some x -> py_int d = Some n ->
  ShopSystem_add_product (a :: b :: c :: d :: rest) st =
  (match fst (Inventory_save_to_file (added (mkProduct (PyStr a) (PyStr b) x n) st)) with
   | Ok _ => Ok rest
   | Raise e => Raise e
   end,
   snd (Inventory_save_to_file (added (mkProduct (PyStr a) (PyStr b) x n) st))).
Proof.
  intros Hx Hn. unfold ShopSystem_add_product.
  unfold bind at 1. unfold lift at 1. cbn [input fst snd].
  unfold bind at 1. unfold lift at 1. cbn [input fst snd].
  unfold bind at 1. unfold lift at 1. cbn [input fst snd].
  unfold bind at 1. unfold lift at 1. cbn [float_of_pyval]. rewrite Hx.
  unfold bind at 1. unfold lift at 1. cbn [input fst snd].
  unfold bind at 1. unfold lift at 1. cbn [int_of_pyval]. rewrite Hn.
  pose proof (add_product_run (mkProduct (PyStr a) (PyStr b) x n) st) as H.
  unfold bind in H |- *.
  destruct (Product_new (mkProduct (PyStr a) (PyStr b) x n) st) as [[r|e] st1].
  - rewrite H. now destruct (Inventory_save_to_file _) as [[[]|e] st2].
  - now rewrite <- H.
Qed.

(** The two ways [ShopSystem.add_product] ends. *)
Lemma add_product_cases (inp : list string) (st : Shop) :
  (exists a b c d rest x n res,
      inp = a :: b :: c :: d :: rest /\
      py_float c = Some x /\ py_int d = Some n /\
      ShopSystem_add_product inp st =
        (res, exec (OpAddProduct (mkProduct (PyStr a) (PyStr b) x n)) st) /\
      (res = Ok rest \/ res = Raise ValueError)) \/
  (exists e,
      ShopSystem_add_product inp st = (Raise e, st) /\
      (e = EOFError \/ e = ValueError)).
Proof.
  destruct inp as [|a [|b [|c inp3]]];
    try (right; exists EOFError; split; [reflexivity | now left]).
  destruct (py_float c) as [x|] eqn:Hx.
  2:{ right. exists ValueError. split; [|now right].
      unfold ShopSystem_add_product, bind, lift. cbn [input fst snd float_of_pyval].
      now rewrite Hx. }
  destruct inp3 as [|d rest].
  { right. exists EOFError. split; [|now left].
    unfold ShopSystem_add_product, bind, lift. cbn [input fst snd float_of_pyval].
    now rewrite Hx. }
  destruct (py_int d) as [n|] eqn:Hn.
  - left. exists a, b, c, d, rest, x, n. eexists.
    split; [reflexivity|]. split; [exact Hx|]. split; [exact Hn|].
    rewrite (add_product_input_run a b c d rest x n st Hx Hn).
    cbn [exec]. rewrite add_product_run. split; [reflexivity|].
    rewrite save_inventory_run. cbn [fst].
    destruct (forallb prints _); [now left | now right].
  - right. exists ValueError. split; [|now right].
    unfold ShopSystem_add_product, bind, lift.
    cbn [input fst snd float_of_pyval int_of_pyval].
    now rewrite Hx, Hn.
Qed.


Lemma same_but_quantities_refl (st : Shop) : same_but_quantities st st.
Proof. repeat split. Qed.

Lemma same_but_quantities_trans (st1 st2 st3 : Shop) :
  same_but_quantities st1 st2 -> same_but_quantities st2 st3 ->
  same_but_quantities st1 st3.
Proof.
  intros (A1 & A2 & A3 & A4 & A5 & A6) (B1 & B2 & B3 & B4 & B5 & B6).
  repeat split; try congruence.
  - rewrite (proj1 (B6 r)). apply A6.
  - rewrite (proj1 (proj2 (B6 r))). apply A6.
  - rewrite (proj2 (proj2 (B6 r))). apply A6.
Qed.

Lemma update_product_frame (pid : pyval) (n : Z) (st : Shop) :
  same_but_quantities st (snd (Inventory_update_product pid n st)).
Proof.
  rewrite update_product_run.
  destruct (dict_get pid (products st)) as [r|]; [|apply same_but_quantities_refl].
  destruct (n >? quantity (heap st r)); [apply same_but_quantities_refl|].
  repeat split; cbn; unfold store; destruct (Nat.eqb r0 r) eqn:E;
    try reflexivity; apply Nat.eqb_eq in E; now subst.
Qed.

Lemma list_ind_two (P : list string -> Prop) :
  P [] ->
  (forall a inp, P inp -> P (tl inp) -> P (a :: inp)) ->
  forall inp, P inp.
Proof.
  intros H0 Hstep inp.
  assert (H : P inp /\ P (tl inp)); [|exact (proj1 H)].
  induction inp as [|b inp [IH1 IH2]]; [now split|].
  split; [now apply Hstep | exact IH1].
Qed.

(** One turn of the loop of [process_sale]. *)
Lemma process_sale_loop_step (a : string) (inp1 : list string) (sale : Sale) (st : Shop) :
  process_sale_loop (a :: inp1) sale st =
  if String.eqb (lower a) "done" then (Ok (sale, inp1), st)
  else
    match dict_get (PyStr a) (products st) with
    | None => process_sale_loop inp1 sale st
    | Some r =>
        match inp1 with
        | [] => (Raise EOFError, st)
        | qs :: inp2 =>
            match py_int qs with
            | None => (Raise ValueError, st)
            | Some qty =>
                if qty >? quantity (heap st r) then process_sale_loop inp2 sale st
                else process_sale_loop inp2 (Sale_add_product sale r qty)
                       (set_heap (store (heap st) r
                                    (with_quantity (heap st r) (quantity (heap st r) - qty)))
                                 st)
            end
        end
    end.
Proof.
  destruct (String.eqb (lower a) "done") eqn:Hdone; [now apply loop_done|].
  destruct (dict_get (PyStr a) (products st)) as [r|] eqn:Hd;
    [|now apply loop_unknown].
  destruct inp1 as [|qs inp2].
  { cbn [process_sale_loop]. rewrite Hdone. unfold bind, get. now rewrite Hd. }
  destruct (py_int qs) as [qty|] eqn:Hq.
  - destruct (qty >? quantity (heap st r)) eqn:Hgt.
    + apply (loop_short a qs inp2 sale st r qty Hdone Hd Hq).
      rewrite Z.gtb_ltb in Hgt. apply Z.ltb_lt in Hgt. lia.
    + apply (loop_sold a qs inp2 sale st r qty Hdone Hd Hq).
      rewrite Z.gtb_ltb in Hgt. apply Z.ltb_ge in Hgt. lia.
  - cbn [process_sale_loop]. rewrite Hdone. unfold bind, get, lift, int_of_pyval.
    now rewrite Hd, Hq.
Qed.

Lemma deduction_frame (st : Shop) (r : ref) (q : Z) :
  same_but_quantities st
    (set_heap (store (heap st) r (with_quantity (heap st r) q)) st).
Proof.
  repeat split; cbn; unfold store; destruct (Nat.eqb r0 r) eqn:E;
    try reflexivity; apply Nat.eqb_eq in E; now subst.
Qed.

(** The loop of [process_sale] changes quantities only, and what it
    raises is [EOFError] or [ValueError]. *)
Lemma process_sale_loop_frame (inp : list string) :
  forall sale st,
    same_but_quantities st (snd (process_sale_loop inp sale st)) /\
    fst (process_sale_loop inp sale st) <> Raise OverflowError.
Proof.
  induction inp as [|a inp1 H1 H2] using list_ind_two; intros sale st.
  - split; [apply same_but_quantities_refl | discriminate].
  - rewrite process_sale_loop_step.
    destruct (String.eqb (lower a) "done");
      [split; [apply same_but_quantities_refl | discriminate]|].
    destruct (dict_get (PyStr a) (products st)) as [r|]; [|apply H1].
    destruct inp1 as [|qs inp2];
      [split; [apply same_but_quantities_refl | discriminate]|].
    cbn [tl] in H2.
    destruct (py_int qs) as [qty|];
      [|split; [apply same_but_quantities_refl | discriminate]].
    destruct (qty >? quantity (heap st r)); [apply H2|].
    match goal with
    | |- context [process_sale_loop inp2 ?sl ?s1] =>
        destruct (H2 sl s1) as [G1 G2]
    end.
    split; [|exact G2].
    exact (same_but_quantities_trans _ _ _ (deduction_frame st r _) G1).
Qed.

Lemma process_sale_loop_sale_id (inp : list string) :
  forall sale st res st',
    process_sale_loop inp sale st = (Ok res, st') ->
    sale_id (fst res) = sale_id sale.
Proof.
  induction inp as [|a inp1 H1 H2] using list_ind_two; intros sale st res st'.
  - discriminate.
  - rewrite process_sale_loop_step.
    destruct (String.eqb (lower a) "done");
      [intro H; injection H as <- _; reflexivity|].
    destruct (dict_get (PyStr a) (products st)) as [r|]; [|apply H1].
    destruct inp1 as [|qs inp2]; [discriminate|]. cbn [tl] in H2.
    destruct (py_int qs) as [qty|]; [|discriminate].
    destruct (qty >? quantity (heap st r)); [apply H2|].
    intro H. now rewrite (H2 _ _ _ _ H).
Qed.

Lemma record_sale_appends_sale (st : Shop) (sale : Sale) :
  sales (snd (SalesManager_record_sale sale st)) = sales st ++ [sale].
Proof. now rewrite record_sale_run, save_sales_run. Qed.

Lemma Sale_entries_raise (h : ref -> Product) (sid : pyval) (items : list (ref * Z))
  (e : exn) :
  Sale_entries h sid items = Raise e -> e = OverflowError.
Proof.
  induction items as [|[p q] items IH]; cbn [Sale_entries]; [discriminate|].
  unfold float_mul_int, float_of_int.
  destruct (is_infinity _); [intro H; now injection H as <- |].
  destruct (Sale_entries h sid items); [discriminate|].
  intro H. injection H as <-. now apply IH.
Qed.

Lemma sales_text_raise (h : ref -> Product) (l : list Sale) (e : exn) :
  snd (sales_text h l) = Some e -> e = OverflowError.
Proof.
  induction l as [|sale l IH]; cbn [sales_text]; [discriminate|].
  destruct (Sale_to_dict h sale) as [entries|e0] eqn:E.
  - destruct (sales_text h l) as [text err]. exact IH.
  - cbn. intro H. injection H as <-. exact (Sale_entries_raise _ _ _ _ E).
Qed.

Lemma save_sales_raise (st st' : Shop) (e : exn) :
  SalesManager_save_to_file st = (Raise e, st') -> e = OverflowError.
Proof.
  unfold SalesManager_save_to_file, bind, get, modify, raise, ret.
  pose proof (sales_text_raise (heap st) (sales st)) as H.
  destruct (sales_text (heap st) (sales st)) as [text [e'|]]; cbn.
  - intro E. injection E as <- _. now apply H.
  - discriminate.
Qed.

(** The ways [ShopSystem.process_sale] ends. *)
Lemma process_sale_cases (inp : list string) (st : Shop) :
  match ShopSystem_process_sale inp st with
  | (Ok rest, st') =>
      exists sid items,
        hd_error inp = Some sid /\ sales st' = sales st ++ [mkSale (PyStr sid) items]
  | (Raise e, st') =>
      (e = OverflowError /\ exists sale, sales st' = sales st ++ [sale]) \/
      (e <> OverflowError /\ same_but_quantities st st')
  end.
Proof.
  destruct inp as [|sid inp].
  { right. split; [discriminate | apply same_but_quantities_refl]. }
  rewrite process_sale_run.
  destruct (process_sale_loop_frame inp (Sale_new (PyStr sid)) st) as [Hf Hne].
  pose proof (process_sale_loop_sale_id inp (Sale_new (PyStr sid)) st) as Hid.
  destruct (process_sale_loop inp (Sale_new (PyStr sid)) st) as [[res|e] st1];
    cbn [fst snd] in Hf, Hne.
  - specialize (Hid res st1 eq_refl). cbn in Hid.
    pose proof (record_sale_appends_sale st1 (fst res)) as Hsales.
    rewrite (proj1 (proj2 Hf)) in Hsales.
    pose proof (record_sale_run st1 (fst res)) as Hrun.
    destruct (SalesManager_record_sale (fst res) st1) as [[[]|e] st2]; cbn [snd] in Hsales.
    + exists sid, (products_sold (fst res)). split; [reflexivity|].
      rewrite Hsales. destruct (fst res) as [i l]. cbn in Hid. now subst i.
    + left. split; [|now exists (fst res)].
      symmetry in Hrun. exact (save_sales_raise _ _ _ Hrun).
  - right. split; [intro E; apply Hne; now rewrite E | exact Hf].
Qed.

(** X2: what [process_sale] leaves when it does not end normally.  When
    it returns, one sale with the id that was typed is appended to the
    ledger.  When it raises before the sale is recorded (the input ends,
    or a quantity is not an integer), the ledger, the catalog and both
    files are what they were and only quantities may differ: the items
    taken so far stay deducted without a sale.  [OverflowError] comes
    from the save only, after the sale is appended. *)
Theorem process_sale_outcomes (inp : list string) (st : Shop) :
  match ShopSystem_process_sale inp st with
  | (Ok rest, st') =>
      exists sid items,
        hd_error inp = Some sid /\ sales st' = sales st ++ [mkSale (PyStr sid) items]
  | (Raise e, st') =>
      (e = OverflowError /\ exists sale, sales st' = sales st ++ [sale]) \/
      (e <> OverflowError /\ same_but_quantities st st')
  end.
Proof. exact (process_sale_cases inp st). Qed.

(** X3: the stock after a sale of one item.  For a product that is in
    the catalog under its id with [s] in stock and a typed quantity [q]:
    when [q > s] nothing is deducted and the sale is recorded empty;
    otherwise [process_sale] deducts [q] and [record_sale] deducts [q]
    once more if what is left allows it, so the stock ends at [s - 2q]
    or, when [q > s - q], at [s - q]. *)
Theorem single_item_sale_stock (st : Shop) (sid pid qs : string) (q : Z) (r : ref)
  (Hdone : String.eqb (lower pid) "done" = false)
  (Hin : dict_get (PyStr pid) (products st) = Some r)
  (Hid : product_id (heap st r) = PyStr pid)
  (Hq : py_int qs = Some q) :
  let s := quantity (heap st r) in
  let st' := snd (ShopSystem_process_sale [sid; pid; qs; "done"] st) in
  quantity (heap st' r) =
    (if q >? s then s else if q >? s - q then s - q else s - 2 * q) /\
  sales st' = sales st ++ [mkSale (PyStr sid) (if q >? s then [] else [(r, q)])].
Proof.
  cbv zeta. rewrite process_sale_run, process_sale_loop_step, Hdone, Hin, Hq.
  destruct (q >? quantity (heap st r)) eqn:Hgt.
  - rewrite loop_done by reflexivity. cbn [fst snd].
    rewrite snd_match_result, record_sale_run, save_sales_run. now split.
  - rewrite loop_done by reflexivity. cbn [fst snd].
    rewrite snd_match_result, record_sale_run, save_sales_run.
    cbn [snd heap sales products set_sales_csv set_sales set_heap
         Sale_add_product Sale_new products_sold sale_id app best_effort].
    rewrite !store_same. cbn [with_quantity product_id quantity].
    rewrite Hid, Hin, store_same. cbn [quantity].
    rewrite Z.gtb_ltb, Z.leb_antisym.
    split; [|reflexivity].
    cbn [with_quantity quantity].
    destruct (quantity (heap st r) - q <? q); cbn [negb];
      rewrite store_same; cbn [with_quantity quantity]; lia.
Qed.

(** ** Which methods write which file *)

Lemma load_inventory_rows_frame (rows : list DictRow) :
  forall st,
    sales (snd (for_each Inventory_load_row rows st)) = sales st /\
    inventory_csv (snd (for_each Inventory_load_row rows st)) = inventory_csv st /\
    sales_csv (snd (for_each Inventory_load_row rows st)) = sales_csv st.
Proof.
  induction rows as [|row rows IH]; intro st; [now repeat split|].
  cbn [for_each]. unfold bind. rewrite inventory_load_row_run.
  destruct (getitem row "product_id") as [pid|]; [|now repeat split].
  destruct (getitem row "product_name") as [nm|]; [|now repeat split].
  destruct (getitem row "price") as [pr|]; [|now repeat split].
  destruct (float_of_pyval pr) as [x|]; [|now repeat split].
  destruct (getitem row "quantity") as [qt|]; [|now repeat split].
  destruct (int_of_pyval qt) as [n|]; [|now repeat split].
  match goal with
  | |- context [for_each Inventory_load_row rows ?s] => destruct (IH s) as (H1 & H2 & H3)
  end.
  now rewrite H1, H2, H3.
Qed.

Lemma for_each_row_state (body : DictRow -> M unit) (text : string) (st : Shop) :
  snd (for_each_row body text st) = snd (for_each body (fst (read_csv text)) st).
Proof.
  unfold for_each_row. destruct (read_csv text) as [rows err]. cbn [fst].
  unfold bind. destruct (for_each body rows st) as [[[]|e] st1]; [|reflexivity].
  now destruct err.
Qed.

Lemma load_inventory_frame (st : Shop) :
  sales (snd (Inventory_load_from_file st)) = sales st /\
  inventory_csv (snd (Inventory_load_from_file st)) = inventory_csv st /\
  sales_csv (snd (Inventory_load_from_file st)) = sales_csv st.
Proof.
  unfold Inventory_load_from_file, bind, get.
  destruct (inventory_csv st) as [text|] eqn:E; [|cbn; now rewrite E].
  rewrite for_each_row_state.
  destruct (load_inventory_rows_frame (fst (read_csv text)) st) as (H1 & H2 & H3).
  now rewrite H1, H2, H3, E.
Qed.

Lemma load_sales_state (st : Shop) :
  exists l, snd (SalesManager_load_from_file st) = set_sales l st.
Proof.
  unfold SalesManager_load_from_file, bind, get.
  destruct (sales_csv st) as [text|].
  - rewrite for_each_row_state. apply load_sales_rows_state.
  - exists (sales st). cbn. now rewrite set_sales_id.
Qed.

Lemma process_sale_frame (inp : list string) (st : Shop) :
  let st' := snd (ShopSystem_process_sale inp st) in
  products st' = products st /\ inventory_csv st' = inventory_csv st /\
  next_ref st' = next_ref st.
Proof.
  cbv zeta. destruct inp as [|sid inp]; [now repeat split|].
  rewrite process_sale_run.
  destruct (process_sale_loop_frame inp (Sale_new (PyStr sid)) st)
    as [(H1 & _ & H3 & _ & H5 & _) _].
  destruct (process_sale_loop inp (Sale_new (PyStr sid)) st) as [[res|e] st1];
    cbn [snd] in *; [|now repeat split].
  rewrite snd_match_result, record_sale_run, save_sales_run. cbn. now repeat split.
Qed.

(** X4: the catalog file is written by the methods that add a product
    or save the catalog and by no other, and the ledger file by the
    methods that record a sale or save the ledger and by no other; in
    particular a deduction or a sale never rewrites the stored catalog,
    whether the operation ends normally or raises. *)
Theorem files_written_by_their_methods_only (op : Op) (st : Shop) :
  (writes_catalog_file op = false -> inventory_csv (exec op st) = inventory_csv st) /\
  (writes_ledger_file op = false -> sales_csv (exec op st) = sales_csv st).
Proof.
  split; intro H; destruct op; try discriminate; cbn [exec].
  - now rewrite update_product_run;
      destruct (dict_get pid (products st)) as [r|];
      [destruct (n >? quantity (heap st r))|].
  - now rewrite record_sale_run, save_sales_run.
  - apply process_sale_frame.
  - reflexivity.
  - unfold SalesManager_view_sales_report, bind, get, lift. reflexivity.
  - now rewrite save_sales_run.
  - apply load_inventory_frame.
  - destruct (load_sales_state st) as [l ->]. reflexivity.
  - unfold ShopSystem_init, Inventory_init, SalesManager_init, bind, modify.
    destruct (load_inventory_frame (set_products [] st)) as (_ & H2 & _).
    destruct (Inventory_load_from_file (set_products [] st)) as [[[]|e] st1];
      cbn [snd] in *; [|exact H2].
    destruct (load_sales_state (set_sales [] st1)) as [l ->]. exact H2.
  - unfold Product_new, Inventory_add_product, bind, get, modify, ret.
    now rewrite save_inventory_run.
  - destruct (add_product_cases inp st)
      as [(a & b & c & d & rest & x & n & res & _ & _ & _ & -> & _) | (e & -> & _)];
      [|reflexivity].
    cbn [snd exec]. unfold Product_new, Inventory_add_product, bind, get, modify, ret.
    now rewrite save_inventory_run.
  - now rewrite update_product_run;
      destruct (dict_get pid (products st)) as [r|];
      [destruct (n >? quantity (heap st r))|].
  - reflexivity.
  - unfold SalesManager_view_sales_report, bind, get, lift. reflexivity.
  - now rewrite save_inventory_run.
  - apply load_inventory_frame.
  - unfold SalesManager_load_from_file, bind, get.
    destruct (sales_csv st) as [text|] eqn:E; [|cbn; now rewrite E].
    rewrite for_each_row_state.
    destruct (load_sales_rows_state (fst (read_csv text)) st) as [l ->]. exact E.
  - unfold ShopSystem_init, Inventory_init, SalesManager_init, bind, modify.
    destruct (load_inventory_frame (set_products [] st)) as (_ & _ & H3).
    destruct (Inventory_load_from_file (set_products [] st)) as [[[]|e] st1];
      cbn [snd] in *; [|exact H3].
    destruct (load_sales_state (set_sales [] st1)) as [l ->]. exact H3.
Qed.

(** Loading the catalog file that a save of [st] wrote, from any state
    that holds this file. *)
Lemma init_from_saved_catalog (st st0 : Shop) :
  catalog_ok st ->
  inventory_csv st0 = inventory_csv (snd (Inventory_save_to_file st)) ->
  fst (Inventory_init st0) = Ok tt /\
  catalog (snd (Inventory_init st0)) = catalog st.
Proof.
  intros Hok Hfile. rewrite (save_catalog_ok st Hok) in Hfile.
  cbn [snd inventory_csv set_inventory_csv] in Hfile.
  unfold Inventory_init, Inventory_load_from_file, for_each_row, bind, modify, get.
  cbn [inventory_csv set_products]. rewrite Hfile.
  rewrite (read_catalog_ok st Hok). destruct Hok as [Hnd Hall].
  set (ps := stocked st).
  destruct (load_stored_products ps (set_products [] st0)) as (st' & Hrun & Hcat).
  - apply catalog_ok_stocked. now split.
  - replace (map product_id ps) with (map fst (products st)); [exact Hnd|].
    unfold ps, stocked. rewrite map_map. apply map_ext_in. intros kv Hin.
    rewrite Forall_forall in Hall. symmetry. now apply Hall.
  - apply Forall_forall. reflexivity.
  - constructor.
  - rewrite Hrun. cbn [fst snd ret]. split; [reflexivity|].
    rewrite Hcat. unfold catalog at 1. cbn [products set_products map app].
    unfold catalog, ps, stocked. rewrite map_map. apply map_ext_in. intros kv Hin.
    rewrite Forall_forall in Hall. now rewrite (proj1 (Hall kv Hin)).
Qed.

(** X5: what is sold is not saved.  After the catalog is saved, whatever
    [process_sale] then deducts, the stored catalog stays the saved one,
    and a new [Inventory] has every product with the quantity it had at
    the save.  This is for a catalog that comes back from its file: ids
    and names without carriage return, no field over the limit of the
    reader, no quantity over the digit limit of [str]. *)
Theorem sale_not_saved_in_catalog (st : Shop) (inp : list string)
  (Hok : catalog_ok st) :
  let st1 := snd (Inventory_save_to_file st) in
  let st2 := snd (ShopSystem_process_sale inp st1) in
  inventory_csv st2 = inventory_csv st1 /\
  fst (Inventory_init st2) = Ok tt /\
  catalog (snd (Inventory_init st2)) = catalog st.
Proof.
  cbv zeta.
  destruct (process_sale_frame inp (snd (Inventory_save_to_file st))) as (_ & Hfile & _).
  split; [exact Hfile|].
  exact (init_from_saved_catalog st _ Hok Hfile).
Qed.

(** ** Reloading the ledger over another catalog *)

Lemma load_stored_entry_rejoin (st st0 : Shop) (sid : pyval) (p : ref) (q : Z)
  (total : float) :
  str_ok sid = true ->
  str_ok (product_id (heap st p)) = true ->
  int_prints q = true ->
  SalesManager_load_row
    (stored_sale_row (mkSaleRow sid (product_id (heap st p)) (name (heap st p)) q total))
    st0 =
  (Ok tt,
   set_sales (sales st0 ++
              [mkSale sid match dict_get (product_id (heap st p)) (products st0) with
                          | Some r => [(r, q)]
                          | None => []
                          end]) st0).
Proof.
  intros Hsid Hpid Hq. rewrite load_row_run.
  unfold stored_sale_row, sales_record.
  cbn [map sr_sale_id sr_product_id sr_product_name sr_quantity_sold sr_total_price].
  unfold make_row, sales_fieldnames, getitem.
  cbn [zip_row List.length skipn map app row_find String.eqb Ascii.eqb Bool.eqb].
  rewrite (str_ok_text _ Hsid), (str_ok_text _ Hpid).
  destruct (dict_get (product_id (heap st p)) (products st0)) as [r|]; [|reflexivity].
  now rewrite int_text by exact Hq.
Qed.

Lemma load_stored_entries_rejoin (st : Shop) (sid : pyval) (items : list (ref * Z)) :
  forall (entries : list SaleRow) (st0 : Shop),
    Sale_entries (heap st) sid items = Ok entries ->
    str_ok sid = true ->
    forallb (fun item : ref * Z => str_ok (product_id (heap st (fst item)))) items = true ->
    forallb entry_fits entries = true ->
    for_each SalesManager_load_row (map stored_sale_row entries) st0 =
    (Ok tt, set_sales (sales st0 ++ rejoin (products st0) (heap st) [mkSale sid items]) st0).
Proof.
  induction items as [|[p q] items IH]; intros entries st0 He Hsid Hitems Hfit.
  - cbn in He. injection He as <-. cbn. now rewrite app_nil_r, set_sales_id.
  - cbn [Sale_entries] in He.
    destruct (float_mul_int (price (heap st p)) q) as [total|]; [|discriminate].
    destruct (Sale_entries (heap st) sid items) as [rest|] eqn:Hrest; [|discriminate].
    injection He as <-. cbn [forallb fst] in Hitems. apply andb_true_iff in Hitems.
    destruct Hitems as [Hitem Hitems].
    cbn [forallb] in Hfit. apply andb_true_iff in Hfit. destruct Hfit as [Hq Hfit].
    apply andb_true_iff in Hq. destruct Hq as [_ Hq]. cbn [sr_quantity_sold] in Hq.
    cbn [map for_each]. unfold bind.
    rewrite (load_stored_entry_rejoin st st0 sid p q total Hsid Hitem Hq).
    rewrite (IH rest _ eq_refl Hsid Hitems Hfit).
    cbn [sales set_sales products rejoin flat_map map sale_id products_sold fst snd].
    rewrite set_sales_twice, !app_nil_r. now rewrite <- app_assoc.
Qed.

Lemma rejoin_cons (d : list (pyval * ref)) (h : ref -> Product) (sale : Sale)
  (l : list Sale) :
  rejoin d h (sale :: l) = rejoin d h [sale] ++ rejoin d h l.
Proof. cbn. now rewrite app_nil_r. Qed.

Lemma load_stored_sales_rejoin (st : Shop) (l : list Sale) :
  forall (rows : list SaleRow) (st0 : Shop),
    report_rows (heap st) l = Ok rows ->
    forallb (fun sale =>
               (str_ok (sale_id sale)
                && forallb (fun item : ref * Z => str_ok (product_id (heap st (fst item))))
                           (products_sold sale))%bool) l = true ->
    forallb entry_fits rows = true ->
    for_each SalesManager_load_row (map stored_sale_row rows) st0 =
    (Ok tt, set_sales (sales st0 ++ rejoin (products st0) (heap st) l) st0).
Proof.
  induction l as [|sale l IH]; intros rows st0 Hr Hok Hfit.
  - cbn in Hr. injection Hr as <-. cbn. now rewrite app_nil_r, set_sales_id.
  - cbn [report_rows] in Hr.
    destruct (Sale_to_dict (heap st) sale) as [entries|] eqn:He; [|discriminate].
    destruct (report_rows (heap st) l) as [rows'|] eqn:Hr'; [|discriminate].
    injection Hr as <-. cbn [forallb] in Hok.
    apply andb_true_iff in Hok. destruct Hok as [Hsale Hok].
    apply andb_true_iff in Hsale. destruct Hsale as [Hsid Hitems].
    rewrite forallb_app in Hfit. apply andb_true_iff in Hfit.
    destruct Hfit as [Hfit1 Hfit2].
    rewrite map_app, for_each_app.
    destruct sale as [sid items]. cbn [sale_id products_sold] in *.
    rewrite (load_stored_entries_rejoin st sid items entries st0 He Hsid Hitems Hfit1).
    rewrite (IH rows' _ eq_refl Hok Hfit2).
    cbn [sales set_sales products]. rewrite set_sales_twice.
    rewrite (rejoin_cons _ _ (mkSale sid items) l). now rewrite <- app_assoc.
Qed.

(** Loading the saved ledger of [st] over the catalog of [st0]. *)
Lemma init_sales_rejoin (st st0 : Shop) (rows : list SaleRow)
  (Hids : ledger_ids_ok st = true)
  (Hrows : report_rows (heap st) (sales st) = Ok rows)
  (Hfit : forallb entry_fits rows = true)
  (Hfile : sales_csv st0 = sales_csv (snd (SalesManager_save_to_file st))) :
  SalesManager_init st0 =
  (Ok tt, set_sales (rejoin (products st0) (heap st) (sales st)) st0).
Proof.
  rewrite save_sales_run, (sales_text_ok _ _ _ Hrows) in Hfile.
  cbn [fst sales_csv set_sales_csv] in Hfile.
  rewrite (init_sales_run st0 _ Hfile), (read_saved_sales_fit rows Hfit).
  now rewrite (load_stored_sales_rejoin st (sales st) rows (set_sales [] st0)
                 Hrows Hids Hfit).
Qed.

(** X6: what a reload makes of a saved ledger.  The ledger file that a
    save wrote, loaded by a new [SalesManager] over any catalog, gives
    one sale per saved line item; the product of the item is the one
    that this catalog holds under the saved product id, and the item is
    dropped when the catalog has no such id.  The stored name and total
    are not read: the report after the reload shows the names and prices
    of the catalog it was loaded over.  This is for a ledger that the
    file and its reader can hold: ids without carriage return, no total
    that overflows, no field over the limit of the reader, no quantity
    over the digit limit of [int]. *)
Theorem ledger_reload_rejoins_catalog (st st0 : Shop) (rows : list SaleRow)
  (Hids : ledger_ids_ok st = true)
  (Hrows : report_rows (heap st) (sales st) = Ok rows)
  (Hfit : forallb entry_fits rows = true)
  (Hfile : sales_csv st0 = sales_csv (snd (SalesManager_save_to_file st))) :
  SalesManager_init st0 =
  (Ok tt, set_sales (rejoin (products st0) (heap st) (sales st)) st0).
Proof. exact (init_sales_rejoin st st0 rows Hids Hrows Hfit Hfile). Qed.

(** ** The catalog that the methods keep *)

Lemma dict_set_in {V : Type} (k : pyval) (v : V) (d : list (pyval * V)) (kv : pyval * V) :
  In kv (dict_set k v d) -> kv = (k, v) \/ In kv d.
Proof.
  induction d as [|[k' v'] d IH]; cbn.
  - intros [<-|[]]. now left.
  - destruct (pyval_eqb k k').
    + intros [<-|Hin]; [now left | right; now right].
    + intros [<-|Hin]; [right; now left|].
      destruct (IH Hin) as [->|Hd]; [now left | right; now right].
Qed.

Lemma dict_get_none_keys {V : Type} (k : pyval) (d : list (pyval * V)) :
  dict_get k d = None -> ~ In k (map fst d).
Proof.
  induction d as [|[k' v'] d IH]; cbn; [auto|].
  destruct (pyval_eqb k k') eqn:E; [discriminate|].
  intros H [Hk|Hin]; [|now apply IH].
  subst k'. assert (pyval_eqb k k = true) by now apply pyval_eqb_eq. congruence.
Qed.

Lemma dict_set_keys_present {V : Type} (k : pyval) (v v0 : V) (d : list (pyval * V)) :
  dict_get k d = Some v0 -> map fst (dict_set k v d) = map fst d.
Proof.
  induction d as [|[k' v'] d IH]; cbn; [discriminate|].
  destruct (pyval_eqb k k') eqn:E.
  - apply pyval_eqb_eq in E. now subst k'.
  - intro H. cbn. now rewrite IH.
Qed.

Lemma dict_set_nodup {V : Type} (k : pyval) (v : V) (d : list (pyval * V)) :
  NoDup (map fst d) -> NoDup (map fst (dict_set k v d)).
Proof.
  intro H. destruct (dict_get k d) as [v0|] eqn:E.
  - now rewrite (dict_set_keys_present k v v0 d E).
  - rewrite (dict_set_fresh k v d E), map_app. cbn.
    apply NoDup_app; [exact H | repeat constructor; intros [] |].
    intros a Ha [<-|[]]. exact (dict_get_none_keys k d E Ha).
Qed.

Lemma map_dict_set {V W : Type} (f : V -> W) (k : pyval) (v : V) (d : list (pyval * V)) :
  map (fun kv => (fst kv, f (snd kv))) (dict_set k v d) =
  dict_set k (f v) (map (fun kv => (fst kv, f (snd kv))) d).
Proof.
  induction d as [|[k' v'] d IH]; [reflexivity|]. cbn.
  destruct (pyval_eqb k k'); [reflexivity|]. cbn. now rewrite IH.
Qed.

Lemma store_other (h : ref -> Product) (r r' : ref) (p : Product) :
  (r' < r)%nat -> store h r p r' = h r'.
Proof.
  intro H. unfold store. destruct (Nat.eqb r' r) eqn:E; [|reflexivity].
  apply Nat.eqb_eq in E. unfold ref in *. lia.
Qed.

(** The state after [Product(...)] and [Inventory.add_product], with
    any ledger and files. *)
Lemma add_entry_wf (st : Shop) (p : Product) (l : list Sale) (f g : option string) :
  catalog_wf st ->
  catalog_wf (mkShop (store (heap st) (next_ref st) p) (S (next_ref st))
                     (dict_set (product_id p) (next_ref st) (products st)) l f g).
Proof.
  intros (Hb & Hk & Hnd). rewrite Forall_forall in Hb, Hk.
  repeat split; cbn [products next_ref heap].
  - apply Forall_forall. intros kv Hin.
    destruct (dict_set_in _ _ _ _ Hin) as [->|Hd]; cbn; [lia|].
    specialize (Hb kv Hd). unfold ref in *. lia.
  - apply Forall_forall. intros kv Hin.
    destruct (dict_set_in _ _ _ _ Hin) as [->|Hd]; cbn [fst snd].
    + now rewrite store_same.
    + rewrite store_other by now apply Hb. now apply Hk.
  - now apply dict_set_nodup.
Qed.

Lemma frame_wf (st st' : Shop) :
  same_but_quantities st st' -> catalog_wf st -> catalog_wf st'.
Proof.
  intros (H1 & _ & _ & _ & H5 & H6) (Hb & Hk & Hnd).
  unfold catalog_wf. rewrite H1, H5. repeat split; [exact Hb | | exact Hnd].
  rewrite Forall_forall in Hk |- *. intros kv Hin.
  rewrite (proj1 (H6 (snd kv))). now apply Hk.
Qed.

Lemma best_effort_frame (d : list (pyval * ref)) (items : list (ref * Z)) :
  forall h r,
    product_id (best_effort d items h r) = product_id (h r) /\
    name (best_effort d items h r) = name (h r) /\
    price (best_effort d items h r) = price (h r).
Proof.
  induction items as [|[p q] items IH]; intros h r; [now repeat split|].
  cbn [best_effort].
  match goal with |- context [best_effort d items ?h'] => destruct (IH h' r) as (A & B & C) end.
  rewrite A, B, C.
  destruct (dict_get (product_id (h p)) d) as [r0|]; [|now repeat split].
  destruct (q <=? quantity (h r0)); [|now repeat split].
  unfold store. destruct (Nat.eqb r r0) eqn:E; [|now repeat split].
  apply Nat.eqb_eq in E. subst r0. now repeat split.
Qed.

Lemma record_sale_wf (sale : Sale) (st : Shop) :
  catalog_wf st -> catalog_wf (snd (SalesManager_record_sale sale st)).
Proof.
  intros (Hb & Hk & Hnd). rewrite record_sale_run, save_sales_run.
  repeat split; cbn; auto.
  rewrite Forall_forall in Hk |- *. intros kv Hin.
  rewrite (proj1 (best_effort_frame _ _ _ _)). now apply Hk.
Qed.

Lemma load_inventory_rows_wf (rows : list DictRow) :
  forall st, catalog_wf st -> catalog_wf (snd (for_each Inventory_load_row rows st)).
Proof.
  induction rows as [|row rows IH]; intros st H; [exact H|].
  cbn [for_each]. unfold bind. rewrite inventory_load_row_run.
  destruct (getitem row "product_id") as [pid|]; [|exact H].
  destruct (getitem row "product_name") as [nm|]; [|exact H].
  destruct (getitem row "price") as [pr|]; [|exact H].
  destruct (float_of_pyval pr) as [x|]; [|exact H].
  destruct (getitem row "quantity") as [qt|]; [|exact H].
  destruct (int_of_pyval qt) as [n|]; [|exact H].
  apply IH. exact (add_entry_wf st (mkProduct pid nm x n) _ _ _ H).
Qed.

Lemma set_sales_wf (l : list Sale) (st : Shop) : catalog_wf st -> catalog_wf (set_sales l st).
Proof. auto. Qed.

Lemma empty_catalog_wf (st : Shop) : catalog_wf (set_products [] st).
Proof. repeat split; cbn; constructor. Qed.

(** The state after [Product(...)] and [Inventory.add_product]. *)
Lemma add_product_state (p : Product) (st : Shop) :
  exists f,
    exec (OpAddProduct p) st =
    mkShop (store (heap st) (next_ref st) p) (S (next_ref st))
           (dict_set (product_id p) (next_ref st) (products st))
           (sales st) (Some f) (sales_csv st).
Proof.
  cbn [exec]. unfold Product_new, Inventory_add_product, bind, get, modify, ret.
  rewrite save_inventory_run. cbn [snd heap set_products products].
  rewrite store_same. eexists. reflexivity.
Qed.

Lemma exec_wf (op : Op) (st : Shop) : catalog_wf st -> catalog_wf (exec op st).
Proof.
  intro H. destruct op; [ | | cbn [exec] .. ].
  - destruct (add_product_state p st) as [f ->]. now apply add_entry_wf.
  - destruct (add_product_cases inp st)
      as [(a & b & c & d & rest & x & n & res & _ & _ & _ & E & _) | (e & E & _)];
      cbn [exec]; rewrite E; [|exact H].
    cbn [snd]. destruct (add_product_state (mkProduct (PyStr a) (PyStr b) x n) st) as [f ->].
    now apply add_entry_wf.
  - exact (frame_wf _ _ (update_product_frame pid n st) H).
  - now apply record_sale_wf.
  - destruct inp as [|sid inp]; [exact H|]. rewrite process_sale_run.
    destruct (process_sale_loop_frame inp (Sale_new (PyStr sid)) st) as [Hf _].
    pose proof (frame_wf _ _ Hf H) as H1.
    destruct (process_sale_loop inp (Sale_new (PyStr sid)) st) as [[res|e] st1];
      cbn [snd] in *; [|exact H1].
    rewrite snd_match_result. now apply record_sale_wf.
  - exact H.
  - unfold SalesManager_view_sales_report, bind, get, lift. exact H.
  - rewrite save_inventory_run. exact H.
  - rewrite save_sales_run. exact H.
  - unfold Inventory_load_from_file, bind, get.
    destruct (inventory_csv st) as [text|]; [|exact H].
    rewrite for_each_row_state. now apply load_inventory_rows_wf.
  - destruct (load_sales_state st) as [l ->]. exact H.
  - unfold ShopSystem_init, Inventory_init, SalesManager_init, bind, modify.
    assert (H1 : catalog_wf (snd (Inventory_load_from_file (set_products [] st)))).
    { unfold Inventory_load_from_file, bind, get.
      destruct (inventory_csv (set_products [] st)) as [text|];
        [|apply empty_catalog_wf].
      rewrite for_each_row_state. apply load_inventory_rows_wf, empty_catalog_wf. }
    destruct (Inventory_load_from_file (set_products [] st)) as [[[]|e] st1];
      cbn [snd] in *; [|exact H1].
    destruct (load_sales_state (set_sales [] st1)) as [l ->]. exact H1.
Qed.

(** The reachable states keep [catalog_wf]. *)
Lemma reachable_wf (st : Shop) (Hreach : reachable st) : catalog_wf st.
Proof.
  induction Hreach as [|st op _ IH _].
  - repeat split; constructor.
  - now apply exec_wf.
Qed.

(** X7: in every reachable state the references of the catalog are
    allocated, each key of the catalog is the id of the product stored
    under it, and no key comes twice: the methods add and replace
    entries under the product's own id and nothing renames a product. *)
Theorem reachable_catalog_wf (st : Shop) (Hreach : reachable st) : catalog_wf st.
Proof. exact (reachable_wf st Hreach). Qed.

Lemma dict_get_set_same {V : Type} (k : pyval) (v : V) (d : list (pyval * V)) :
  dict_get k (dict_set k v d) = Some v.
Proof.
  assert (Hk : pyval_eqb k k = true) by now apply pyval_eqb_eq.
  induction d as [|[k' v'] d IH]; cbn; [now rewrite Hk|].
  destruct (pyval_eqb k k') eqn:E; cbn; [now rewrite Hk | now rewrite E].
Qed.

(** X8: [add_product] inserts or overwrites.  In a reachable state,
    after a new product is added the catalog is the catalog before with
    the product put under its id: in the place of the product that had
    this id, or last when the id is new; the other products and their
    order are untouched, and the inventory view lists the product as it
    was given. *)
Theorem add_product_last_write_wins (st : Shop) (p : Product) (Hreach : reachable st) :
  let st' := exec (OpAddProduct p) st in
  catalog st' = dict_set (product_id p) p (catalog st) /\
  dict_get (product_id p) (catalog st') = Some p /\
  Inventory_view_inventory st' =
    (Ok (map (fun kp => Product_to_dict (snd kp)) (catalog st')), st').
Proof.
  cbv zeta. destruct (reachable_wf st Hreach) as (Hb & _ & _).
  destruct (add_product_state p st) as [f ->].
  assert (Hcat : catalog
                   (mkShop (store (heap st) (next_ref st) p) (S (next_ref st))
                      (dict_set (product_id p) (next_ref st) (products st))
                      (sales st) (Some f) (sales_csv st)) =
                 dict_set (product_id p) p (catalog st)).
  { unfold catalog. cbn [products heap].
    rewrite (map_dict_set (store (heap st) (next_ref st) p)), store_same. f_equal.
    apply map_ext_in. intros kv Hin. rewrite Forall_forall in Hb.
    now rewrite store_other by now apply Hb. }
  split; [exact Hcat|]. split.
  - rewrite Hcat. apply dict_get_set_same.
  - unfold Inventory_view_inventory, bind, get, ret, catalog.
    now rewrite map_map.
Qed.

Lemma Sale_entries_ext (h h' : ref -> Product) (sid : pyval) (items : list (ref * Z)) :
  Forall (fun item => h' (fst item) = h (fst item)) items ->
  Sale_entries h' sid items = Sale_entries h sid items.
Proof.
  induction 1 as [|[p q] items Hp _ IH]; [reflexivity|].
  cbn [Sale_entries]. cbn [fst] in Hp. now rewrite Hp, IH.
Qed.

Lemma report_rows_ext (h h' : ref -> Product) (l : list Sale) :
  Forall (fun sale => Forall (fun item => h' (fst item) = h (fst item))
                             (products_sold sale)) l ->
  report_rows h' l = report_rows h l.
Proof.
  induction 1 as [|sale l Hs _ IH]; [reflexivity|].
  cbn [report_rows]. unfold Sale_to_dict. now rewrite (Sale_entries_ext h h' _ _ Hs), IH.
Qed.

(** X9: a sale keeps the product object it sold.  When the references
    of the ledger are allocated, adding a product, also one that takes
    the id of a sold product with another name and price, leaves the
    sales report exactly as it was. *)
Theorem add_product_keeps_sales_report (st : Shop) (p : Product)
  (Hrefs : ledger_refs_ok st = true) :
  fst (SalesManager_view_sales_report (exec (OpAddProduct p) st)) =
  fst (SalesManager_view_sales_report st).
Proof.
  destruct (add_product_state p st) as [f ->].
  unfold SalesManager_view_sales_report, bind, get, lift. cbn [fst heap sales].
  apply report_rows_ext. unfold ledger_refs_ok in Hrefs.
  rewrite forallb_forall in Hrefs. apply Forall_forall. intros sale Hsale.
  specialize (Hrefs sale Hsale). rewrite forallb_forall in Hrefs.
  apply Forall_forall. intros item Hitem. apply store_other.
  apply Nat.ltb_lt. now apply Hrefs.
Qed.

(** ** A session at the menu *)

Lemma process_sale_loop_rest (inp : list string) :
  forall sale st res st',
    process_sale_loop inp sale st = (Ok res, st') ->
    exists pre, inp = pre ++ snd res /\ pre <> [].
Proof.
  induction inp as [|a inp1 H1 H2] using list_ind_two; intros sale st res st'.
  - discriminate.
  - rewrite process_sale_loop_step.
    destruct (String.eqb (lower a) "done").
    { intro H. injection H as <- _. exists [a]. split; [reflexivity | discriminate]. }
    assert (Hcons : forall l, (exists pre, l = pre ++ snd res /\ pre <> []) ->
                              forall x, exists pre, x ++ l = pre ++ snd res /\ pre <> []).
    { intros l (pre & -> & Hne) x. exists (x ++ pre). split; [now rewrite app_assoc|].
      destruct x; [exact Hne | discriminate]. }
    destruct (dict_get (PyStr a) (products st)) as [r|].
    2:{ intro H. exact (Hcons _ (H1 _ _ _ _ H) [a]). }
    destruct inp1 as [|qs inp2]; [discriminate|]. cbn [tl] in H2.
    destruct (py_int qs) as [qty|]; [|discriminate].
    destruct (qty >? quantity (heap st r)); intro H;
      exact (Hcons _ (H2 _ _ _ _ H) [a; qs]).
Qed.

Lemma process_sale_rest (inp : list string) (st st' : Shop) (rest : list string) :
  ShopSystem_process_sale inp st = (Ok rest, st') ->
  exists pre, inp = pre ++ rest /\ pre <> [].
Proof.
  destruct inp as [|sid inp]; [discriminate|]. rewrite process_sale_run.
  pose proof (process_sale_loop_rest inp (Sale_new (PyStr sid)) st) as H.
  destruct (process_sale_loop inp (Sale_new (PyStr sid)) st) as [[res|e] st1];
    [|discriminate].
  destruct (H res st1 eq_refl) as (pre & -> & _).
  destruct (SalesManager_record_sale (fst res) st1) as [[[]|e] st2]; [|discriminate].
  intro E. injection E as <- _. exists (sid :: pre). split; [reflexivity | discriminate].
Qed.

Lemma add_product_rest (inp : list string) (st st' : Shop) (rest : list string) :
  ShopSystem_add_product inp st = (Ok rest, st') ->
  exists pre, inp = pre ++ rest /\ pre <> [].
Proof.
  destruct (add_product_cases inp st)
    as [(a & b & c & d & rest0 & x & n & res & -> & _ & _ & -> & [-> | ->])
        | (e & -> & _)];
    try discriminate.
  intro E. injection E as <- _. exists [a; b; c; d]. split; [reflexivity | discriminate].
Qed.

(** The menu never runs out of turns, and a relation that every choice
    keeps holds between the start and the end of the session. *)
Lemma menu_loop_rel (R : Shop -> Shop -> Prop) (ok : list string -> Prop) :
  (forall st, R st st) ->
  (forall st1 st2 st3, R st1 st2 -> R st2 st3 -> R st1 st3) ->
  (forall inp st, ok inp -> R st (snd (ShopSystem_add_product inp st))) ->
  (forall inp st, ok inp -> R st (snd (ShopSystem_process_sale inp st))) ->
  (forall pre inp, ok (pre ++ inp) -> ok inp) ->
  forall fuel inp st,
    (List.length inp < fuel)%nat -> ok inp ->
    exists res st', menu_loop fuel inp st = Some (res, st') /\ R st st'.
Proof.
  intros Hrefl Htrans Hadd Hsale Hsuffix.
  induction fuel as [|fuel IH]; intros inp st Hlen Hok; [lia|].
  cbn [menu_loop]. destruct inp as [|choice rest].
  { exists (Raise EOFError), st. split; [reflexivity | apply Hrefl]. }
  cbn [List.length] in Hlen.
  assert (Hrest : ok rest) by exact (Hsuffix [choice] rest Hok).
  assert (Hsame : exists res st', menu_loop fuel rest st = Some (res, st') /\ R st st')
    by (apply IH; [lia | exact Hrest]).
  destruct (String.eqb choice "1"); [exact Hsame|].
  destruct (String.eqb choice "2").
  { pose proof (Hadd rest st Hrest) as H1.
    pose proof (add_product_rest rest st) as Hpre.
    destruct (ShopSystem_add_product rest st) as [[rest'|e] st1]; cbn [snd] in H1.
    - destruct (Hpre st1 rest' eq_refl) as (pre & E & Hne).
      destruct (IH rest' st1) as (res & st' & Hrun & HR).
      + rewrite E, length_app in Hlen. lia.
      + apply (Hsuffix pre). now rewrite <- E.
      + exists res, st'. split; [exact Hrun | exact (Htrans _ _ _ H1 HR)].
    - exists (Raise e), st1. now split. }
  destruct (String.eqb choice "3").
  { pose proof (Hsale rest st Hrest) as H1.
    pose proof (process_sale_rest rest st) as Hpre.
    destruct (ShopSystem_process_sale rest st) as [[rest'|e] st1]; cbn [snd] in H1.
    - destruct (Hpre st1 rest' eq_refl) as (pre & E & Hne).
      destruct (IH rest' st1) as (res & st' & Hrun & HR).
      + rewrite E, length_app in Hlen. lia.
      + apply (Hsuffix pre). now rewrite <- E.
      + exists res, st'. split; [exact Hrun | exact (Htrans _ _ _ H1 HR)].
    - exists (Raise e), st1. now split. }
  destruct (String.eqb choice "4").
  { unfold SalesManager_view_sales_report, bind, get, lift.
    destruct (report_rows (heap st) (sales st)); [exact Hsame|].
    exists (Raise e), st. split; [reflexivity | apply Hrefl]. }
  destruct (String.eqb choice "5"); [|exact Hsame].
  exists (Ok rest), st. split; [reflexivity | apply Hrefl].
Qed.

Lemma nonneg_inputs_suffix (pre inp : list string) :
  nonneg_inputs (pre ++ inp) = true -> nonneg_inputs inp = true.
Proof.
  unfold nonneg_inputs. rewrite forallb_app. intro H.
  now apply andb_true_iff in H.
Qed.

Lemma nonneg_inputs_op_ok (inp : list string) :
  nonneg_inputs inp = true -> op_ok (OpAddProductInput inp).
Proof.
  destruct inp as [|a [|b [|c [|d inp]]]]; cbn [op_ok]; auto.
  unfold nonneg_inputs. cbn [forallb]. intro H.
  do 3 (apply andb_true_iff in H; destruct H as [_ H]).
  apply andb_true_iff in H. destruct H as [H _].
  destruct (py_int d) as [n|]; [now apply Z.leb_le | exact I].
Qed.

(** X10: a whole session at the menu.  For every input the loop of
    [display_menu] ends, with choice 5 or with an exception, and when
    the shop starts from a reachable state and no line of the input is
    the text of a negative integer, the state it ends in is reachable:
    no product has a negative quantity, whatever is typed. *)
Theorem session_keeps_quantities (inp : list string) (st : Shop)
  (Hreach : reachable st)
  (Hinp : nonneg_inputs inp = true) :
  exists res st',
    ShopSystem_display_menu inp st = Some (res, st') /\
    reachable st' /\ quantities_nonneg st'.
Proof.
  destruct (menu_loop_rel (fun st st' => reachable st -> reachable st')
              (fun inp => nonneg_inputs inp = true))
    with (fuel := S (List.length inp)) (inp := inp) (st := st)
    as (res & st' & Hrun & HR); auto.
  - intros inp0 st0 Hok H0.
    exact (reachable_step st0 (OpAddProductInput inp0) H0 (nonneg_inputs_op_ok _ Hok)).
  - intros inp0 st0 _ H0. exact (reachable_step st0 (OpProcessSale inp0) H0 I).
  - exact nonneg_inputs_suffix.
  - exists res, st'. split; [exact Hrun|]. split; [now apply HR|].
    exact (proj1 (reachable_inv st' (HR Hreach))).
Qed.

Lemma grows_refl (st : Shop) : grows st st.
Proof. split; exists []; now rewrite app_nil_r. Qed.

Lemma grows_trans (st1 st2 st3 : Shop) : grows st1 st2 -> grows st2 st3 -> grows st1 st3.
Proof.
  intros [(n1 & A1) (k1 & A2)] [(n2 & B1) (k2 & B2)]. split.
  - exists (n1 ++ n2). now rewrite B1, A1, app_assoc.
  - exists (k1 ++ k2). now rewrite B2, A2, app_assoc.
Qed.

Lemma add_product_grows (inp : list string) (st : Shop) :
  grows st (snd (ShopSystem_add_product inp st)).
Proof.
  destruct (add_product_cases inp st)
    as [(a & b & c & d & rest & x & n & res & _ & _ & _ & -> & _) | (e & -> & _)];
    [|apply grows_refl].
  cbn [snd]. destruct (add_product_state (mkProduct (PyStr a) (PyStr b) x n) st) as [f ->].
  split; cbn [sales products product_id].
  - exists []. now rewrite app_nil_r.
  - destruct (dict_get (PyStr a) (products st)) as [r|] eqn:E.
    + exists []. now rewrite (dict_set_keys_present _ _ r _ E), app_nil_r.
    + exists [PyStr a]. now rewrite (dict_set_fresh _ _ _ E), map_app.
Qed.

Lemma process_sale_grows (inp : list string) (st : Shop) :
  grows st (snd (ShopSystem_process_sale inp st)).
Proof.
  destruct (process_sale_frame inp st) as (Hp & _ & _).
  pose proof (process_sale_cases inp st) as H.
  destruct (ShopSystem_process_sale inp st) as [[rest|e] st']; cbn [snd] in *.
  - destruct H as (sid & items & _ & Hs). split.
    + now exists [mkSale (PyStr sid) items].
    + exists []. now rewrite Hp, app_nil_r.
  - split; [|exists []; now rewrite Hp, app_nil_r].
    destruct H as [[_ (sale & Hs)] | [_ (_ & Hs & _)]].
    + now exists [sale].
    + exists []. now rewrite Hs, app_nil_r.
Qed.

(** X11: a session only adds.  For every input and every state, the
    session at the menu ends, and the ledger it leaves is the ledger
    before with the new sales after it, and the keys of the catalog are
    the keys before with the new ids after them: no sale and no product
    is removed or moved, also when the session ends with an exception. *)
Theorem session_only_adds (inp : list string) (st : Shop) :
  exists res st',
    ShopSystem_display_menu inp st = Some (res, st') /\ grows st st'.
Proof.
  apply (menu_loop_rel grows (fun _ => True)); auto.
  - exact grows_refl.
  - exact grows_trans.
  - intros. apply add_product_grows.
  - intros. apply process_sale_grows.
Qed.

(** ** A quantity too large for a float *)

Lemma float_mul_int_raise (x : float) (q : Z) :
  match float_of_int q with
  | Ok _ => exists y, float_mul_int x q = Ok y
  | Raise _ => float_mul_int x q = Raise OverflowError
  end.
Proof.
  unfold float_mul_int, float_of_int.
  destruct (is_infinity _); [reflexivity | eexists; reflexivity].
Qed.

Lemma Sale_entries_overflow (h : ref -> Product) (sid : pyval) (items : list (ref * Z)) :
  if existsb (fun item : ref * Z =>
                match float_of_int (snd item) with Ok _ => false | Raise _ => true end)
             items
  then Sale_entries h sid items = Raise OverflowError
  else exists entries, Sale_entries h sid items = Ok entries.
Proof.
  induction items as [|[p q] items IH]; [now eexists|].
  cbn [existsb Sale_entries snd].
  pose proof (float_mul_int_raise (price (h p)) q) as Hm.
  destruct (float_of_int q) as [y|e]; cbn [orb].
  - destruct Hm as [t ->].
    destruct (existsb _ items); [now rewrite IH|].
    destruct IH as [entries ->]. now eexists.
  - now rewrite Hm.
Qed.

Lemma report_rows_overflow (h : ref -> Product) (l : list Sale) :
  if overflowing l
  then report_rows h l = Raise OverflowError
  else exists rows, report_rows h l = Ok rows.
Proof.
  induction l as [|sale l IH]; [now eexists|].
  cbn [overflowing existsb report_rows]. unfold Sale_to_dict.
  pose proof (Sale_entries_overflow h (sale_id sale) (products_sold sale)) as Hs.
  destruct (existsb _ (products_sold sale)); cbn [orb].
  - now rewrite Hs.
  - destruct Hs as [entries ->]. fold (overflowing l).
    destruct (overflowing l); [now rewrite IH|].
    destruct IH as [rows ->]. now eexists.
Qed.

Lemma sales_text_overflow (h : ref -> Product) (l : list Sale) :
  snd (sales_text h l) =
  match report_rows h l with
  | Ok _ => None
  | Raise e => Some e
  end.
Proof.
  induction l as [|sale l IH]; [reflexivity|].
  cbn [sales_text report_rows].
  destruct (Sale_to_dict h sale) as [entries|e]; [|reflexivity].
  destruct (sales_text h l) as [text err]. cbn [snd] in *. rewrite IH.
  now destruct (report_rows h l).
Qed.

Lemma save_sales_result (st : Shop) :
  fst (SalesManager_save_to_file st) =
  match report_rows (heap st) (sales st) with
  | Ok _ => Ok tt
  | Raise e => Raise e
  end.
Proof.
  unfold SalesManager_save_to_file, bind, get, modify, raise, ret.
  pose proof (sales_text_overflow (heap st) (sales st)) as H.
  destruct (sales_text (heap st) (sales st)) as [text err]. cbn [snd] in H. subst err.
  now destruct (report_rows (heap st) (sales st)).
Qed.

Lemma overflowing_app (l1 l2 : list Sale) :
  overflowing (l1 ++ l2) = (overflowing l1 || overflowing l2)%bool.
Proof. unfold overflowing. apply existsb_app. Qed.

(** X12: a quantity too large for a float.  The report, and so the save
    of the ledger, raise [OverflowError] exactly when some line item of
    the ledger has a quantity that [float] cannot take; they raise
    nothing else.  Once such an item is in the ledger the report raises
    for good, and every later [record_sale] raises too, yet still
    appends its sale. *)
Theorem oversized_quantity_blocks_report (st : Shop) :
  (overflowing (sales st) = false ->
     exists rows, SalesManager_view_sales_report st = (Ok rows, st) /\
                  fst (SalesManager_save_to_file st) = Ok tt) /\
  (overflowing (sales st) = true ->
     SalesManager_view_sales_report st = (Raise OverflowError, st) /\
     fst (SalesManager_save_to_file st) = Raise OverflowError /\
     forall sale,
       fst (SalesManager_record_sale sale st) = Raise OverflowError /\
       sales (snd (SalesManager_record_sale sale st)) = sales st ++ [sale] /\
       overflowing (sales (snd (SalesManager_record_sale sale st))) = true).
Proof.
  unfold SalesManager_view_sales_report, bind, get, lift.
  split; intro H.
  - pose proof (report_rows_overflow (heap st) (sales st)) as Hr. rewrite H in Hr.
    destruct Hr as [rows Hr]. exists rows. rewrite save_sales_result, Hr. now split.
  - pose proof (report_rows_overflow (heap st) (sales st)) as Hr. rewrite H in Hr.
    rewrite save_sales_result, Hr. repeat split.
    + rewrite record_sale_run, save_sales_result. cbn [heap sales set_sales set_heap].
      match goal with
      | |- context [report_rows ?h ?l] => pose proof (report_rows_overflow h l) as Hr'
      end.
      rewrite overflowing_app, H in Hr'. cbn [orb] in Hr'. now rewrite Hr'.
    + apply record_sale_appends_sale.
    + rewrite record_sale_appends_sale, overflowing_app, H. reflexivity.
Qed.

(** ** What comes back from the files *)

Lemma stored_product_row_fields (p : Product) :
  stored_product_row p =
  [("product_id", PyStr (universal_newlines false (csv_text (product_id p))));
   ("product_name", PyStr (universal_newlines false (csv_text (name p))));
   ("price", PyStr (universal_newlines false (float_repr (price p))));
   ("quantity", PyStr (str_of_int (quantity p)))].
Proof.
  unfold stored_product_row, inventory_fields, make_row, inventory_fieldnames.
  cbn [map zip_row List.length skipn app].
  now rewrite (universal_newlines_no_cr (str_of_int (quantity p)))
    by apply no_cr_str_of_int.
Qed.

(** X13: what the reader gets of the stored catalog.  For any products,
    with any characters in their ids and names, [save_to_file] writes
    the products in the order of the catalog up to the first whose
    quantity has too many digits for [str], where it raises
    [ValueError]; and the reader of [load_from_file] yields one row for
    each written product up to the first with a field over its limit,
    where it raises [csv.Error], and no error otherwise.  The id, the
    name and the price of a row are the texts that were written with
    each carriage return, alone or before a line feed, turned into a
    line feed; the quantity is its decimal text. *)
Theorem stored_catalog_parses (st : Shop) :
  let written := take_while prints (stocked st) in
  let read := take_while (fun p => record_fits (inventory_fields p)) written in
  exists text,
    Inventory_save_to_file st =
      (if forallb prints (stocked st) then Ok tt else Raise ValueError,
       set_inventory_csv (Some text) st) /\
    read_csv text =
      (map (fun p =>
              [("product_id", PyStr (universal_newlines false (csv_text (product_id p))));
               ("product_name", PyStr (universal_newlines false (csv_text (name p))));
               ("price", PyStr (universal_newlines false (float_repr (price p))));
               ("quantity", PyStr (str_of_int (quantity p)))])
           read,
       if forallb (fun p => record_fits (inventory_fields p)) written then None
       else Some CsvError).
Proof.
  cbv zeta. rewrite save_inventory_run. eexists. split; [reflexivity|].
  rewrite read_saved_inventory. f_equal.
  apply map_ext. exact stored_product_row_fields.
Qed.

(** X14: the saved catalog comes back.  A catalog whose ids and names
    are strings without carriage return, whose prices come back from
    their text, and which the file and its reader can hold (no quantity
    over the digit limit of [str], no field over the limit of the
    reader) is loaded, from the file that a save wrote and by a new
    [Inventory] in any state of the store, without exception and as the
    same mapping: the same ids in the same order with the same name,
    price and quantity, commas, quotes and line feeds included. *)
Theorem saved_catalog_comes_back (st st0 : Shop)
  (Hok : catalog_ok st)
  (Hfile : inventory_csv st0 = inventory_csv (snd (Inventory_save_to_file st))) :
  Inventory_init st0 = (Ok tt, snd (Inventory_init st0)) /\
  catalog (snd (Inventory_init st0)) = catalog st.
Proof.
  destruct (init_from_saved_catalog st st0 Hok Hfile) as [H1 H2].
  split; [|exact H2].
  destruct (Inventory_init st0) as [res st']. cbn in *. now subst res.
Qed.

(** X15: the saved ledger comes back with the same report.  When the
    sale ids and product ids are strings without carriage return, each
    line item holds the product that the catalog has under its id, no
    total overflows, and the file and its reader can hold every entry
    (no field over the limit of the reader, no quantity over the digit
    limit of [int]), a new [SalesManager] over the same catalog loads
    the file that a save wrote without exception, and its report has
    the same rows in the same order. *)
Theorem saved_ledger_report_comes_back (st : Shop) (rows : list SaleRow)
  (Hok : ledger_ok st = true)
  (Hrows : SalesManager_view_sales_report st = (Ok rows, st))
  (Hfit : forallb entry_fits rows = true) :
  let st2 := snd (SalesManager_init (snd (SalesManager_save_to_file st))) in
  fst (SalesManager_init (snd (SalesManager_save_to_file st))) = Ok tt /\
  SalesManager_view_sales_report st2 = (Ok rows, st2).
Proof.
  cbv zeta.
  assert (Hr : report_rows (heap st) (sales st) = Ok rows).
  { unfold SalesManager_view_sales_report, bind, get, lift in Hrows.
    now injection Hrows. }
  destruct (ledger_reload st rows Hok Hr Hfit) as [Hrun Hrep].
  rewrite Hrun. split; [reflexivity|]. rewrite Hrun in Hrep. cbn [snd] in *.
  unfold SalesManager_view_sales_report, bind, get, lift in Hrep |- *.
  cbn [fst] in Hrep. now rewrite Hrep.
Qed.

(** ** Starting again from the files *)

Lemma dict_get_catalog (st : Shop) (k : pyval) :
  dict_get k (catalog st) = option_map (heap st) (dict_get k (products st)).
Proof.
  unfold catalog. induction (products st) as [|[k' r] d IH]; [reflexivity|].
  cbn. now destruct (pyval_eqb k k').
Qed.

Lemma dict_get_in {V : Type} (k : pyval) (v : V) (d : list (pyval * V)) :
  dict_get k d = Some v -> In (k, v) d.
Proof.
  induction d as [|[k' v'] d IH]; cbn; [discriminate|].
  destruct (pyval_eqb k k') eqn:E.
  - apply pyval_eqb_eq in E. subst k'. intro H. injection H as <-. now left.
  - intro H. right. now apply IH.
Qed.

Lemma report_rows_rejoin (h h1 : ref -> Product) (d1 : list (pyval * ref))
  (l : list Sale) :
  Forall (fun sale =>
            Forall (fun item : ref * Z =>
                      exists r1,
                        dict_get (product_id (h (fst item))) d1 = Some r1 /\
                        product_id (h1 r1) = product_id (h (fst item)) /\
                        name (h1 r1) = name (h (fst item)) /\
                        price (h1 r1) = price (h (fst item)))
                   (products_sold sale)) l ->
  report_rows h1 (rejoin d1 h l) = report_rows h l.
Proof.
  induction 1 as [|[sid items] l Hitems _ IH]; [reflexivity|].
  rewrite rejoin_cons, report_rows_app, IH. cbn [report_rows].
  unfold Sale_to_dict. cbn [sale_id products_sold] in *.
  assert (E : report_rows h1 (rejoin d1 h [mkSale sid items]) = Sale_entries h sid items);
    [|now rewrite E].
  clear IH. cbn [rejoin flat_map sale_id products_sold]. rewrite app_nil_r.
  induction Hitems as [|[p q] items (r1 & Hd & Hi & Hn & Hp) _ IHi];
    cbn [map Sale_entries report_rows fst snd] in *; [reflexivity|].
  rewrite Hd. unfold Sale_to_dict.
  cbn [sale_id products_sold Sale_entries]. rewrite Hi, Hn, Hp, IHi.
  destruct (float_mul_int (price (h p)) q) as [total|]; [|reflexivity].
  now destruct (Sale_entries h sid items).
Qed.

(** X16: starting again keeps the report.  When the catalog file is a
    saved catalog in which every sold product is still found under its
    id with the same name and price, and the ledger file is the saved
    ledger, a new [ShopSystem] loads both files without exception and
    its sales report has the same rows as before, whatever the stored
    quantities are.  Both files are such that they come back: the saved
    catalog is [catalog_ok], the ids of the ledger have no carriage
    return, no total overflows, and no entry of the ledger has a field
    over the limit of the reader or a quantity over the digit limit of
    [int]. *)
Theorem restart_keeps_report (st st_saved : Shop) (rows : list SaleRow)
  (Hcat : catalog_ok st_saved)
  (Hcfile : inventory_csv st = inventory_csv (snd (Inventory_save_to_file st_saved)))
  (Hids : ledger_ids_ok st = true)
  (Hrows : report_rows (heap st) (sales st) = Ok rows)
  (Hfit : forallb entry_fits rows = true)
  (Hlfile : sales_csv st = sales_csv (snd (SalesManager_save_to_file st)))
  (Hsold : sold_in_catalog st st_saved) :
  fst (ShopSystem_init st) = Ok tt /\
  fst (SalesManager_view_sales_report (snd (ShopSystem_init st))) = Ok rows.
Proof.
  destruct (init_from_saved_catalog st_saved st Hcat Hcfile) as [Hres Hc].
  assert (Hs : sales_csv (snd (Inventory_init st)) = sales_csv st).
  { unfold Inventory_init, bind, modify.
    exact (proj2 (proj2 (load_inventory_frame (set_products [] st)))). }
  unfold ShopSystem_init, bind.
  destruct (Inventory_init st) as [res st1]. cbn [fst snd] in *. subst res.
  rewrite <- Hs in Hlfile.
  rewrite (init_sales_rejoin st st1 rows Hids Hrows Hfit Hlfile).
  split; [reflexivity|].
  unfold SalesManager_view_sales_report, bind, get, lift. cbn [fst snd heap sales set_sales].
  rewrite <- Hrows. apply report_rows_rejoin.
  destruct Hcat as [_ Hall]. rewrite Forall_forall in Hall.
  unfold sold_in_catalog in Hsold.
  eapply Forall_impl; [|exact Hsold]. intros sale Hsale.
  eapply Forall_impl; [|exact Hsale]. intros item (r & Hd & Hn & Hp).
  pose proof (dict_get_catalog st1 (product_id (heap st (fst item)))) as H1.
  rewrite Hc, dict_get_catalog, Hd in H1. cbn [option_map] in H1.
  destruct (dict_get (product_id (heap st (fst item))) (products st1)) as [r1|];
    [|discriminate].
  cbn [option_map] in H1. injection H1 as H1. exists r1. split; [reflexivity|].
  rewrite <- H1, Hn, Hp. repeat split.
  exact (proj1 (Hall _ (dict_get_in _ _ _ Hd))).
Qed.

End Shop.

(** ** The theorems at sample inputs *)

Lemma update_product_success_witness :
  dict_get (PyStr "P1") (products (widget_shop 10 [])) = Some 0%nat /\
  4 <= quantity (heap (widget_shop 10 []) 0%nat) /\
  exists st',
    Inventory_update_product (PyStr "P1") 4 (widget_shop 10 []) = (Ok true, st') /\
    quantity (heap st' 0%nat) = 6.
Proof.
  split; [reflexivity|]. split; [cbn; lia|].
  destruct (update_product_success (widget_shop 10 []) (PyStr "P1") 0%nat 4 eq_refl)
    as (st' & Hrun & Hq & _).
  - cbn. lia.
  - exists st'. split; [exact Hrun | exact Hq].
Defined.

Lemma update_product_failure_witness :
  (exists r, dict_get (PyStr "P1") (products (widget_shop 6 [])) = Some r /\
             999 > quantity (heap (widget_shop 6 []) r)) /\
  Inventory_update_product (PyStr "P1") 999 (widget_shop 6 []) =
    (Ok false, widget_shop 6 []) /\
  Inventory_update_product (PyStr "P2") 1 (widget_shop 6 []) =
    (Ok false, widget_shop 6 []).
Proof.
  assert (H : exists r, dict_get (PyStr "P1") (products (widget_shop 6 [])) = Some r /\
                        999 > quantity (heap (widget_shop 6 []) r)).
  { exists 0%nat. split; [reflexivity | cbn; lia]. }
  split; [exact H|]. split.
  - exact (update_product_failure (widget_shop 6 []) (PyStr "P1") 999 (or_intror H)).
  - exact (update_product_failure (widget_shop 6 []) (PyStr "P2") 1 (or_introl eq_refl)).
Defined.

Lemma process_sale_S1_witness :
  let st' := snd (ShopSystem_process_sale sample_repr ["S1"; "P1"; "4"; "done"]
                    (widget_shop 10 [])) in
  quantity (heap st' 0%nat) = 2 /\
  fst (SalesManager_view_sales_report st') =
    Ok [mkSaleRow (PyStr "S1") (PyStr "P1") (PyStr "Widget") 4 10%float].
Proof.
  exact (process_sale_S1_deducts_twice sample_repr (widget_shop 10 []) 0%nat
           eq_refl eq_refl eq_refl).
Defined.

Lemma process_sale_S2_witness :
  let st := widget_shop 6 [mkSale (PyStr "S1") [(0%nat, 4)]] in
  let st' := snd (ShopSystem_process_sale sample_repr ["S2"; "P1"; "999"; "done"] st) in
  sales st' = [mkSale (PyStr "S1") [(0%nat, 4)]; mkSale (PyStr "S2") []] /\
  quantity (heap st' 0%nat) = 6 /\
  fst (SalesManager_view_sales_report st') = fst (SalesManager_view_sales_report st).
Proof.
  destruct (process_sale_S2_skips_item sample_repr
              (widget_shop 6 [mkSale (PyStr "S1") [(0%nat, 4)]]) 0%nat eq_refl eq_refl)
    as (_ & Hs & _ & Hq & Hr).
  split; [exact Hs|]. split; [exact Hq | exact Hr].
Defined.

Lemma quantity_never_negative_witness :
  reachable sample_repr sample_float empty_shop /\
  quantities_nonneg empty_shop /\
  op_ok (OpAddProduct (widget 10)) /\
  quantities_nonneg
    (exec sample_repr sample_float (OpAddProduct (widget 10)) empty_shop).
Proof.
  assert (Hq : quantities_nonneg empty_shop) by (intro r; cbn; lia).
  assert (Hop : op_ok (OpAddProduct (widget 10))) by (cbn; lia).
  split; [constructor|]. split; [exact Hq|]. split; [exact Hop|].
  exact (quantity_never_negative sample_repr sample_float empty_shop
           (OpAddProduct (widget 10))
           (reachable_init sample_repr sample_float) Hq Hop).
Defined.

Lemma load_drops_unknown_products_witness :
  let st := set_sales_csv (Some sample_ledger_file) (widget_shop 10 []) in
  let d := products st in
  let taken := take_while (row_ok d) (fst (read_csv sample_ledger_file)) in
  sales_csv st = Some sample_ledger_file /\
  taken = sample_rows /\
  exists new new',
    snd (SalesManager_load_from_file st) = set_sales (sales st ++ new) st /\
    Forall2 (row_sale d) taken new /\
    Forall2 (row_sale d) (filter (row_known d) taken) new' /\
    (forall h, report_rows h new = report_rows h new') /\
    (fst (SalesManager_load_from_file st) = Ok tt <->
     forallb (row_ok d) (fst (read_csv sample_ledger_file)) = true /\
     snd (read_csv sample_ledger_file) = None).
Proof.
  cbv zeta. split; [reflexivity|]. split; [reflexivity|].
  exact (load_drops_unknown_products
           (set_sales_csv (Some sample_ledger_file) (widget_shop 10 []))
           sample_ledger_file eq_refl).
Defined.

Lemma reload_one_sale_per_line_item_witness :
  let st := widget_shop 10 [mkSale (PyStr "S1") [(0%nat, 4); (0%nat, 2)]] in
  ledger_ok st = true /\
  report_rows (heap st) (sales st) =
    Ok [mkSaleRow (PyStr "S1") (PyStr "P1") (PyStr "Widget") 4 10%float;
        mkSaleRow (PyStr "S1") (PyStr "P1") (PyStr "Widget") 2 5%float] /\
  sales (snd (SalesManager_init (snd (SalesManager_save_to_file sample_repr st)))) =
    [mkSale (PyStr "S1") [(0%nat, 4)]; mkSale (PyStr "S1") [(0%nat, 2)]].
Proof.
  cbv zeta. split; [reflexivity|]. split; [reflexivity|].
  exact (proj1 (proj2 (reload_one_sale_per_line_item sample_repr
                         (widget_shop 10 [mkSale (PyStr "S1") [(0%nat, 4); (0%nat, 2)]])))
           _ eq_refl eq_refl eq_refl).
Defined.

Lemma ledger_reload_witness :
  let st := widget_shop 10 [mkSale (PyStr "S1") [(0%nat, 4); (0%nat, 2)]] in
  let st1 := snd (SalesManager_save_to_file sample_repr st) in
  ledger_ok st = true /\
  fst (SalesManager_view_sales_report (snd (SalesManager_init st1))) =
    fst (SalesManager_view_sales_report st).
Proof.
  cbv zeta. split; [reflexivity|].
  exact (proj2 (ledger_reload sample_repr
                  (widget_shop 10 [mkSale (PyStr "S1") [(0%nat, 4); (0%nat, 2)]])
                  _ eq_refl eq_refl eq_refl)).
Defined.

Lemma catalog_reload_witness :
  let st := widget_shop 10 [] in
  let st1 := snd (Inventory_save_to_file sample_repr st) in
  catalog_ok sample_repr sample_float st /\
  fst (Inventory_init sample_float st1) = Ok tt /\
  catalog (snd (Inventory_init sample_float st1)) = catalog st.
Proof.
  assert (H : catalog_ok sample_repr sample_float (widget_shop 10 [])).
  { split.
    - repeat constructor. intros [].
    - repeat constructor. }
  cbv zeta. split; [exact H|].
  exact (catalog_reload sample_repr sample_float (widget_shop 10 []) H).
Defined.

Lemma single_item_sale_stock_witness :
  let st' := snd (ShopSystem_process_sale sample_repr ["S7"; "P1"; "3"; "done"]
                    (widget_shop 5 [])) in
  quantity (heap st' 0%nat) = 2 /\
  sales st' = [mkSale (PyStr "S7") [(0%nat, 3)]].
Proof.
  exact (single_item_sale_stock sample_repr (widget_shop 5 []) "S7" "P1" "3" 3 0%nat
           eq_refl eq_refl eq_refl eq_refl).
Defined.

Lemma files_written_by_their_methods_only_witness :
  inventory_csv
    (exec sample_repr sample_float (OpProcessSale ["S1"; "P1"; "4"; "done"])
       (widget_shop 10 [])) =
  inventory_csv (widget_shop 10 []).
Proof.
  exact (proj1 (files_written_by_their_methods_only sample_repr sample_float
                  (OpProcessSale ["S1"; "P1"; "4"; "done"]) (widget_shop 10 []))
           eq_refl).
Defined.

Lemma sale_not_saved_in_catalog_witness :
  let st := widget_shop 10 [] in
  let st1 := snd (Inventory_save_to_file sample_repr st) in
  let st2 := snd (ShopSystem_process_sale sample_repr ["S1"; "P1"; "4"; "done"] st1) in
  catalog_ok sample_repr sample_float st /\
  quantity (heap st2 0%nat) = 2 /\
  catalog (snd (Inventory_init sample_float st2)) = [(PyStr "P1", widget 10)].
Proof.
  assert (H : catalog_ok sample_repr sample_float (widget_shop 10 [])).
  { split.
    - repeat constructor. intros [].
    - repeat constructor. }
  cbv zeta. split; [exact H|]. split; [reflexivity|].
  exact (proj2 (proj2 (sale_not_saved_in_catalog sample_repr sample_float
                         (widget_shop 10 []) ["S1"; "P1"; "4"; "done"] H))).
Defined.

Lemma ledger_reload_rejoins_catalog_witness :
  let st := widget_shop 10 [mkSale (PyStr "S1") [(0%nat, 4)]] in
  let st0 := set_products [] (snd (SalesManager_save_to_file sample_repr st)) in
  ledger_ids_ok st = true /\
  SalesManager_init st0 = (Ok tt, set_sales [mkSale (PyStr "S1") []] st0).
Proof.
  cbv zeta. split; [reflexivity|].
  exact (ledger_reload_rejoins_catalog sample_repr
           (widget_shop 10 [mkSale (PyStr "S1") [(0%nat, 4)]])
           (set_products []
              (snd (SalesManager_save_to_file sample_repr
                      (widget_shop 10 [mkSale (PyStr "S1") [(0%nat, 4)]]))))
           _ eq_refl eq_refl eq_refl eq_refl).
Defined.

Lemma reachable_catalog_wf_witness :
  reachable sample_repr sample_float
    (exec sample_repr sample_float (OpAddProduct (widget 10)) empty_shop) /\
  catalog_wf (exec sample_repr sample_float (OpAddProduct (widget 10)) empty_shop).
Proof.
  assert (Hop : op_ok (OpAddProduct (widget 10))) by (cbn; lia).
  assert (H : reachable sample_repr sample_float
                (exec sample_repr sample_float (OpAddProduct (widget 10)) empty_shop)).
  { exact (reachable_step sample_repr sample_float empty_shop (OpAddProduct (widget 10))
             (reachable_init sample_repr sample_float) Hop). }
  split; [exact H|].
  exact (reachable_catalog_wf sample_repr sample_float _ H).
Defined.

Lemma add_product_last_write_wins_witness :
  let st' := exec sample_repr sample_float (OpAddProduct (widget 10)) empty_shop in
  reachable sample_repr sample_float empty_shop /\
  catalog st' = [(PyStr "P1", widget 10)] /\
  dict_get (PyStr "P1") (catalog st') = Some (widget 10).
Proof.
  cbv zeta. split; [constructor|].
  destruct (add_product_last_write_wins sample_repr sample_float empty_shop (widget 10)
              (reachable_init sample_repr sample_float)) as (H1 & H2 & _).
  split; [exact H1 | exact H2].
Defined.

Lemma add_product_keeps_sales_report_witness :
  let st := widget_shop 6 [mkSale (PyStr "S1") [(0%nat, 4)]] in
  let p := mkProduct (PyStr "P1") (PyStr "Gadget") 5%float 1 in
  ledger_refs_ok st = true /\
  fst (SalesManager_view_sales_report (exec sample_repr sample_float (OpAddProduct p) st)) =
  Ok [mkSaleRow (PyStr "S1") (PyStr "P1") (PyStr "Widget") 4 10%float].
Proof.
  cbv zeta. split; [reflexivity|].
  exact (add_product_keeps_sales_report sample_repr sample_float
           (widget_shop 6 [mkSale (PyStr "S1") [(0%nat, 4)]])
           (mkProduct (PyStr "P1") (PyStr "Gadget") 5%float 1) eq_refl).
Defined.

Lemma session_keeps_quantities_witness :
  let inp := ["2"; "P1"; "Widget"; "2.5"; "10"; "3"; "S1"; "P1"; "4"; "done"; "5"] in
  nonneg_inputs inp = true /\
  exists res st',
    ShopSystem_display_menu sample_repr sample_float inp empty_shop = Some (res, st') /\
    reachable sample_repr sample_float st' /\ quantities_nonneg st'.
Proof.
  cbv zeta. split; [reflexivity|].
  exact (session_keeps_quantities sample_repr sample_float
           ["2"; "P1"; "Widget"; "2.5"; "10"; "3"; "S1"; "P1"; "4"; "done"; "5"]
           empty_shop (reachable_init sample_repr sample_float) eq_refl).
Defined.

Lemma oversized_quantity_blocks_report_witness :
  let st := widget_shop 10 [mkSale (PyStr "S1") [(0%nat, 2 ^ 1024)]] in
  overflowing (sales st) = true /\
  SalesManager_view_sales_report st = (Raise OverflowError, st).
Proof.
  cbv zeta. split; [reflexivity|].
  exact (proj1 (proj2 (oversized_quantity_blocks_report sample_repr
                         (widget_shop 10 [mkSale (PyStr "S1") [(0%nat, 2 ^ 1024)]]))
                  eq_refl)).
Defined.

Lemma saved_catalog_comes_back_witness :
  let st := widget_shop 10 [] in
  let st0 := set_inventory_csv (inventory_csv (snd (Inventory_save_to_file sample_repr st)))
               empty_shop in
  catalog_ok sample_repr sample_float st /\
  catalog (snd (Inventory_init sample_float st0)) = [(PyStr "P1", widget 10)].
Proof.
  assert (H : catalog_ok sample_repr sample_float (widget_shop 10 [])).
  { split.
    - repeat constructor. intros [].
    - repeat constructor. }
  cbv zeta. split; [exact H|].
  exact (proj2 (saved_catalog_comes_back sample_repr sample_float (widget_shop 10 [])
                  (set_inventory_csv
                     (inventory_csv (snd (Inventory_save_to_file sample_repr
                                            (widget_shop 10 []))))
                     empty_shop)
                  H eq_refl)).
Defined.

Lemma saved_ledger_report_comes_back_witness :
  let st := widget_shop 10 [mkSale (PyStr "S1") [(0%nat, 4); (0%nat, 2)]] in
  let st2 := snd (SalesManager_init (snd (SalesManager_save_to_file sample_repr st))) in
  ledger_ok st = true /\
  SalesManager_view_sales_report st2 =
    (Ok [mkSaleRow (PyStr "S1") (PyStr "P1") (PyStr "Widget") 4 10%float;
         mkSaleRow (PyStr "S1") (PyStr "P1") (PyStr "Widget") 2 5%float], st2).
Proof.
  cbv zeta. split; [reflexivity|].
  exact (proj2 (saved_ledger_report_comes_back sample_repr
                  (widget_shop 10 [mkSale (PyStr "S1") [(0%nat, 4); (0%nat, 2)]])
                  _ eq_refl eq_refl eq_refl)).
Defined.

Lemma restart_keeps_report_witness :
  let st0 := exec sample_repr sample_float (OpAddProduct (widget 10)) empty_shop in
  let st := exec sample_repr sample_float (OpProcessSale ["S1"; "P1"; "4"; "done"]) st0 in
  catalog_ok sample_repr sample_float st0 /\
  sold_in_catalog st st0 /\
  fst (ShopSystem_init sample_float st) = Ok tt /\
  fst (SalesManager_view_sales_report (snd (ShopSystem_init sample_float st))) =
    Ok [mkSaleRow (PyStr "S1") (PyStr "P1") (PyStr "Widget") 4 10%float].
Proof.
  cbv zeta.
  assert (H : catalog_ok sample_repr sample_float
                (exec sample_repr sample_float (OpAddProduct (widget 10)) empty_shop)).
  { split.
    - repeat constructor. intros [].
    - repeat constructor. }
  assert (Hsold : sold_in_catalog
                    (exec sample_repr sample_float
                       (OpProcessSale ["S1"; "P1"; "4"; "done"])
                       (exec sample_repr sample_float (OpAddProduct (widget 10)) empty_shop))
                    (exec sample_repr sample_float (OpAddProduct (widget 10)) empty_shop)).
  { constructor; [|constructor]. constructor; [|constructor].
    exists 0%nat. repeat split. }
  split; [exact H|]. split; [exact Hsold|].
  exact (restart_keeps_report sample_repr sample_float
           (exec sample_repr sample_float (OpProcessSale ["S1"; "P1"; "4"; "done"])
              (exec sample_repr sample_float (OpAddProduct (widget 10)) empty_shop))
           (exec sample_repr sample_float (OpAddProduct (widget 10)) empty_shop)
           [mkSaleRow (PyStr "S1") (PyStr "P1") (PyStr "Widget") 4 10%float]
           H eq_refl eq_refl eq_refl eq_refl eq_refl Hsold).
Defined.
